(** * Creators Nepal: stored procedures, triggers and client handlers

    A shallow embedding of the SQL helper functions and counter triggers of
    the Supabase migration, of the React handlers that touch the same
    counters, of the auth context, of the post form's slug generation and of
    the backend cleanup script, together with the properties the
    specification states about them. *)

From stdpp Require Import base option list sorting strings gmap.
From Stdlib Require Import ZArith NArith Lia.

Local Open Scope Z_scope.

(** ** SQL values

    Nullable integer columns are [option Z]; [None] is SQL NULL.  The
    arithmetic below follows PostgreSQL: [+] and [-] propagate NULL,
    [GREATEST] ignores NULL arguments, [COALESCE] takes the first non-NULL
    one.  Integers are the mathematical ones: the [CREATE TABLE] statements
    are not part of the migration at hand, so no column width is known.  A
    [uuid] is an opaque number, a timestamp a number of microseconds, and a
    [numeric] amount a whole number of the smallest unit. *)
Module Sql.

Definition uuid := N.
Definition timestamptz := Z.
Definition numeric := Z.

Definition plus (a b : option Z) : option Z :=
  match a, b with
  | Some x, Some y => Some (x + y)
  | _, _ => None
  end.

Definition minus (a b : option Z) : option Z :=
  match a, b with
  | Some x, Some y => Some (x - y)
  | _, _ => None
  end.

Definition GREATEST (a b : option Z) : option Z :=
  match a, b with
  | Some x, Some y => Some (Z.max x y)
  | Some x, None => Some x
  | None, Some y => Some y
  | None, None => None
  end.

Definition COALESCE (a : option Z) (d : Z) : Z :=
  match a with
  | Some x => x
  | None => d
  end.

(** [a = b] on a nullable left operand: NULL never compares equal. *)
Definition eq_null (a : option uuid) (b : uuid) : bool :=
  match a with
  | Some x => N.eqb x b
  | None => false
  end.

(** [UPDATE t SET ... WHERE cond]: every row satisfying [cond] is replaced by
    [set row], the others are left as they are. *)
Definition UPDATE_WHERE {A} (t : list A) (set : A → A) (cond : A → bool) : list A :=
  (λ r, if cond r then set r else r) <$> t.

(** [SELECT COUNT( * ) FROM t WHERE cond]. *)
Fixpoint COUNT {A} (cond : A → bool) (t : list A) : Z :=
  match t with
  | [] => 0
  | r :: t' => (if cond r then 1 else 0) + COUNT cond t'
  end.

(** [l INNER JOIN r ON on]: the pairs that satisfy the join condition. *)
Definition INNER_JOIN {L R} (l : list L) (r : list R) (on : L → R → bool)
    : list (L * R) :=
  flat_map (λ x, (λ y, (x, y)) <$> List.filter (on x) r) l.

(** [l LEFT JOIN r ON on]: as the inner join, but a left row without a
    partner is kept once, with NULL on the right. *)
Definition LEFT_JOIN {L R} (l : list L) (r : list R) (on : L → R → bool)
    : list (L * option R) :=
  flat_map (λ x,
    match List.filter (on x) r with
    | [] => [(x, None)]
    | ms => (λ y, (x, Some y)) <$> ms
    end) l.

(** [SUM(e)] over a group: NULL inputs are skipped, and the sum of no value
    at all is NULL. *)
Definition SUM (vs : list (option Z)) : option Z :=
  match omap id vs with
  | [] => None
  | xs => Some (foldr Z.add 0 xs)
  end.

(** [COUNT(DISTINCT e)] over a group: the number of different non-NULL
    values. *)
Definition COUNT_DISTINCT (vs : list (option uuid)) : Z :=
  Z.of_nat (length (remove_dups (omap id vs))).

Definition IS_NULL {A} (a : option A) : bool :=
  match a with
  | Some _ => false
  | None => true
  end.

(** Outcome of a set-returning function: the rows, or the error the engine
    raises before any row is produced. *)
Inductive result (A : Type) :=
  | Rows (rs : list A)
  | Error (msg : string).
Arguments Rows {A} rs.
Arguments Error {A} msg.

(** A column name written without a table qualifier, looked up in the
    tables the statement has in scope, each given by its column names.  The
    name is resolved when exactly one of them has such a column; otherwise
    PostgreSQL raises undefined_column (42703) or ambiguous_column (42702)
    when it analyses the statement, before any row is touched.  [None] means
    resolved, [Some sqlstate] is the error. *)
Definition column_ref (name : string) (scope : list (list string))
    : option string :=
  match List.filter (λ columns, bool_decide (name ∈ columns)) scope with
  | [_] => None
  | [] => Some "42703"
  | _ => Some "42702"
  end.

End Sql.
Import Sql.

(** ** Tables

    The columns the helper functions and triggers read or write, with the
    names the SQL gives them.  Counter columns are nullable integers (the
    functions wrap them in COALESCE), and so is [posts.series_id] (the post
    form inserts posts without one).  A table is the list of its rows.  Row
    level security is not part of the model. *)
Module Db.

Inductive user_role := role_user | role_creator | role_admin.

Record users_row := {
  u_id : uuid;
  u_display_name : string;
  u_avatar_url : option string;
  u_role : user_role;
  u_is_verified : bool;
}.

Record creator_profiles_row := {
  cp_user_id : uuid;
  cp_followers_count : option Z;
  cp_likes_count : option Z;
  cp_posts_count : option Z;
  cp_series_count : option Z;
}.

Record posts_row := {
  p_id : uuid;
  p_user_id : uuid;
  p_series_id : option uuid;
  p_title : string;
  p_content : string;
  p_number : Z;
  p_thumbnail_url : option string;
  p_created_at : timestamptz;
  p_is_published : bool;
  p_deleted_at : option timestamptz;
  p_likes_count : option Z;
  p_comments_count : option Z;
  p_views_count : option Z;
}.

Record series_row := {
  s_id : uuid;
  s_user_id : uuid;
  s_title : string;
  s_deleted_at : option timestamptz;
  s_posts_count : option Z;
}.

Record follows_row := {
  f_follower_id : uuid;
  f_following_id : uuid;
}.

Record post_likes_row := {
  pl_post_id : uuid;
  pl_user_id : uuid;
}.

Record post_comments_row := {
  pc_post_id : uuid;
  pc_user_id : uuid;
}.

Inductive transaction_status :=
  | st_pending | st_completed | st_failed | st_cancelled | st_refunded.

Record supporter_transactions_row := {
  st_id : uuid;
  st_supporter_id : uuid;
  st_creator_id : uuid;
  st_amount : numeric;
  st_status : transaction_status;
}.

Inductive subscription_status :=
  | sub_active | sub_paused | sub_cancelled | sub_expired.

Record subscriptions_row := {
  sub_id : uuid;
  sub_creator_id : uuid;
  sub_status : subscription_status;
}.

Record database := {
  users : list users_row;
  creator_profiles : list creator_profiles_row;
  posts : list posts_row;
  series : list series_row;
  follows : list follows_row;
  post_likes : list post_likes_row;
  post_comments : list post_comments_row;
  supporter_transactions : list supporter_transactions_row;
  subscriptions : list subscriptions_row;
}.

(** Column and table setters. *)
Definition set_p_likes_count (c : option Z) (p : posts_row) : posts_row :=
  {| p_id := p_id p; p_user_id := p_user_id p; p_series_id := p_series_id p;
     p_title := p_title p; p_content := p_content p; p_number := p_number p;
     p_thumbnail_url := p_thumbnail_url p; p_created_at := p_created_at p;
     p_is_published := p_is_published p; p_deleted_at := p_deleted_at p;
     p_likes_count := c; p_comments_count := p_comments_count p;
     p_views_count := p_views_count p |}.

Definition set_p_comments_count (c : option Z) (p : posts_row) : posts_row :=
  {| p_id := p_id p; p_user_id := p_user_id p; p_series_id := p_series_id p;
     p_title := p_title p; p_content := p_content p; p_number := p_number p;
     p_thumbnail_url := p_thumbnail_url p; p_created_at := p_created_at p;
     p_is_published := p_is_published p; p_deleted_at := p_deleted_at p;
     p_likes_count := p_likes_count p; p_comments_count := c;
     p_views_count := p_views_count p |}.

Definition set_s_posts_count (c : option Z) (s : series_row) : series_row :=
  {| s_id := s_id s; s_user_id := s_user_id s; s_title := s_title s;
     s_deleted_at := s_deleted_at s; s_posts_count := c |}.

Definition set_cp_followers_count (c : option Z) (cp : creator_profiles_row) :=
  {| cp_user_id := cp_user_id cp; cp_followers_count := c;
     cp_likes_count := cp_likes_count cp; cp_posts_count := cp_posts_count cp;
     cp_series_count := cp_series_count cp |}.

Definition set_cp_likes_count (c : option Z) (cp : creator_profiles_row) :=
  {| cp_user_id := cp_user_id cp; cp_followers_count := cp_followers_count cp;
     cp_likes_count := c; cp_posts_count := cp_posts_count cp;
     cp_series_count := cp_series_count cp |}.

Definition set_cp_posts_count (c : option Z) (cp : creator_profiles_row) :=
  {| cp_user_id := cp_user_id cp; cp_followers_count := cp_followers_count cp;
     cp_likes_count := cp_likes_count cp; cp_posts_count := c;
     cp_series_count := cp_series_count cp |}.

Definition set_cp_series_count (c : option Z) (cp : creator_profiles_row) :=
  {| cp_user_id := cp_user_id cp; cp_followers_count := cp_followers_count cp;
     cp_likes_count := cp_likes_count cp; cp_posts_count := cp_posts_count cp;
     cp_series_count := c |}.

Definition with_creator_profiles (t : list creator_profiles_row) (db : database) :=
  {| users := users db; creator_profiles := t; posts := posts db;
     series := series db; follows := follows db; post_likes := post_likes db;
     post_comments := post_comments db;
     supporter_transactions := supporter_transactions db;
     subscriptions := subscriptions db |}.

Definition with_posts (t : list posts_row) (db : database) :=
  {| users := users db; creator_profiles := creator_profiles db; posts := t;
     series := series db; follows := follows db; post_likes := post_likes db;
     post_comments := post_comments db;
     supporter_transactions := supporter_transactions db;
     subscriptions := subscriptions db |}.

Definition with_series (t : list series_row) (db : database) :=
  {| users := users db; creator_profiles := creator_profiles db;
     posts := posts db; series := t; follows := follows db;
     post_likes := post_likes db; post_comments := post_comments db;
     supporter_transactions := supporter_transactions db;
     subscriptions := subscriptions db |}.

Definition with_follows (t : list follows_row) (db : database) :=
  {| users := users db; creator_profiles := creator_profiles db;
     posts := posts db; series := series db; follows := t;
     post_likes := post_likes db; post_comments := post_comments db;
     supporter_transactions := supporter_transactions db;
     subscriptions := subscriptions db |}.

Definition with_post_likes (t : list post_likes_row) (db : database) :=
  {| users := users db; creator_profiles := creator_profiles db;
     posts := posts db; series := series db; follows := follows db;
     post_likes := t; post_comments := post_comments db;
     supporter_transactions := supporter_transactions db;
     subscriptions := subscriptions db |}.

Definition with_supporter_transactions (t : list supporter_transactions_row)
    (db : database) :=
  {| users := users db; creator_profiles := creator_profiles db;
     posts := posts db; series := series db; follows := follows db;
     post_likes := post_likes db; post_comments := post_comments db;
     supporter_transactions := t; subscriptions := subscriptions db |}.

Definition with_post_comments (t : list post_comments_row) (db : database) :=
  {| users := users db; creator_profiles := creator_profiles db;
     posts := posts db; series := series db; follows := follows db;
     post_likes := post_likes db; post_comments := t;
     supporter_transactions := supporter_transactions db;
     subscriptions := subscriptions db |}.

Definition empty : database :=
  {| users := []; creator_profiles := []; posts := []; series := [];
     follows := []; post_likes := []; post_comments := [];
     supporter_transactions := []; subscriptions := [] |}.

(** The names of the columns above, as the SQL writes them. *)
Definition creator_profiles_columns : list string :=
  [ "user_id"; "followers_count"; "likes_count"; "posts_count";
    "series_count" ].

Definition posts_columns : list string :=
  [ "id"; "user_id"; "series_id"; "title"; "content"; "number";
    "thumbnail_url"; "created_at"; "is_published"; "deleted_at";
    "likes_count"; "comments_count"; "views_count" ].

End Db.
Import Db.

(** ** Counter triggers (helper-functions migration)

    Each trigger function receives [TG_OP] and the affected row ([NEW] on
    insert, [OLD] on delete) and updates the counter columns.  The triggers
    are declared [AFTER INSERT OR DELETE ... FOR EACH ROW], so the function
    runs on the table state that already contains (or no longer contains)
    the row. *)
Module Triggers.

Inductive tg_op := INSERT | UPDATE | DELETE | TRUNCATE.

Definition incr (c : option Z) : option Z := plus c (Some 1).
Definition decr (c : option Z) : option Z := GREATEST (minus c (Some 1)) (Some 0).

(** What a trigger function that can fail does: it returns, with the
    database as its statements have left it, or one of its statements raises
    an error, given by its SQLSTATE. *)
Inductive fired :=
  | Returned (db : database)
  | Raised (sqlstate : string).

(** The first [UPDATE] names one table.  The second one is
    [UPDATE public.creator_profiles cp SET likes_count = likes_count + 1
     FROM public.posts p WHERE ...]: it has [cp] and [p] in scope, and the
    [likes_count] to the right of [=] carries no qualifier, so it is looked
    up in both.  Were it resolved, it could only be the column of the
    statement's own table, which [SET] requires to have one. *)
Definition update_post_likes_count (TG_OP : tg_op) (row : post_likes_row)
    (db : database) : fired :=
  let on_post (p : posts_row) := N.eqb (p_id p) (pl_post_id row) in
  let on_creator (db' : database) (cp : creator_profiles_row) :=
    existsb (λ p, N.eqb (p_id p) (pl_post_id row)
                  && N.eqb (cp_user_id cp) (p_user_id p)) (posts db') in
  match TG_OP with
  | INSERT =>
      let db1 := with_posts
        (UPDATE_WHERE (posts db)
           (λ p, set_p_likes_count (incr (p_likes_count p)) p) on_post) db in
      match column_ref "likes_count"
              [creator_profiles_columns; posts_columns] with
      | Some sqlstate => Raised sqlstate
      | None =>
          Returned
            (with_creator_profiles
               (UPDATE_WHERE (creator_profiles db1)
                  (λ cp, set_cp_likes_count (incr (cp_likes_count cp)) cp)
                  (on_creator db1)) db1)
      end
  | DELETE =>
      let db1 := with_posts
        (UPDATE_WHERE (posts db)
           (λ p, set_p_likes_count (decr (p_likes_count p)) p) on_post) db in
      match column_ref "likes_count"
              [creator_profiles_columns; posts_columns] with
      | Some sqlstate => Raised sqlstate
      | None =>
          Returned
            (with_creator_profiles
               (UPDATE_WHERE (creator_profiles db1)
                  (λ cp, set_cp_likes_count (decr (cp_likes_count cp)) cp)
                  (on_creator db1)) db1)
      end
  | _ => Returned db
  end.

Definition update_post_comments_count (TG_OP : tg_op) (row : post_comments_row)
    (db : database) : database :=
  let on_post (p : posts_row) := N.eqb (p_id p) (pc_post_id row) in
  match TG_OP with
  | INSERT =>
      with_posts
        (UPDATE_WHERE (posts db)
           (λ p, set_p_comments_count (incr (p_comments_count p)) p) on_post) db
  | DELETE =>
      with_posts
        (UPDATE_WHERE (posts db)
           (λ p, set_p_comments_count (decr (p_comments_count p)) p) on_post) db
  | _ => db
  end.

Definition update_followers_count (TG_OP : tg_op) (row : follows_row)
    (db : database) : database :=
  let on_creator (cp : creator_profiles_row) :=
    N.eqb (cp_user_id cp) (f_following_id row) in
  match TG_OP with
  | INSERT =>
      with_creator_profiles
        (UPDATE_WHERE (creator_profiles db)
           (λ cp, set_cp_followers_count (incr (cp_followers_count cp)) cp)
           on_creator) db
  | DELETE =>
      with_creator_profiles
        (UPDATE_WHERE (creator_profiles db)
           (λ cp, set_cp_followers_count (decr (cp_followers_count cp)) cp)
           on_creator) db
  | _ => db
  end.

Definition update_series_posts_count (TG_OP : tg_op) (row : posts_row)
    (db : database) : database :=
  let on_series (s : series_row) := eq_null (p_series_id row) (s_id s) in
  let on_creator (cp : creator_profiles_row) :=
    N.eqb (cp_user_id cp) (p_user_id row) in
  match TG_OP with
  | INSERT =>
      let db1 := with_series
        (UPDATE_WHERE (series db)
           (λ s, set_s_posts_count (incr (s_posts_count s)) s) on_series) db in
      with_creator_profiles
        (UPDATE_WHERE (creator_profiles db1)
           (λ cp, set_cp_posts_count (incr (cp_posts_count cp)) cp)
           on_creator) db1
  | DELETE =>
      let db1 := with_series
        (UPDATE_WHERE (series db)
           (λ s, set_s_posts_count (decr (s_posts_count s)) s) on_series) db in
      with_creator_profiles
        (UPDATE_WHERE (creator_profiles db1)
           (λ cp, set_cp_posts_count (decr (cp_posts_count cp)) cp)
           on_creator) db1
  | _ => db
  end.

Definition update_creator_series_count (TG_OP : tg_op) (row : series_row)
    (db : database) : database :=
  let on_creator (cp : creator_profiles_row) :=
    N.eqb (cp_user_id cp) (s_user_id row) in
  match TG_OP with
  | INSERT =>
      with_creator_profiles
        (UPDATE_WHERE (creator_profiles db)
           (λ cp, set_cp_series_count (incr (cp_series_count cp)) cp)
           on_creator) db
  | DELETE =>
      with_creator_profiles
        (UPDATE_WHERE (creator_profiles db)
           (λ cp, set_cp_series_count (decr (cp_series_count cp)) cp)
           on_creator) db
  | _ => db
  end.

(** *** Row-level statements with their AFTER trigger

    [insert_*] appends the row and fires the trigger with [NEW];
    [delete_*] removes the row stored at position [i] and fires the trigger
    with [OLD].  A delete that hits no row fires nothing.  The statements on
    [post_likes] end as their trigger does. *)
Definition insert_post_likes (NEW : post_likes_row) (db : database) : fired :=
  update_post_likes_count INSERT NEW (with_post_likes (post_likes db ++ [NEW]) db).

Definition delete_post_likes (i : nat) (db : database) : fired :=
  match post_likes db !! i with
  | Some OLD =>
      update_post_likes_count DELETE OLD (with_post_likes (delete i (post_likes db)) db)
  | None => Returned db
  end.

(** The database a statement leaves behind: the state its trigger returned
    or, when the trigger raised, the state before the statement, which is
    rolled back together with everything the trigger had done. *)
Definition committed (stmt : database → fired) (db : database) : database :=
  match stmt db with
  | Returned db' => db'
  | Raised _ => db
  end.

Definition insert_post_comments (NEW : post_comments_row) (db : database) : database :=
  update_post_comments_count INSERT NEW
    (with_post_comments (post_comments db ++ [NEW]) db).

Definition delete_post_comments (i : nat) (db : database) : database :=
  match post_comments db !! i with
  | Some OLD =>
      update_post_comments_count DELETE OLD
        (with_post_comments (delete i (post_comments db)) db)
  | None => db
  end.

Definition insert_follows (NEW : follows_row) (db : database) : database :=
  update_followers_count INSERT NEW (with_follows (follows db ++ [NEW]) db).

Definition delete_follows (i : nat) (db : database) : database :=
  match follows db !! i with
  | Some OLD =>
      update_followers_count DELETE OLD (with_follows (delete i (follows db)) db)
  | None => db
  end.

Definition insert_posts (NEW : posts_row) (db : database) : database :=
  update_series_posts_count INSERT NEW (with_posts (posts db ++ [NEW]) db).

Definition delete_posts (i : nat) (db : database) : database :=
  match posts db !! i with
  | Some OLD =>
      update_series_posts_count DELETE OLD (with_posts (delete i (posts db)) db)
  | None => db
  end.

Definition insert_series (NEW : series_row) (db : database) : database :=
  update_creator_series_count INSERT NEW (with_series (series db ++ [NEW]) db).

Definition delete_series (i : nat) (db : database) : database :=
  match series db !! i with
  | Some OLD =>
      update_creator_series_count DELETE OLD (with_series (delete i (series db)) db)
  | None => db
  end.

(** [DELETE FROM t WHERE cond]: the matching rows go, then the row trigger
    fires once for each of them. *)
Definition delete_follows_where (cond : follows_row → bool) (db : database)
    : database :=
  foldl (λ d OLD, update_followers_count DELETE OLD d)
    (with_follows (List.filter (λ r, negb (cond r)) (follows db)) db)
    (List.filter cond (follows db)).

Definition delete_post_likes_where (cond : post_likes_row → bool) (db : database)
    : fired :=
  foldl (λ f OLD,
           match f with
           | Returned d => update_post_likes_count DELETE OLD d
           | Raised sqlstate => Raised sqlstate
           end)
    (Returned (with_post_likes (List.filter (λ r, negb (cond r)) (post_likes db)) db))
    (List.filter cond (post_likes db)).

(** *** The row counts the counters stand for

    The matching condition of each count is the [WHERE] clause of the
    trigger's [UPDATE], read with the child row in place of [NEW]/[OLD]. *)
Definition likes_of_post (db : database) (p : posts_row) : Z :=
  COUNT (λ l, N.eqb (p_id p) (pl_post_id l)) (post_likes db).

Definition likes_of_creator (db : database) (cp : creator_profiles_row) : Z :=
  COUNT (λ l, existsb (λ p, N.eqb (p_id p) (pl_post_id l)
                            && N.eqb (cp_user_id cp) (p_user_id p)) (posts db))
        (post_likes db).

Definition comments_of_post (db : database) (p : posts_row) : Z :=
  COUNT (λ c, N.eqb (p_id p) (pc_post_id c)) (post_comments db).

Definition followers_of_creator (db : database) (cp : creator_profiles_row) : Z :=
  COUNT (λ f, N.eqb (cp_user_id cp) (f_following_id f)) (follows db).

Definition posts_of_series (db : database) (s : series_row) : Z :=
  COUNT (λ p, eq_null (p_series_id p) (s_id s)) (posts db).

Definition posts_of_creator (db : database) (cp : creator_profiles_row) : Z :=
  COUNT (λ p, N.eqb (cp_user_id cp) (p_user_id p)) (posts db).

Definition series_of_creator (db : database) (cp : creator_profiles_row) : Z :=
  COUNT (λ s, N.eqb (cp_user_id cp) (s_user_id s)) (series db).

(** A counter is in range when it is NULL or not negative. *)
Definition nonneg (c : option Z) : Prop :=
  match c with
  | Some n => 0 ≤ n
  | None => True
  end.

(** Every trigger-maintained counter of the database is in range. *)
Definition counters_nonneg (db : database) : Prop :=
  Forall (λ p, nonneg (p_likes_count p) ∧ nonneg (p_comments_count p)) (posts db)
  ∧ Forall (λ s, nonneg (s_posts_count s)) (series db)
  ∧ Forall (λ cp, nonneg (cp_followers_count cp) ∧ nonneg (cp_likes_count cp)
                   ∧ nonneg (cp_posts_count cp) ∧ nonneg (cp_series_count cp))
      (creator_profiles db).

(** [stays_synced] relates a counter table before and after a statement, row
    by row: the row is the same up to its counter, and a counter that equalled
    its row count before equals its row count after. *)
Definition stays_synced {A} (counter : A → option Z) (set : option Z → A → A)
    (rows_of : database → A → Z) (tbl : database → list A)
    (db db' : database) : Prop :=
  Forall2 (λ r r',
    r' = set (counter r') r ∧
    (counter r = Some (rows_of db r) → counter r' = Some (rows_of db' r')))
    (tbl db) (tbl db').

Definition keeps_synced {A} (counter : A → option Z) (set : option Z → A → A)
    (rows_of : database → A → Z) (tbl : database → list A)
    (stmt : database → database) : Prop :=
  ∀ db, stays_synced counter set rows_of tbl db (stmt db).

(** [steps_by] relates a counter table before and after one firing: a row the
    [UPDATE] targets keeps its other columns and moves a counter value
    [n >= 0] to [f n]; every other row is untouched; no counter in range
    leaves the range. *)
Definition steps_by {A} (counter : A → option Z) (set : option Z → A → A)
    (target : A → bool) (f : Z → Z) (t t' : list A) : Prop :=
  Forall2 (λ r r',
    (nonneg (counter r) → nonneg (counter r')) ∧
    if target r
    then r' = set (counter r') r
         ∧ ∀ n, 0 ≤ n → counter r = Some n → counter r' = Some (f n)
    else r' = r) t t'.

(** One trigger function on one counter: [INSERT] adds one, [DELETE] takes one
    away but stops at zero, whatever the row and the database. *)
Definition increments_and_clamps {A R} (fire : tg_op → R → database → database)
    (counter : A → option Z) (set : option Z → A → A)
    (tbl : database → list A) (target : R → database → A → bool) : Prop :=
  ∀ row db,
    steps_by counter set (target row db) (λ n, n + 1)
      (tbl db) (tbl (fire INSERT row db))
    ∧ steps_by counter set (target row db) (λ n, Z.max (n - 1) 0)
      (tbl db) (tbl (fire DELETE row db)).

(** A counter holds a number that is not negative (it is not NULL). *)
Definition defined (c : option Z) : Prop := ∃ n, c = Some n ∧ 0 ≤ n.

(** Every trigger-maintained counter of the database holds such a number. *)
Definition counters_defined (db : database) : Prop :=
  Forall (λ p, defined (p_likes_count p) ∧ defined (p_comments_count p)) (posts db)
  ∧ Forall (λ s, defined (s_posts_count s)) (series db)
  ∧ Forall (λ cp, defined (cp_followers_count cp) ∧ defined (cp_likes_count cp)
                   ∧ defined (cp_posts_count cp) ∧ defined (cp_series_count cp))
      (creator_profiles db).

(** Every counter of a kind equals its number of matching rows. *)
Definition followers_synced (db : database) : Prop :=
  Forall (λ cp, cp_followers_count cp = Some (followers_of_creator db cp))
    (creator_profiles db).

Definition post_likes_synced (db : database) : Prop :=
  Forall (λ p, p_likes_count p = Some (likes_of_post db p)) (posts db).

Definition creator_likes_synced (db : database) : Prop :=
  Forall (λ cp, cp_likes_count cp = Some (likes_of_creator db cp))
    (creator_profiles db).

(** A creator (user 1) followed by users 3 and 4, the counter in step with
    the two rows. *)
Definition two_followers : database :=
  {| users := [ {| u_id := 1%N; u_display_name := "creator";
                   u_avatar_url := None; u_role := role_creator;
                   u_is_verified := false |} ];
     creator_profiles := [ {| cp_user_id := 1%N; cp_followers_count := Some 2;
                              cp_likes_count := Some 0; cp_posts_count := Some 0;
                              cp_series_count := Some 0 |} ];
     posts := []; series := [];
     follows := [ {| f_follower_id := 3%N; f_following_id := 1%N |};
                  {| f_follower_id := 4%N; f_following_id := 1%N |} ];
     post_likes := []; post_comments := [];
     supporter_transactions := []; subscriptions := [] |}.

(** A creator (user 1) with one post (10) that user 3 has liked, both likes
    counters in step with the one row. *)
Definition one_liked_post : database :=
  {| users := [ {| u_id := 1%N; u_display_name := "creator";
                   u_avatar_url := None; u_role := role_creator;
                   u_is_verified := false |} ];
     creator_profiles := [ {| cp_user_id := 1%N; cp_followers_count := Some 0;
                              cp_likes_count := Some 1; cp_posts_count := Some 1;
                              cp_series_count := Some 0 |} ];
     posts := [ {| p_id := 10%N; p_user_id := 1%N; p_series_id := None;
                   p_title := "t"; p_content := "c"; p_number := 1;
                   p_thumbnail_url := None; p_created_at := 0;
                   p_is_published := true; p_deleted_at := None;
                   p_likes_count := Some 1; p_comments_count := Some 0;
                   p_views_count := Some 0 |} ];
     series := []; follows := [];
     post_likes := [ {| pl_post_id := 10%N; pl_user_id := 3%N |} ];
     post_comments := [];
     supporter_transactions := []; subscriptions := [] |}.

End Triggers.


(** ** get_creator_stats

    The query is evaluated the way SQL defines it: the FROM clause with its
    five LEFT JOINs, the WHERE clause, the groups of GROUP BY, and the SELECT
    list with its aggregates on each group. *)
Module Stats.

Record creator_stats := {
  total_earnings : numeric;
  total_supporters : Z;
  active_subscriptions : Z;
  total_posts : Z;
  total_series : Z;
  total_followers : Z;
  total_likes : Z;
  total_comments : Z;
}.

(** One row of the FROM clause: the user and, from each LEFT JOIN, a partner
    row or NULL. *)
Record joined := {
  j_u : users_row;
  j_cp : option creator_profiles_row;
  j_st : option supporter_transactions_row;
  j_sub : option subscriptions_row;
  j_p : option posts_row;
  j_s : option series_row;
}.

Definition from_clause (db : database) : list joined :=
  let j1 := LEFT_JOIN (users db) (creator_profiles db)
              (λ u cp, N.eqb (u_id u) (cp_user_id cp)) in
  let j2 := LEFT_JOIN j1 (supporter_transactions db)
              (λ '(u, _) st, N.eqb (u_id u) (st_creator_id st)) in
  let j3 := LEFT_JOIN j2 (subscriptions db)
              (λ '(u, _, _) sub, N.eqb (u_id u) (sub_creator_id sub)) in
  let j4 := LEFT_JOIN j3 (posts db)
              (λ '(u, _, _, _) p,
                 N.eqb (u_id u) (p_user_id p) && IS_NULL (p_deleted_at p)) in
  let j5 := LEFT_JOIN j4 (series db)
              (λ '(u, _, _, _, _) s,
                 N.eqb (u_id u) (s_user_id s) && IS_NULL (s_deleted_at s)) in
  (λ '(u, cp, st, sub, p, s),
     {| j_u := u; j_cp := cp; j_st := st; j_sub := sub; j_p := p; j_s := s |})
  <$> j5.

(** The GROUP BY key [u.id, cp.followers_count, cp.likes_count]. *)
Definition group_key (j : joined) : uuid * option Z * option Z :=
  (u_id (j_u j), j_cp j ≫= cp_followers_count, j_cp j ≫= cp_likes_count).

Definition is_completed (s : transaction_status) : bool :=
  match s with
  | st_completed => true
  | _ => false
  end.

Definition is_active (s : subscription_status) : bool :=
  match s with
  | sub_active => true
  | _ => false
  end.

(** [CASE WHEN st.status = 'completed' THEN st.amount ELSE 0 END]; a NULL
    transaction takes the ELSE branch. *)
Definition completed_amount (j : joined) : option Z :=
  match j_st j with
  | Some st => if is_completed (st_status st) then Some (st_amount st) else Some 0
  | None => Some 0
  end.

(** [CASE WHEN sub.status = 'active' THEN sub.id END]. *)
Definition active_id (j : joined) : option uuid :=
  match j_sub j with
  | Some sub => if is_active (sub_status sub) then Some (sub_id sub) else None
  | None => None
  end.

(** The SELECT list, evaluated on one group. *)
Definition aggregate (k : uuid * option Z * option Z) (g : list joined)
    : creator_stats :=
  {| total_earnings := COALESCE (SUM (completed_amount <$> g)) 0;
     total_supporters := COUNT_DISTINCT ((λ j, st_supporter_id <$> j_st j) <$> g);
     active_subscriptions := COUNT_DISTINCT (active_id <$> g);
     total_posts := COUNT_DISTINCT ((λ j, p_id <$> j_p j) <$> g);
     total_series := COUNT_DISTINCT ((λ j, s_id <$> j_s j) <$> g);
     total_followers := COALESCE (k.1.2) 0;
     total_likes := COALESCE (k.2) 0;
     total_comments := COALESCE (SUM ((λ j, j_p j ≫= p_comments_count) <$> g)) 0 |}.

Definition get_creator_stats (db : database) (creator_uuid : uuid)
    : list creator_stats :=
  let rows := List.filter (λ j, N.eqb (u_id (j_u j)) creator_uuid) (from_clause db) in
  let keys := remove_dups (group_key <$> rows) in
  (λ k, aggregate k (List.filter (λ j, bool_decide (group_key j = k)) rows)) <$> keys.

(** What the creator has earned: the amounts of the creator's completed
    supporter transactions, each row once. *)
Definition completed_earnings (db : database) (creator_uuid : uuid) : numeric :=
  foldr Z.add 0
    (st_amount <$>
       List.filter (λ st, N.eqb (st_creator_id st) creator_uuid
                          && is_completed (st_status st))
         (supporter_transactions db)).

(** The number of joined rows a LEFT JOIN makes of one left row: one per
    partner, and one when there is no partner. *)
Definition partners {A} (cond : A → bool) (t : list A) : Z :=
  Z.max 1 (COUNT cond t).

(** How many joined rows carry one and the same transaction of the creator:
    one for every combination of a subscription, a post and a series. *)
Definition fan_out (db : database) (creator_uuid : uuid) : Z :=
  partners (λ sub, N.eqb creator_uuid (sub_creator_id sub)) (subscriptions db)
  * partners (λ p, N.eqb creator_uuid (p_user_id p) && IS_NULL (p_deleted_at p))
      (posts db)
  * partners (λ s, N.eqb creator_uuid (s_user_id s) && IS_NULL (s_deleted_at s))
      (series db).

(** *** Auxiliary notions for reasoning about the joins *)

(** [g] summed over a list. *)
Definition sumZ {A} (g : A → Z) (l : list A) : Z := foldr Z.add 0 (g <$> l).

(** The right-hand sides a left row is paired with. *)
Definition opts {R} (ms : list R) : list (option R) :=
  match ms with
  | [] => [None]
  | _ => Some <$> ms
  end.

(** The amount a joined row adds to the earnings. *)
Definition earned (st : option supporter_transactions_row) : Z :=
  match st with
  | Some st => if is_completed (st_status st) then st_amount st else 0
  | None => 0
  end.

(** The FROM clause over a given list of users. *)
Definition from_users (us : list users_row) (db : database) : list joined :=
  (λ '(u, cp, st, sub, p, s),
     {| j_u := u; j_cp := cp; j_st := st; j_sub := sub; j_p := p; j_s := s |})
  <$> LEFT_JOIN
        (LEFT_JOIN
           (LEFT_JOIN
              (LEFT_JOIN
                 (LEFT_JOIN us (creator_profiles db)
                    (λ u cp, N.eqb (u_id u) (cp_user_id cp)))
                 (supporter_transactions db)
                 (λ '(u, _) st, N.eqb (u_id u) (st_creator_id st)))
              (subscriptions db)
              (λ '(u, _, _) sub, N.eqb (u_id u) (sub_creator_id sub)))
           (posts db)
           (λ '(u, _, _, _) p,
              N.eqb (u_id u) (p_user_id p) && IS_NULL (p_deleted_at p)))
        (series db)
        (λ '(u, _, _, _, _) s,
           N.eqb (u_id u) (s_user_id s) && IS_NULL (s_deleted_at s)).

(** The joins after the first one, from the rows of users with their
    profile. *)
Definition from_profiles (j1 : list (users_row * option creator_profiles_row))
    (db : database) : list joined :=
  (λ '(u, cp, st, sub, p, s),
     {| j_u := u; j_cp := cp; j_st := st; j_sub := sub; j_p := p; j_s := s |})
  <$> LEFT_JOIN
        (LEFT_JOIN
           (LEFT_JOIN
              (LEFT_JOIN j1
                 (supporter_transactions db)
                 (λ '(u, _) st, N.eqb (u_id u) (st_creator_id st)))
              (subscriptions db)
              (λ '(u, _, _) sub, N.eqb (u_id u) (sub_creator_id sub)))
           (posts db)
           (λ '(u, _, _, _) p,
              N.eqb (u_id u) (p_user_id p) && IS_NULL (p_deleted_at p)))
        (series db)
        (λ '(u, _, _, _, _) s,
           N.eqb (u_id u) (s_user_id s) && IS_NULL (s_deleted_at s)).

(** The number of different values in a list of ids. *)
Definition distinct (ids : list uuid) : Z := Z.of_nat (length (remove_dups ids)).

(** The rows of a creator, table by table, as the ON clauses select them. *)
Definition transactions_of (db : database) (c : uuid)
    : list supporter_transactions_row :=
  List.filter (λ st, N.eqb c (st_creator_id st)) (supporter_transactions db).

Definition subscriptions_of (db : database) (c : uuid) : list subscriptions_row :=
  List.filter (λ sub, N.eqb c (sub_creator_id sub)) (subscriptions db).

Definition live_posts_of (db : database) (c : uuid) : list posts_row :=
  List.filter (λ p, N.eqb c (p_user_id p) && IS_NULL (p_deleted_at p)) (posts db).

Definition live_series_of (db : database) (c : uuid) : list series_row :=
  List.filter (λ s, N.eqb c (s_user_id s) && IS_NULL (s_deleted_at s)) (series db).

Definition profiles_of (db : database) (c : uuid) : list creator_profiles_row :=
  List.filter (λ cp, N.eqb c (cp_user_id cp)) (creator_profiles db).

(** The comments the creator's non-deleted posts have, by their counters. *)
Definition comments_on_posts (db : database) (c : uuid) : Z :=
  foldr Z.add 0 ((λ p, COALESCE (p_comments_count p) 0) <$> live_posts_of db c).

(** One creator with one completed transaction of 100 and two posts. *)
Definition creator_with_two_posts : database :=
  let post (id : uuid) :=
    {| p_id := id; p_user_id := 1%N; p_series_id := None; p_title := "t";
       p_content := "c"; p_number := 1; p_thumbnail_url := None;
       p_created_at := 0; p_is_published := true; p_deleted_at := None;
       p_likes_count := Some 0; p_comments_count := Some 0;
       p_views_count := Some 0 |} in
  {| users := [ {| u_id := 1%N; u_display_name := "creator";
                   u_avatar_url := None; u_role := role_creator;
                   u_is_verified := false |} ];
     creator_profiles := [ {| cp_user_id := 1%N; cp_followers_count := Some 0;
                              cp_likes_count := Some 0; cp_posts_count := Some 2;
                              cp_series_count := Some 0 |} ];
     posts := [ post 11%N; post 12%N ];
     series := [];
     follows := [];
     post_likes := [];
     post_comments := [];
     supporter_transactions :=
       [ {| st_id := 21%N; st_supporter_id := 2%N; st_creator_id := 1%N;
            st_amount := 100; st_status := st_completed |} ];
     subscriptions := [] |}.

(** One creator with two posts that have 3 and 4 comments, one series, two
    transactions and three subscriptions. *)
Definition creator_with_comments : database :=
  let post (id : uuid) (comments : Z) :=
    {| p_id := id; p_user_id := 1%N; p_series_id := Some 31%N; p_title := "t";
       p_content := "c"; p_number := 1; p_thumbnail_url := None;
       p_created_at := 0; p_is_published := true; p_deleted_at := None;
       p_likes_count := Some 0; p_comments_count := Some comments;
       p_views_count := Some 0 |} in
  {| users := [ {| u_id := 1%N; u_display_name := "creator";
                   u_avatar_url := None; u_role := role_creator;
                   u_is_verified := false |} ];
     creator_profiles := [ {| cp_user_id := 1%N; cp_followers_count := Some 0;
                              cp_likes_count := Some 0; cp_posts_count := Some 2;
                              cp_series_count := Some 1 |} ];
     posts := [ post 11%N 3; post 12%N 4 ];
     series := [ {| s_id := 31%N; s_user_id := 1%N; s_title := "s";
                    s_deleted_at := None; s_posts_count := Some 2 |} ];
     follows := [];
     post_likes := [];
     post_comments :=
       [ {| pc_post_id := 11%N; pc_user_id := 2%N |};
         {| pc_post_id := 11%N; pc_user_id := 3%N |};
         {| pc_post_id := 11%N; pc_user_id := 2%N |};
         {| pc_post_id := 12%N; pc_user_id := 2%N |};
         {| pc_post_id := 12%N; pc_user_id := 3%N |};
         {| pc_post_id := 12%N; pc_user_id := 3%N |};
         {| pc_post_id := 12%N; pc_user_id := 2%N |} ];
     supporter_transactions :=
       [ {| st_id := 21%N; st_supporter_id := 2%N; st_creator_id := 1%N;
            st_amount := 100; st_status := st_completed |};
         {| st_id := 22%N; st_supporter_id := 3%N; st_creator_id := 1%N;
            st_amount := 50; st_status := st_pending |} ];
     subscriptions :=
       [ {| sub_id := 41%N; sub_creator_id := 1%N; sub_status := sub_active |};
         {| sub_id := 42%N; sub_creator_id := 1%N; sub_status := sub_active |};
         {| sub_id := 43%N; sub_creator_id := 1%N; sub_status := sub_expired |} ]
  |}.

End Stats.

(** ** Feed functions: get_discovery_feed and get_user_feed

    The arguments are taken non-NULL.  ORDER BY leaves the order of rows
    with equal [created_at] open; the model sorts with a merge sort, and the
    properties below hold for any order that is descending in
    [created_at]. *)
Module Feed.

(** A post joined with its author and its series. *)
Definition post_row : Type := posts_row * users_row * series_row.

Definition post_of (j : post_row) : posts_row := j.1.1.
Definition author_of (j : post_row) : users_row := j.1.2.
Definition series_of (j : post_row) : series_row := j.2.

(** [ORDER BY p.created_at DESC]: [a] may come before [b]. *)
Definition newest_first (a b : post_row) : Prop :=
  p_created_at (post_of b) ≤ p_created_at (post_of a).

#[global] Instance newest_first_dec : RelDecision newest_first.
Proof. intros a b. unfold newest_first. apply _. Defined.

Definition user_has_liked (db : database) (user_uuid : uuid) (p : posts_row) : bool :=
  existsb (λ pl, N.eqb (pl_post_id pl) (p_id p) && N.eqb (pl_user_id pl) user_uuid)
    (post_likes db).

Definition user_follows_creator (db : database) (user_uuid : uuid) (p : posts_row)
    : bool :=
  existsb (λ f, N.eqb (f_following_id f) (p_user_id p)
                && N.eqb (f_follower_id f) user_uuid)
    (follows db).

Record discovery_row := {
  df_post_id : uuid;
  df_series_id : option uuid;
  df_series_title : string;
  df_creator_id : uuid;
  df_creator_name : string;
  df_creator_avatar_url : option string;
  df_creator_verified : bool;
  df_post_title : string;
  df_post_content : string;
  df_post_number : Z;
  df_post_thumbnail_url : option string;
  df_post_created_at : timestamptz;
  df_likes_count : Z;
  df_comments_count : Z;
  df_views_count : Z;
  df_user_has_liked : bool;
  df_user_follows_creator : bool;
}.

Definition discovery_select (db : database) (user_uuid : uuid) (j : post_row)
    : discovery_row :=
  let p := post_of j in let u := author_of j in let s := series_of j in
  {| df_post_id := p_id p;
     df_series_id := p_series_id p;
     df_series_title := s_title s;
     df_creator_id := p_user_id p;
     df_creator_name := u_display_name u;
     df_creator_avatar_url := u_avatar_url u;
     df_creator_verified := u_is_verified u;
     df_post_title := p_title p;
     df_post_content := p_content p;
     df_post_number := p_number p;
     df_post_thumbnail_url := p_thumbnail_url p;
     df_post_created_at := p_created_at p;
     df_likes_count := COALESCE (p_likes_count p) 0;
     df_comments_count := COALESCE (p_comments_count p) 0;
     df_views_count := COALESCE (p_views_count p) 0;
     df_user_has_liked := user_has_liked db user_uuid p;
     df_user_follows_creator := user_follows_creator db user_uuid p |}.

(** The FROM and WHERE clauses shared by both feeds: posts with their author
    and series, published, not deleted, in a series that is not deleted. *)
Definition posts_with_author_and_series (db : database) : list post_row :=
  INNER_JOIN
    (INNER_JOIN (posts db) (users db) (λ p u, N.eqb (p_user_id p) (u_id u)))
    (series db) (λ '(p, _) s, eq_null (p_series_id p) (s_id s)).

Definition visible (j : post_row) : bool :=
  p_is_published (post_of j)
  && IS_NULL (p_deleted_at (post_of j))
  && IS_NULL (s_deleted_at (series_of j)).

Definition discovery_candidates (db : database) : list post_row :=
  List.filter visible (posts_with_author_and_series db).

(** PostgreSQL rejects a negative LIMIT when the query starts. *)
Definition get_discovery_feed (db : database) (user_uuid : uuid) (feed_limit : Z)
    : result discovery_row :=
  if feed_limit <? 0 then Error "LIMIT must not be negative"
  else
    let ordered := merge_sort newest_first (discovery_candidates db) in
    Rows (discovery_select db user_uuid <$> take (Z.to_nat feed_limit) ordered).

Record user_feed_row := {
  uf_post_id : uuid;
  uf_series_id : option uuid;
  uf_series_title : string;
  uf_creator_id : uuid;
  uf_creator_name : string;
  uf_creator_avatar_url : option string;
  uf_creator_verified : bool;
  uf_post_title : string;
  uf_post_content : string;
  uf_post_number : Z;
  uf_post_thumbnail_url : option string;
  uf_post_created_at : timestamptz;
  uf_likes_count : Z;
  uf_comments_count : Z;
  uf_user_has_liked : bool;
}.

Definition user_feed_select (db : database) (user_uuid : uuid) (j : post_row)
    : user_feed_row :=
  let p := post_of j in let u := author_of j in let s := series_of j in
  {| uf_post_id := p_id p;
     uf_series_id := p_series_id p;
     uf_series_title := s_title s;
     uf_creator_id := p_user_id p;
     uf_creator_name := u_display_name u;
     uf_creator_avatar_url := u_avatar_url u;
     uf_creator_verified := u_is_verified u;
     uf_post_title := p_title p;
     uf_post_content := p_content p;
     uf_post_number := p_number p;
     uf_post_thumbnail_url := p_thumbnail_url p;
     uf_post_created_at := p_created_at p;
     uf_likes_count := COALESCE (p_likes_count p) 0;
     uf_comments_count := COALESCE (p_comments_count p) 0;
     uf_user_has_liked := user_has_liked db user_uuid p |}.

(** The extra [INNER JOIN public.follows f ON f.following_id = p.user_id AND
    f.follower_id = user_uuid]; the follow row itself is not selected. *)
Definition user_feed_candidates (db : database) (user_uuid : uuid) : list post_row :=
  fst <$>
    List.filter (λ '(j, _), visible j)
      (INNER_JOIN (posts_with_author_and_series db) (follows db)
         (λ j f, N.eqb (f_following_id f) (p_user_id (post_of j))
                 && N.eqb (f_follower_id f) user_uuid)).

Definition get_user_feed (db : database) (user_uuid : uuid)
    (feed_limit feed_offset : Z) : result user_feed_row :=
  if feed_limit <? 0 then Error "LIMIT must not be negative"
  else if feed_offset <? 0 then Error "OFFSET must not be negative"
  else
    let ordered := merge_sort newest_first (user_feed_candidates db user_uuid) in
    Rows (user_feed_select db user_uuid
            <$> take (Z.to_nat feed_limit) (drop (Z.to_nat feed_offset) ordered)).

(** *** A small database to run the feeds on

    Creator 1 has a series 7 with posts 11 (older) and 12 (newer) and a draft
    13; creator 2 has a deleted series 8 with post 14.  User 3 follows
    creator 1 and has liked post 12. *)
Definition sample_post (pid author sid : uuid) (at_ : timestamptz)
    (published : bool) : posts_row :=
  {| p_id := pid; p_user_id := author; p_series_id := Some sid;
     p_title := "title"; p_content := "content"; p_number := 1;
     p_thumbnail_url := None; p_created_at := at_;
     p_is_published := published; p_deleted_at := None;
     p_likes_count := None; p_comments_count := Some 4;
     p_views_count := Some 9 |}.

Definition sample_user (uid : uuid) (name : string) : users_row :=
  {| u_id := uid; u_display_name := name; u_avatar_url := None;
     u_role := role_creator; u_is_verified := true |}.

Definition sample : database :=
  {| users := [ sample_user 1%N "asha"; sample_user 2%N "bina" ];
     creator_profiles := [];
     posts := [ sample_post 11%N 1%N 7%N 100 true;
                sample_post 12%N 1%N 7%N 200 true;
                sample_post 13%N 1%N 7%N 300 false;
                sample_post 14%N 2%N 8%N 400 true ];
     series := [ {| s_id := 7%N; s_user_id := 1%N; s_title := "first";
                    s_deleted_at := None; s_posts_count := Some 3 |};
                 {| s_id := 8%N; s_user_id := 2%N; s_title := "gone";
                    s_deleted_at := Some 350; s_posts_count := Some 1 |} ];
     follows := [ {| f_follower_id := 3%N; f_following_id := 1%N |} ];
     post_likes := [ {| pl_post_id := 12%N; pl_user_id := 3%N |} ];
     post_comments := [];
     supporter_transactions := [];
     subscriptions := [] |}.

(** *** What the feeds promise about a returned row *)

(** The row shows a post of the [posts] table that is published and not
    deleted, in a series that is not deleted. *)
Definition shows_visible_post (db : database) (post_id : uuid)
    (created_at : timestamptz) (p : posts_row) : Prop :=
  p ∈ posts db
  ∧ post_id = p_id p ∧ created_at = p_created_at p
  ∧ p_is_published p = true ∧ p_deleted_at p = None
  ∧ ∃ s, s ∈ series db ∧ p_series_id p = Some (s_id s) ∧ s_deleted_at s = None.

(** There is a [follows] row from the user to the author of the post. *)
Definition follows_author (db : database) (user_uuid : uuid) (p : posts_row) : Prop :=
  ∃ f, f ∈ follows db
       ∧ f_follower_id f = user_uuid ∧ f_following_id f = p_user_id p.

Definition df_newest_first (a b : discovery_row) : Prop :=
  df_post_created_at b ≤ df_post_created_at a.

Definition uf_newest_first (a b : user_feed_row) : Prop :=
  uf_post_created_at b ≤ uf_post_created_at a.

(** [all] lists every candidate exactly once, newest first. *)
Definition orders_newest_first (all candidates : list post_row) : Prop :=
  all ≡ₚ candidates ∧ StronglySorted newest_first all.

End Feed.

(** ** The Supabase client as the React code uses it

    A call either fails (the provider returns an error object, or the client
    library throws) or runs against the database, where the row triggers
    fire; a statement whose trigger raises comes back as a returned error.  Which calls fail is decided outside the repository (network, row
    level security, constraints), so the world carries it as [failing], by
    call number.  [calls] is the history of requests and [events] what the
    page wrote to the console or showed in an alert. *)
Module Supabase.

(** The auth user and session objects, as far as the pages read them;
    [uid] is the user's [id]. *)
Record User := { uid : uuid; email : string }.

Record Session := { user : User; access_token : string }.

Inductive failure :=
  | returned (e : string)
  | thrown (e : string).

Inductive request :=
  | follows_insert (follower_id following_id : uuid)
  | follows_delete (follower_id following_id : uuid)
  | post_likes_select (post_id user_id : uuid)
  | post_likes_insert (post_id user_id : uuid)
  | post_likes_delete (post_id user_id : uuid)
  | supporter_transactions_insert (supporter_id creator_id : uuid) (amount : Z)
  | posts_select_published (limit : nat)
  | users_select (user_id : uuid)
  | creator_profiles_select (user_id : uuid).

Inductive event :=
  | console_error (label : string) (f : failure)
  | alert (message : string)
  | alert_support_sent (amount : Z).

Record world := {
  db : database;
  failing : nat → option failure;
  calls : list request;
  events : list event;
}.

Definition with_db (d : database) (w : world) : world :=
  {| db := d; failing := failing w; calls := calls w; events := events w |}.

Definition record_call (rq : request) (w : world) : world :=
  {| db := db w; failing := failing w; calls := calls w ++ [rq];
     events := events w |}.

Definition emit (e : event) (w : world) : world :=
  {| db := db w; failing := failing w; calls := calls w;
     events := events w ++ [e] |}.

(** A write: returns the failure of this call, if any; otherwise the
    statement has run. *)
Definition execute (rq : request) (run : database → database) (w : world)
    : world * option failure :=
  match failing w (length (calls w)) with
  | Some f => (record_call rq w, Some f)
  | None => (with_db (run (db w)) (record_call rq w), None)
  end.

(** A read: returns the failure of this call or the data. *)
Definition query {A} (rq : request) (read : database → A) (w : world)
    : world * (failure + A) :=
  match failing w (length (calls w)) with
  | Some f => (record_call rq w, inl f)
  | None => (record_call rq w, inr (read (db w)))
  end.

(** A write on a table whose trigger can raise: when the call itself does
    not fail the statement runs, and an error raised in the database comes
    back as the returned error object, with nothing written. *)
Definition attempt (rq : request) (run : database → Triggers.fired) (w : world)
    : world * option failure :=
  match failing w (length (calls w)) with
  | Some f => (record_call rq w, Some f)
  | None =>
      match run (db w) with
      | Triggers.Returned d => (with_db d (record_call rq w), None)
      | Triggers.Raised sqlstate => (record_call rq w, Some (returned sqlstate))
      end
  end.

(** The next call, respectively the one after it, will run. *)
Definition call_succeeds (w : world) : bool :=
  match failing w (length (calls w)) with
  | None => true
  | Some _ => false
  end.

Definition second_call_succeeds (w : world) : bool :=
  match failing w (S (length (calls w))) with
  | None => true
  | Some _ => false
  end.

(** A backend on which no call fails. *)
Definition reliable (d : database) : world :=
  {| db := d; failing := λ _, None; calls := []; events := [] |}.

(** [.single()]: the row when exactly one matches, otherwise no data. *)
Definition single {A} (rows : list A) : option A :=
  match rows with
  | [r] => Some r
  | _ => None
  end.

End Supabase.
Import Supabase.

(** ** Creator profile page: handleFollow and handleSupport *)
Module CreatorProfilePage.

Record CreatorProfile := {
  user_id : uuid;
  total_earnings : Z;
  supporters_count : Z;
  followers_count : Z;
  posts_count : Z;
  likes_count : Z;
}.

Record state := {
  creatorProfile : option CreatorProfile;
  isFollowing : bool;
  isSupporting : bool;
  supportAmount : string;
  showSupportDialog : bool;
  supportMessage : string;
}.

Definition setIsFollowing (b : bool) (st : state) : state :=
  {| creatorProfile := creatorProfile st; isFollowing := b;
     isSupporting := isSupporting st; supportAmount := supportAmount st;
     showSupportDialog := showSupportDialog st;
     supportMessage := supportMessage st |}.

Definition setCreatorProfile (cp : option CreatorProfile) (st : state) : state :=
  {| creatorProfile := cp; isFollowing := isFollowing st;
     isSupporting := isSupporting st; supportAmount := supportAmount st;
     showSupportDialog := showSupportDialog st;
     supportMessage := supportMessage st |}.

Definition setIsSupporting (b : bool) (st : state) : state :=
  {| creatorProfile := creatorProfile st; isFollowing := isFollowing st;
     isSupporting := b; supportAmount := supportAmount st;
     showSupportDialog := showSupportDialog st;
     supportMessage := supportMessage st |}.

Definition setSupportAmount (a : string) (st : state) : state :=
  {| creatorProfile := creatorProfile st; isFollowing := isFollowing st;
     isSupporting := isSupporting st; supportAmount := a;
     showSupportDialog := showSupportDialog st;
     supportMessage := supportMessage st |}.

Definition setShowSupportDialog (b : bool) (st : state) : state :=
  {| creatorProfile := creatorProfile st; isFollowing := isFollowing st;
     isSupporting := isSupporting st; supportAmount := supportAmount st;
     showSupportDialog := b; supportMessage := supportMessage st |}.

Definition setSupportMessage (m : string) (st : state) : state :=
  {| creatorProfile := creatorProfile st; isFollowing := isFollowing st;
     isSupporting := isSupporting st; supportAmount := supportAmount st;
     showSupportDialog := showSupportDialog st; supportMessage := m |}.

(** [{ ...creatorProfile, followers_count: n }] *)
Definition with_followers_count (n : Z) (cp : CreatorProfile) : CreatorProfile :=
  {| user_id := user_id cp; total_earnings := total_earnings cp;
     supporters_count := supporters_count cp; followers_count := n;
     posts_count := posts_count cp; likes_count := likes_count cp |}.

(** [{ ...creatorProfile, total_earnings: e, supporters_count: n }] *)
Definition with_support (e n : Z) (cp : CreatorProfile) : CreatorProfile :=
  {| user_id := user_id cp; total_earnings := e; supporters_count := n;
     followers_count := followers_count cp; posts_count := posts_count cp;
     likes_count := likes_count cp |}.

Definition handleFollow (user : option User) (creatorId : option uuid)
    (st : state) (w : world) : state * world :=
  match user, creatorId with
  | Some user, Some creatorId =>
      if isFollowing st then
        (* Unfollow *)
        let '(w1, error) :=
          execute (follows_delete (uid user) creatorId)
            (Triggers.delete_follows_where
               (λ r, N.eqb (f_follower_id r) (uid user)
                     && N.eqb (f_following_id r) creatorId)) w in
        match error with
        | Some e => (st, emit (console_error "Error toggling follow:" e) w1)
        | None =>
            let st1 := setIsFollowing false st in
            match creatorProfile st with
            | Some cp =>
                (setCreatorProfile
                   (Some (with_followers_count
                            (Z.max 0 (followers_count cp - 1)) cp)) st1, w1)
            | None => (st1, w1)
            end
        end
      else
        (* Follow *)
        let '(w1, error) :=
          execute (follows_insert (uid user) creatorId)
            (Triggers.insert_follows
               {| f_follower_id := uid user; f_following_id := creatorId |}) w in
        match error with
        | Some e => (st, emit (console_error "Error toggling follow:" e) w1)
        | None =>
            let st1 := setIsFollowing true st in
            match creatorProfile st with
            | Some cp =>
                (setCreatorProfile
                   (Some (with_followers_count (followers_count cp + 1) cp)) st1,
                 w1)
            | None => (st1, w1)
            end
        end
  | _, _ => (st, w)
  end.

Section handleSupport.
(** [parseFloat]; [None] is NaN.  Amounts are taken in whole rupees. *)
Variable parseFloat : string → option Z.
(** The id the database gives the new transaction row. *)
Variable gen_random_uuid : database → uuid.

Definition insert_supporter_transaction (supporter creator : uuid) (amount : Z)
    (d : database) : database :=
  with_supporter_transactions
    (supporter_transactions d ++
       [ {| st_id := gen_random_uuid d; st_supporter_id := supporter;
            st_creator_id := creator; st_amount := amount;
            st_status := st_pending |} ]) d.

Definition handleSupport (user : option User) (creatorId : option uuid)
    (st : state) (w : world) : state * world :=
  match user, creatorId, supportAmount st with
  | Some user, Some creatorId, String _ _ =>
      let st1 := setIsSupporting true st in
      let failed (e : failure) (w' : world) :=
        (setIsSupporting false st1,
         emit (alert "Failed to send support. Please try again.")
           (emit (console_error "Error supporting creator:" e) w')) in
      match parseFloat (supportAmount st) with
      | Some amount =>
          if amount <=? 0 then failed (thrown "Invalid amount") w
          else
            let '(w1, error) :=
              execute (supporter_transactions_insert (uid user) creatorId amount)
                (insert_supporter_transaction (uid user) creatorId amount) w in
            match error with
            | Some e => failed e w1
            | None =>
                let st2 :=
                  match creatorProfile st with
                  | Some cp =>
                      setCreatorProfile
                        (Some (with_support (total_earnings cp + amount)
                                 (supporters_count cp + 1) cp)) st1
                  | None => st1
                  end in
                let st3 :=
                  setSupportAmount "100"
                    (setSupportMessage "" (setShowSupportDialog false st2)) in
                (setIsSupporting false st3,
                 emit (alert_support_sent amount) w1)
            end
      | None => failed (thrown "Invalid amount") w
      end
  | _, _, _ => (st, w)
  end.
End handleSupport.

(** *** What the page shows and what the database holds *)
Definition shown_followers (st : state) : option Z :=
  followers_count <$> creatorProfile st.

Definition stored_followers (creatorId : uuid) (d : database) : list (option Z) :=
  cp_followers_count
    <$> List.filter (λ r, N.eqb (cp_user_id r) creatorId) (creator_profiles d).

(** The follower count on the page is the one of the creator's profile row. *)
Definition shows_stored_followers (creatorId : uuid) (st : state) (d : database)
    : Prop :=
  ∀ n, shown_followers st = Some n → Some n ∈ stored_followers creatorId d.

(** A page that loaded the profile of creator 1 when nobody followed yet. *)
Definition page_loaded_earlier : state :=
  {| creatorProfile :=
       Some {| user_id := 1%N; total_earnings := 0; supporters_count := 0;
               followers_count := 0; posts_count := 0; likes_count := 0 |};
     isFollowing := false; isSupporting := false; supportAmount := "100";
     showSupportDialog := false; supportMessage := "" |}.

End CreatorProfilePage.

(** ** PostCard: handleLike *)
Module PostCard.

Record state := {
  isLiked : bool;
  likesCount : Z;
  isLiking : bool;
}.

(** The handler sends its two writes to whatever database the client is
    connected to; [DELETE_WHERE] and [INSERT] are those statements as that
    database carries them out.  On the database of the migration they are
    [Triggers.delete_post_likes_where] and [Triggers.insert_post_likes]. *)
Section handleLike.
Variable DELETE_WHERE : (post_likes_row → bool) → database → Triggers.fired.
Variable INSERT : post_likes_row → database → Triggers.fired.

Definition handleLike (user : option User) (post_id : uuid)
    (st : state) (w : world) : state * world :=
  match user with
  | Some user =>
      if isLiking st then (st, w)
      else
        let user_id := uid user in
        let mine (r : post_likes_row) :=
          N.eqb (pl_post_id r) post_id && N.eqb (pl_user_id r) user_id in
        let finally (st' : state) :=
          {| isLiked := isLiked st'; likesCount := likesCount st';
             isLiking := false |} in
        let caught (e : failure) (w' : world) :=
          (finally st, emit (console_error "Error toggling like:" e) w') in
        (* Check if already liked *)
        let '(w1, found) :=
          query (post_likes_select post_id user_id)
            (λ d, single (List.filter mine (post_likes d))) w in
        match found with
        | inl (thrown e) => caught (thrown e) w1
        | inr (Some _) =>
            (* Unlike *)
            let '(w2, error) :=
              attempt (post_likes_delete post_id user_id)
                (DELETE_WHERE mine) w1 in
            match error with
            | None =>
                (finally {| isLiked := false;
                            likesCount := Z.max 0 (likesCount st - 1);
                            isLiking := true |}, w2)
            | Some (returned _) => (finally st, w2)
            | Some (thrown e) => caught (thrown e) w2
            end
        | inl (returned _) | inr None =>
            (* Like *)
            let '(w2, error) :=
              attempt (post_likes_insert post_id user_id)
                (INSERT {| pl_post_id := post_id; pl_user_id := user_id |})
                w1 in
            match error with
            | None =>
                (finally {| isLiked := true; likesCount := likesCount st + 1;
                            isLiking := true |}, w2)
            | Some (returned _) => (finally st, w2)
            | Some (thrown e) => caught (thrown e) w2
            end
        end
  | None => (st, w)
  end.

(** The [post_likes] lookup found the user's like. *)
Definition found_like (user_id post_id : uuid) (w : world) : bool :=
  call_succeeds w
  && bool_decide (is_Some (single
       (List.filter (λ r, N.eqb (pl_post_id r) post_id
                          && N.eqb (pl_user_id r) user_id)
          (post_likes (db w))))).

(** The lookup threw, which ends the handler before any write. *)
Definition lookup_thrown (w : world) : bool :=
  match failing w (length (calls w)) with
  | Some (thrown _) => true
  | _ => false
  end.

(** The statement the handler sends after its lookup runs to its end in the
    database: the delete when the lookup found the like, the insert
    otherwise. *)
Definition statement_completes (user_id post_id : uuid) (w : world) : bool :=
  let mine (r : post_likes_row) :=
    N.eqb (pl_post_id r) post_id && N.eqb (pl_user_id r) user_id in
  match (if found_like user_id post_id w
         then DELETE_WHERE mine (db w)
         else INSERT {| pl_post_id := post_id; pl_user_id := user_id |} (db w))
  with
  | Triggers.Returned _ => true
  | Triggers.Raised _ => false
  end.
End handleLike.

(** The handler on the database of the migration. *)
Definition handleLike_on_triggers : option User → uuid → state → world
                                    → state * world :=
  handleLike Triggers.delete_post_likes_where Triggers.insert_post_likes.

End PostCard.

(** ** AppDataContext: fetchPosts *)
Module AppData.

(** [from('posts').select('*').eq('is_published', true)
      .order('created_at', { ascending: false }).limit(20)] *)
Definition created_at_desc (a b : posts_row) : Prop :=
  p_created_at b ≤ p_created_at a.

#[global] Instance created_at_desc_dec : RelDecision created_at_desc.
Proof. intros a b. unfold created_at_desc. apply _. Defined.

Definition published_posts (limit : nat) (d : database) : list posts_row :=
  take limit
    (merge_sort created_at_desc (List.filter p_is_published (posts d))).

Definition fetchPosts (posts : option (list posts_row)) (w : world)
    : option (list posts_row) * world :=
  let '(w1, response) :=
    query (posts_select_published 20) (published_posts 20) w in
  match response with
  | inl (returned e) =>
      (posts, emit (console_error "Error fetching posts:" (returned e)) w1)
  | inl (thrown e) =>
      (posts, emit (console_error "Error in fetchPosts:" (thrown e)) w1)
  | inr data => (Some data, w1)
  end.

(** A backend that answers every call with the same provider error. *)
Definition unreachable (e : string) : world :=
  {| db := Db.empty; failing := λ _, Some (returned e); calls := [];
     events := [] |}.

End AppData.

(** ** SupabaseAuthContext: AuthProvider

    The provider's state, the auth listener registered in its effect, and
    [loadUserProfile], which the listener starts without awaiting.  An async
    function runs up to its first [await] when it is called, so starting it
    issues the [users] query at once; the rest runs when the response is
    delivered.  [pending] holds the responses not yet delivered.  Of the
    console output only [console.error] is kept. *)
Module Auth.

Inductive AuthChangeEvent :=
  | INITIAL_SESSION | SIGNED_IN | SIGNED_OUT | TOKEN_REFRESHED
  | USER_UPDATED | PASSWORD_RECOVERY | MFA_CHALLENGE_VERIFIED.

Record state := {
  st_user : option User;
  st_userProfile : option users_row;
  st_creatorProfile : option creator_profiles_row;
  st_session : option Session;
  st_loading : bool;
  initialLoadCompleteRef : bool;
}.

Definition setUser (u : option User) (st : state) : state :=
  {| st_user := u; st_userProfile := st_userProfile st;
     st_creatorProfile := st_creatorProfile st; st_session := st_session st;
     st_loading := st_loading st;
     initialLoadCompleteRef := initialLoadCompleteRef st |}.

Definition setUserProfile (p : option users_row) (st : state) : state :=
  {| st_user := st_user st; st_userProfile := p;
     st_creatorProfile := st_creatorProfile st; st_session := st_session st;
     st_loading := st_loading st;
     initialLoadCompleteRef := initialLoadCompleteRef st |}.

Definition setCreatorProfile (c : option creator_profiles_row) (st : state) : state :=
  {| st_user := st_user st; st_userProfile := st_userProfile st;
     st_creatorProfile := c; st_session := st_session st;
     st_loading := st_loading st;
     initialLoadCompleteRef := initialLoadCompleteRef st |}.

Definition setSession (s : option Session) (st : state) : state :=
  {| st_user := st_user st; st_userProfile := st_userProfile st;
     st_creatorProfile := st_creatorProfile st; st_session := s;
     st_loading := st_loading st;
     initialLoadCompleteRef := initialLoadCompleteRef st |}.

Definition setLoading (b : bool) (st : state) : state :=
  {| st_user := st_user st; st_userProfile := st_userProfile st;
     st_creatorProfile := st_creatorProfile st; st_session := st_session st;
     st_loading := b; initialLoadCompleteRef := initialLoadCompleteRef st |}.

Definition set_initialLoadCompleteRef (b : bool) (st : state) : state :=
  {| st_user := st_user st; st_userProfile := st_userProfile st;
     st_creatorProfile := st_creatorProfile st; st_session := st_session st;
     st_loading := st_loading st; initialLoadCompleteRef := b |}.

(** A [loadUserProfile] call suspended at one of its two awaits, with the
    response it will receive. *)
Inductive suspended :=
  | awaiting_users (userId : uuid) (response : failure + option users_row)
  | awaiting_creator_profiles (userId : uuid)
      (response : failure + option creator_profiles_row).

Record runtime := {
  st : state;
  w : world;
  pending : list suspended;
}.

Definition on_state (f : state → state) (rt : runtime) : runtime :=
  {| st := f (st rt); w := w rt; pending := pending rt |}.

(** [loadUserProfile(userId)] up to [await supabase.from('users')...single()]. *)
Definition loadUserProfile (userId : uuid) (rt : runtime) : runtime :=
  let '(w1, response) :=
    query (users_select userId)
      (λ d, single (List.filter (λ u, N.eqb (u_id u) userId) (users d))) (w rt) in
  {| st := st rt; w := w1;
     pending := pending rt ++ [awaiting_users userId response] |}.

(** The rest of [loadUserProfile] once a response arrives.  [.single()]
    reports a missing row as an error. *)
Definition resume (s : suspended) (rt : runtime) : runtime :=
  match s with
  | awaiting_users userId (inr (Some profile)) =>
      let rt1 := on_state (setUserProfile (Some profile)) rt in
      match u_role profile with
      | role_creator | role_admin =>
          let '(w1, response) :=
            query (creator_profiles_select userId)
              (λ d, single (List.filter (λ c, N.eqb (cp_user_id c) userId)
                              (creator_profiles d))) (w rt1) in
          {| st := st rt1; w := w1;
             pending := pending rt1 ++ [awaiting_creator_profiles userId response] |}
      | role_user => on_state (setCreatorProfile None) rt1
      end
  | awaiting_users userId (inr None) =>
      {| st := setCreatorProfile None (setUserProfile None (st rt));
         w := emit (console_error "[Auth] Error loading user profile:"
                      (returned "PGRST116")) (w rt);
         pending := pending rt |}
  | awaiting_users userId (inl (returned e)) =>
      {| st := setCreatorProfile None (setUserProfile None (st rt));
         w := emit (console_error "[Auth] Error loading user profile:"
                      (returned e)) (w rt);
         pending := pending rt |}
  | awaiting_users userId (inl (thrown e)) =>
      {| st := setCreatorProfile None (setUserProfile None (st rt));
         w := emit (console_error "[Auth] Exception in loadUserProfile after"
                      (thrown e)) (w rt);
         pending := pending rt |}
  | awaiting_creator_profiles userId (inr (Some creator)) =>
      on_state (setCreatorProfile (Some creator)) rt
  | awaiting_creator_profiles userId (inr None) =>
      {| st := setCreatorProfile None (st rt);
         w := emit (console_error "[Auth] Error loading creator profile:"
                      (returned "PGRST116")) (w rt);
         pending := pending rt |}
  | awaiting_creator_profiles userId (inl (returned e)) =>
      {| st := setCreatorProfile None (st rt);
         w := emit (console_error "[Auth] Error loading creator profile:"
                      (returned e)) (w rt);
         pending := pending rt |}
  | awaiting_creator_profiles userId (inl (thrown e)) =>
      {| st := setCreatorProfile None (setUserProfile None (st rt));
         w := emit (console_error "[Auth] Exception in loadUserProfile after"
                      (thrown e)) (w rt);
         pending := pending rt |}
  end.

(** The event loop delivers the response of the [i]-th suspended call. *)
Definition deliver (i : nat) (rt : runtime) : runtime :=
  match pending rt !! i with
  | Some s =>
      resume s {| st := st rt; w := w rt; pending := delete i (pending rt) |}
  | None => rt
  end.

(** The listener passed to [supabase.auth.onAuthStateChange]. *)
Definition onAuthStateChange (event : AuthChangeEvent) (session : option Session)
    (rt : runtime) : runtime :=
  let rt1 := on_state (setSession session) rt in
  let rt2 := on_state (setUser (user <$> session)) rt1 in
  let rt3 :=
    match session with
    | Some s =>
        (* Load profile in background - don't block on it *)
        loadUserProfile (uid (user s)) rt2
    | None =>
        on_state (setCreatorProfile None) (on_state (setUserProfile None) rt2)
    end in
  on_state (setLoading false) (on_state (set_initialLoadCompleteRef true) rt3).

End Auth.

(** ** Post form: the slug made in handleSubmit

    A JavaScript string is a sequence of UTF-16 code units; the regular
    expressions carry no [u] or [i] flag and work on code units. *)
Module PostForm.

Definition code_unit := N.
Definition js_string := list code_unit.

Local Open Scope N_scope.

Definition hyphen : code_unit := 45.

Definition is_lower (c : code_unit) : bool := (97 <=? c) && (c <=? 122).
Definition is_digit (c : code_unit) : bool := (48 <=? c) && (c <=? 57).
Definition is_hyphen (c : code_unit) : bool := c =? hyphen.

(** [\s], which is also what [trim] strips: WhiteSpace and LineTerminator of
    the language specification. *)
Definition is_space (c : code_unit) : bool :=
  ((9 <=? c) && (c <=? 13))
  || (c =? 32) || (c =? 160) || (c =? 5760)
  || ((8192 <=? c) && (c <=? 8202))
  || (c =? 8232) || (c =? 8233) || (c =? 8239) || (c =? 8287)
  || (c =? 12288) || (c =? 65279).

(** [s.replace(/[^...]/g, '')] for a one-character class [keep]. *)
Definition remove_others (keep : code_unit → bool) (s : js_string) : js_string :=
  List.filter keep s.

(** [s.replace(/c+/g, r)]: every maximal run of characters of the class is
    replaced by one [r].  [in_run] tells that the previous character already
    belonged to the run being replaced. *)
Fixpoint replace_runs_from (in_run : bool) (class : code_unit → bool)
    (r : code_unit) (s : js_string) : js_string :=
  match s with
  | [] => []
  | c :: s' =>
      if class c
      then (if in_run then replace_runs_from true class r s'
            else r :: replace_runs_from true class r s')
      else c :: replace_runs_from false class r s'
  end.

Definition replace_runs := replace_runs_from false.

Fixpoint trimStart (s : js_string) : js_string :=
  match s with
  | [] => []
  | c :: s' => if is_space c then trimStart s' else s
  end.

Definition trimEnd (s : js_string) : js_string := rev (trimStart (rev s)).

Definition trim (s : js_string) : js_string := trimEnd (trimStart s).

Section slug.
(** [String.prototype.toLowerCase], the Unicode default case conversion. *)
Variable toLowerCase : js_string → js_string.

Definition slug (title : js_string) : js_string :=
  trim
    (replace_runs is_hyphen hyphen
       (replace_runs is_space hyphen
          (remove_others
             (λ c, is_lower c || is_digit c || is_space c || is_hyphen c)
             (toLowerCase title)))).
End slug.

(** Lower-casing of ASCII letters, to run [slug] on ASCII titles. *)
Definition ascii_toLowerCase (s : js_string) : js_string :=
  (λ c, if (65 <=? c) && (c <=? 90) then c + 32 else c) <$> s.

Definition js (s : string) : js_string :=
  (λ a, N.of_nat (Ascii.nat_of_ascii a)) <$> String.list_ascii_of_string s.

(** What the slug is claimed to look like. *)
Definition slug_char (c : code_unit) : bool :=
  is_lower c || is_digit c || is_hyphen c.

Fixpoint no_double_hyphen (s : js_string) : bool :=
  match s with
  | c :: (d :: _) as s' => negb (is_hyphen c && is_hyphen d) && no_double_hyphen s'
  | _ => true
  end.

End PostForm.

(** ** Backend cleanup script

    The script runs on a machine: the file system as [existsSync] and
    [statSync] report it (a path is absent, a file or a directory), what the
    operating system refuses, the [fs] calls made so far and the lines
    written by [log].  [unlinkSync] removes the file and [rmSync] with
    [recursive] the directory and everything inside it, unless the operating
    system refuses (EACCES, EPERM, EBUSY, ...): then the call throws.  Of the
    console output only the lines that report what was done are kept. *)
Module Cleanup.

Inductive stats := file | directory.

(** The file system: what is stored at each path. *)
Abbreviation filesystem := (gmap string stats).

Definition itemsToRemove : list string :=
  [ "backend"; "clients/ts-sdk"; "clients/ts-sdk-tests"; "Cargo.toml";
    "Cargo.lock"; "docker-compose.yml" ].

(** One line written by [log]. *)
Inductive line :=
  | removed_directory (itemPath : string)
  | removed_file (itemPath : string)
  | not_found (itemPath : string)
  | cleanup_cancelled
  | starting_cleanup
  | cleanup_complete (removed skipped : nat)
  | error_line (message : string).

(** One call of the [fs] module. *)
Inductive fs_call :=
  | call_existsSync (p : string)
  | call_statSync (p : string)
  | call_rmSync (p : string)
  | call_unlinkSync (p : string).

(** A removal the operating system refuses: the message of the error that is
    thrown and, for a directory, which paths inside it were already gone
    when the error came. *)
Record refusal := {
  message : string;
  gone_before : string → bool;
}.

Record machine := {
  files : filesystem;
  (** the error [statSync] throws for a path, if any *)
  stat_throws : string → option string;
  (** the refusal [rmSync] and [unlinkSync] meet for a path, if any *)
  remove_throws : string → option refusal;
  fs_calls : list fs_call;
  output : list line;
}.

Definition with_files (fs : filesystem) (m : machine) : machine :=
  {| files := fs; stat_throws := stat_throws m;
     remove_throws := remove_throws m; fs_calls := fs_calls m;
     output := output m |}.

Definition called (c : fs_call) (m : machine) : machine :=
  {| files := files m; stat_throws := stat_throws m;
     remove_throws := remove_throws m; fs_calls := fs_calls m ++ [c];
     output := output m |}.

Definition log (l : line) (m : machine) : machine :=
  {| files := files m; stat_throws := stat_throws m;
     remove_throws := remove_throws m; fs_calls := fs_calls m;
     output := output m ++ [l] |}.

Definition inside (dir p : string) : bool := String.prefix (dir +:+ "/") p.

(** [fs.existsSync] never throws. *)
Definition existsSync (p : string) (m : machine) : machine * bool :=
  (called (call_existsSync p) m, bool_decide (is_Some (files m !! p))).

(** [fs.statSync]: the stats, or the message of the error thrown. *)
Definition statSync (p : string) (m : machine) : machine * (string + stats) :=
  let m := called (call_statSync p) m in
  match stat_throws m p with
  | Some e => (m, inl e)
  | None =>
      match files m !! p with
      | Some s => (m, inr s)
      | None => (m, inl "ENOENT")
      end
  end.

Definition isDirectory (s : stats) : bool :=
  match s with
  | directory => true
  | file => false
  end.

(** [fs.rmSync(p, { recursive: true, force: true })]: returns the message of
    the error thrown, if any.  [force] only silences a missing path. *)
Definition rmSync (p : string) (m : machine) : machine * option string :=
  let m := called (call_rmSync p) m in
  match remove_throws m p with
  | Some r =>
      (with_files
         (filter (λ kv, ¬ (inside p kv.1 = true ∧ gone_before r kv.1 = true))
            (files m)) m,
       Some (message r))
  | None =>
      (with_files
         (filter (λ kv, kv.1 ≠ p ∧ inside p kv.1 = false) (files m)) m,
       None)
  end.

Definition unlinkSync (p : string) (m : machine) : machine * option string :=
  let m := called (call_unlinkSync p) m in
  match remove_throws m p with
  | Some r => (m, Some (message r))
  | None => (with_files (delete p (files m)) m, None)
  end.

(** Returns whether something was removed ([inr]), or the message of the
    error one of the [fs] calls threw ([inl]). *)
Definition removeRecursive (itemPath : string) (m : machine)
    : machine * (string + bool) :=
  let '(m1, found) := existsSync itemPath m in
  if found then
    let '(m2, stats) := statSync itemPath m1 in
    match stats with
    | inl e => (m2, inl e)
    | inr stats =>
        if isDirectory stats then
          let '(m3, error) := rmSync itemPath m2 in
          match error with
          | Some e => (m3, inl e)
          | None => (log (removed_directory itemPath) m3, inr true)
          end
        else
          let '(m3, error) := unlinkSync itemPath m2 in
          match error with
          | Some e => (m3, inl e)
          | None => (log (removed_file itemPath) m3, inr true)
          end
    end
  else (log (not_found itemPath) m1, inr false).

(** How a run ends: the machine, the two counters, and the error [main] was
    rejected with, if any. *)
Record outcome := {
  final : machine;
  removedCount : nat;
  skippedCount : nat;
  error : option string;
}.

(** [process.exit(1)] in the handler of [main().catch]. *)
Definition exit_code (o : outcome) : Z :=
  match error o with
  | Some _ => 1
  | None => 0
  end.

Section main.
Variable toLowerCase : string → string.
(** [path.join] *)
Variable join : string → string → string.
(** [process.cwd()] *)
Variable cwd : string.

Definition promptUser (answer : string) : string := toLowerCase answer.

(** The [for (const item of itemsToRemove)] loop; an error thrown inside
    [removeRecursive] ends it. *)
Fixpoint remove_items (items : list string) (o : outcome) : outcome :=
  match items with
  | [] => o
  | item :: items' =>
      let itemPath := join cwd item in
      match removeRecursive itemPath (final o) with
      | (m, inr removed) =>
          remove_items items'
            {| final := m;
               removedCount := if removed then S (removedCount o)
                               else removedCount o;
               skippedCount := if removed then skippedCount o
                               else S (skippedCount o);
               error := None |}
      | (m, inl e) =>
          {| final := m; removedCount := removedCount o;
             skippedCount := skippedCount o; error := Some e |}
      end
  end.

(** [main], given what the user types at the prompt, followed by the
    [catch] handler attached to it. *)
Definition main (typed : string) (m : machine) : outcome :=
  let answer := promptUser typed in
  if bool_decide (answer = "yes") then
    let o := remove_items itemsToRemove
               {| final := log starting_cleanup m;
                  removedCount := 0; skippedCount := 0; error := None |} in
    match error o with
    | None =>
        {| final := log (cleanup_complete (removedCount o) (skippedCount o))
                      (final o);
           removedCount := removedCount o; skippedCount := skippedCount o;
           error := None |}
    | Some e =>
        {| final := log (error_line e) (final o);
           removedCount := removedCount o; skippedCount := skippedCount o;
           error := Some e |}
    end
  else
    {| final := log cleanup_cancelled m;
       removedCount := 0; skippedCount := 0; error := None |}.
End main.

(** [path.join] on POSIX paths that need no normalising. *)
Definition posix_join (dir item : string) : string := dir +:+ "/" +:+ item.

(** A machine on which no call is refused, before the script starts. *)
Definition obliging (fs : filesystem) : machine :=
  {| files := fs; stat_throws := λ _, None; remove_throws := λ _, None;
     fs_calls := []; output := [] |}.

(** A checkout that still has the backend directory and the lock file, next
    to things the script must not touch. *)
Definition checkout : filesystem :=
  list_to_map
    [ ("/repo/backend", directory);
      ("/repo/backend/src", directory);
      ("/repo/backend/src/main.rs", file);
      ("/repo/backend-notes.md", file);
      ("/repo/Cargo.lock", file);
      ("/repo/clients/react-server", directory);
      ("/repo/README.md", file) ].

(** The same checkout with a backend directory the user may not remove:
    [rmSync] removes [main.rs] inside it and then fails. *)
Definition locked_checkout : machine :=
  {| files := checkout;
     stat_throws := λ _, None;
     remove_throws := λ p,
       if String.eqb p "/repo/backend"
       then Some {| message := "EACCES: permission denied";
                    gone_before := String.eqb "/repo/backend/src/main.rs" |}
       else None;
     fs_calls := []; output := [] |}.

(** The [fs] calls a run has added to those made before it. *)
Definition calls_of_run (m : machine) (o : outcome) : list fs_call :=
  drop (length (fs_calls m)) (fs_calls (final o)).

(** The paths handed to [removeRecursive], which starts with [existsSync] on
    its path and calls it nowhere else. *)
Definition checked (cs : list fs_call) : list string :=
  omap (λ c, match c with
             | call_existsSync p => Some p
             | _ => None
             end) cs.

(** The paths handed to [rmSync] or [unlinkSync]. *)
Definition removals (cs : list fs_call) : list string :=
  omap (λ c, match c with
             | call_rmSync p | call_unlinkSync p => Some p
             | _ => None
             end) cs.

Definition attempted (m : machine) (o : outcome) : list string :=
  checked (calls_of_run m o).

(** [p] is one of the listed paths or lies inside one of them. *)
Definition listed (paths : list string) (p : string) : Prop :=
  ∃ q, q ∈ paths ∧ (p = q ∨ inside q p = true).

End Cleanup.

(** ** increment_post_views *)
Module Views.

Definition set_p_views_count (c : option Z) (p : posts_row) : posts_row :=
  {| p_id := p_id p; p_user_id := p_user_id p; p_series_id := p_series_id p;
     p_title := p_title p; p_content := p_content p; p_number := p_number p;
     p_thumbnail_url := p_thumbnail_url p; p_created_at := p_created_at p;
     p_is_published := p_is_published p; p_deleted_at := p_deleted_at p;
     p_likes_count := p_likes_count p; p_comments_count := p_comments_count p;
     p_views_count := c |}.

(** [UPDATE public.posts SET views_count = views_count + 1 WHERE id = post_uuid] *)
Definition increment_post_views (post_uuid : uuid) (db : database) : database :=
  with_posts
    (UPDATE_WHERE (posts db)
       (λ p, set_p_views_count (plus (p_views_count p) (Some 1)) p)
       (λ p, N.eqb (p_id p) post_uuid)) db.

(** What [n] calls make of a post's view counter. *)
Definition viewed (n : nat) (post_uuid : uuid) (p : posts_row) : posts_row :=
  if N.eqb (p_id p) post_uuid
  then set_p_views_count ((λ v, v + Z.of_nat n) <$> p_views_count p) p
  else p.

End Views.

(** ** Search functions: search_creators and search_series

    The text columns the two functions read are not among the columns of
    [Db]; a row here is the [Db] row together with them.  [search_query] is
    taken non-NULL.  What [ILIKE] matches and how the collation orders
    [display_name] is decided by the engine, so both are parameters.  A
    condition evaluates to true, false or NULL ([None]), and WHERE keeps the
    rows on which it is true. *)
Module Search.

Record users_text := {
  u_row : users_row;
  u_description : option string;
}.

Record creator_profiles_text := {
  cp_row : creator_profiles_row;
  cp_bio : option string;
  cp_category : option string;
  cp_total_earnings : option numeric;
}.

Record series_text := {
  s_row : series_row;
  s_description : option string;
  s_slug : string;
  s_category : option string;
  s_cover_image_url : option string;
  s_is_published : bool;
  s_created_at : timestamptz;
}.

Definition OR (a b : option bool) : option bool :=
  match a, b with
  | Some true, _ | _, Some true => Some true
  | Some false, Some false => Some false
  | _, _ => None
  end.

Definition AND (a b : option bool) : option bool :=
  match a, b with
  | Some false, _ | _, Some false => Some false
  | Some true, Some true => Some true
  | _, _ => None
  end.

Definition is_true (a : option bool) : bool :=
  match a with
  | Some true => true
  | _ => false
  end.

(** Several ORDER BY keys: the first one that tells two rows apart decides.
    [Lt] puts the left row first. *)
Definition then_by (c1 c2 : comparison) : comparison :=
  match c1 with
  | Eq => c2
  | _ => c1
  end.

(** [ORDER BY b DESC] on a boolean: true before false. *)
Definition bool_desc (a b : bool) : comparison :=
  match a, b with
  | true, false => Lt
  | false, true => Gt
  | _, _ => Eq
  end.

(** [ORDER BY n DESC] on a nullable number: NULLs first, then the larger
    number first. *)
Definition int_desc (a b : option Z) : comparison :=
  match a, b with
  | None, None => Eq
  | None, Some _ => Lt
  | Some _, None => Gt
  | Some x, Some y => Z.compare y x
  end.

Record creator_result := {
  sc_user_id : uuid;
  sc_display_name : string;
  sc_avatar_url : option string;
  sc_description : option string;
  sc_bio : option string;
  sc_category : option string;
  sc_is_verified : bool;
  sc_followers_count : Z;
  sc_posts_count : Z;
  sc_series_count : Z;
  sc_total_earnings : numeric;
}.

Record series_result := {
  ss_series_id : uuid;
  ss_user_id : uuid;
  ss_creator_name : string;
  ss_creator_avatar_url : option string;
  ss_title : string;
  ss_description : option string;
  ss_slug : string;
  ss_category : option string;
  ss_cover_image_url : option string;
  ss_posts_count : Z;
  ss_is_published : bool;
  ss_created_at : timestamptz;
}.

Definition is_creator_or_admin (r : user_role) : bool :=
  match r with
  | role_creator | role_admin => true
  | role_user => false
  end.

Section search.
(** [text ILIKE pattern], both operands non-NULL. *)
Variable ILIKE : string → string → bool.
(** The collation's comparison of two [text] values. *)
Variable text_compare : string → string → comparison.

(** [column ILIKE '%' || search_query || '%']: NULL on a NULL column. *)
Definition matches (column : option string) (search_query : string) : option bool :=
  (λ t, ILIKE t ("%" +:+ search_query +:+ "%")) <$> column.

(** *** search_creators *)
Definition creator_row : Type := users_text * option creator_profiles_text.

Definition creators_from (users : list users_text)
    (creator_profiles : list creator_profiles_text) : list creator_row :=
  LEFT_JOIN users creator_profiles
    (λ u cp, N.eqb (u_id (u_row u)) (cp_user_id (cp_row cp))).

Definition creators_where (search_query : string) (j : creator_row) : option bool :=
  let '(u, cp) := j in
  AND (Some (is_creator_or_admin (u_role (u_row u))))
    (OR (OR (OR (matches (Some (u_display_name (u_row u))) search_query)
                (matches (u_description u) search_query))
            (matches (cp ≫= cp_bio) search_query))
        (matches (cp ≫= cp_category) search_query)).

(** [ORDER BY u.is_verified DESC, cp.followers_count DESC, u.display_name ASC] *)
Definition creators_compare (a b : creator_row) : comparison :=
  then_by (bool_desc (u_is_verified (u_row a.1)) (u_is_verified (u_row b.1)))
    (then_by (int_desc (a.2 ≫= λ cp, cp_followers_count (cp_row cp))
                       (b.2 ≫= λ cp, cp_followers_count (cp_row cp)))
       (text_compare (u_display_name (u_row a.1)) (u_display_name (u_row b.1)))).

(** [a] may come before [b]. *)
Definition creators_order (a b : creator_row) : Prop := creators_compare a b ≠ Gt.

#[global] Instance creators_order_dec : RelDecision creators_order.
Proof. intros a b. unfold creators_order. apply _. Defined.

Definition creators_select (j : creator_row) : creator_result :=
  let '(u, cp) := j in
  {| sc_user_id := u_id (u_row u);
     sc_display_name := u_display_name (u_row u);
     sc_avatar_url := u_avatar_url (u_row u);
     sc_description := u_description u;
     sc_bio := cp ≫= cp_bio;
     sc_category := cp ≫= cp_category;
     sc_is_verified := u_is_verified (u_row u);
     sc_followers_count := COALESCE (cp ≫= λ cp, cp_followers_count (cp_row cp)) 0;
     sc_posts_count := COALESCE (cp ≫= λ cp, cp_posts_count (cp_row cp)) 0;
     sc_series_count := COALESCE (cp ≫= λ cp, cp_series_count (cp_row cp)) 0;
     sc_total_earnings := COALESCE (cp ≫= cp_total_earnings) 0 |}.

Definition creators_found (users : list users_text)
    (creator_profiles : list creator_profiles_text) (search_query : string)
    : list creator_row :=
  List.filter (λ j, is_true (creators_where search_query j))
    (creators_from users creator_profiles).

Definition search_creators (users : list users_text)
    (creator_profiles : list creator_profiles_text)
    (search_query : string) (search_limit : Z) : result creator_result :=
  if search_limit <? 0 then Error "LIMIT must not be negative"
  else
    let ordered :=
      merge_sort creators_order
        (creators_found users creator_profiles search_query) in
    Rows (creators_select <$> take (Z.to_nat search_limit) ordered).

(** *** search_series *)
Definition series_joined : Type := series_text * users_text.

Definition series_from (series : list series_text) (users : list users_text)
    : list series_joined :=
  INNER_JOIN series users (λ s u, N.eqb (s_user_id (s_row s)) (u_id (u_row u))).

Definition series_where (search_query : string) (j : series_joined) : option bool :=
  let '(s, u) := j in
  AND (AND (Some (s_is_published s)) (Some (IS_NULL (s_deleted_at (s_row s)))))
    (OR (OR (OR (matches (Some (s_title (s_row s))) search_query)
                (matches (s_description s) search_query))
            (matches (s_category s) search_query))
        (matches (Some (u_display_name (u_row u))) search_query)).

(** [ORDER BY s.posts_count DESC, s.created_at DESC] *)
Definition series_compare (a b : series_joined) : comparison :=
  then_by (int_desc (s_posts_count (s_row a.1)) (s_posts_count (s_row b.1)))
    (Z.compare (s_created_at b.1) (s_created_at a.1)).

Definition series_order (a b : series_joined) : Prop := series_compare a b ≠ Gt.

#[global] Instance series_order_dec : RelDecision series_order.
Proof. intros a b. unfold series_order. apply _. Defined.

Definition series_select (j : series_joined) : series_result :=
  let '(s, u) := j in
  {| ss_series_id := s_id (s_row s);
     ss_user_id := s_user_id (s_row s);
     ss_creator_name := u_display_name (u_row u);
     ss_creator_avatar_url := u_avatar_url (u_row u);
     ss_title := s_title (s_row s);
     ss_description := s_description s;
     ss_slug := s_slug s;
     ss_category := s_category s;
     ss_cover_image_url := s_cover_image_url s;
     ss_posts_count := COALESCE (s_posts_count (s_row s)) 0;
     ss_is_published := s_is_published s;
     ss_created_at := s_created_at s |}.

Definition series_found (series : list series_text) (users : list users_text)
    (search_query : string) : list series_joined :=
  List.filter (λ j, is_true (series_where search_query j))
    (series_from series users).

Definition search_series (series : list series_text) (users : list users_text)
    (search_query : string) (search_limit : Z) : result series_result :=
  if search_limit <? 0 then Error "LIMIT must not be negative"
  else
    let ordered :=
      merge_sort series_order (series_found series users search_query) in
    Rows (series_select <$> take (Z.to_nat search_limit) ordered).
End search.

(** *** What the searches promise *)

(** The search text occurs in one of the creator's four searched columns;
    the last two are those of a profile row of the creator. *)
Definition creator_matches (ILIKE : string → string → bool)
    (creator_profiles : list creator_profiles_text) (search_query : string)
    (u : users_text) : Prop :=
  let pattern := "%" +:+ search_query +:+ "%" in
  ILIKE (u_display_name (u_row u)) pattern = true
  ∨ (∃ d, u_description u = Some d ∧ ILIKE d pattern = true)
  ∨ ∃ cp, cp ∈ creator_profiles
          ∧ cp_user_id (cp_row cp) = u_id (u_row u)
          ∧ ((∃ b, cp_bio cp = Some b ∧ ILIKE b pattern = true)
             ∨ (∃ c, cp_category cp = Some c ∧ ILIKE c pattern = true)).

(** Verified creators are listed before the others. *)
Definition verified_first (a b : creator_result) : Prop :=
  sc_is_verified b = true → sc_is_verified a = true.

(** The search text occurs in the series' title, description or category or
    in its creator's name. *)
Definition series_matches (ILIKE : string → string → bool)
    (search_query : string) (s : series_text) (u : users_text) : Prop :=
  let pattern := "%" +:+ search_query +:+ "%" in
  ILIKE (s_title (s_row s)) pattern = true
  ∨ (∃ d, s_description s = Some d ∧ ILIKE d pattern = true)
  ∨ (∃ c, s_category s = Some c ∧ ILIKE c pattern = true)
  ∨ ILIKE (u_display_name (u_row u)) pattern = true.

(** Series with more posts are listed first, newer before older among equals;
    a NULL counter shows as 0. *)
Definition more_posts_first (a b : series_result) : Prop :=
  ss_posts_count b ≤ ss_posts_count a.

(** An [ILIKE] that looks for the text between the two [%] of the pattern
    anywhere in the column, letter case ignored as far as ASCII goes. *)
Definition lower (s : string) : string :=
  String.string_of_list_ascii
    ((λ a, let n := Ascii.nat_of_ascii a in
           if (65 <=? n)%nat && (n <=? 90)%nat
           then Ascii.ascii_of_nat (n + 32) else a)
       <$> String.list_ascii_of_string s).

Fixpoint contains (needle s : string) : bool :=
  String.prefix needle s
  || match s with
     | EmptyString => false
     | String _ s' => contains needle s'
     end.

Definition simple_ILIKE (text pattern : string) : bool :=
  contains (lower (String.substring 1 (String.length pattern - 2) pattern))
    (lower text).

(** Four users whose name, description or bio contains the word art: a
    verified creator, a creator with many followers, a plain user, and a
    creator who has no profile row. *)
Definition sample_users : list users_text :=
  let user (id : uuid) (name : string) (role : user_role) (verified : bool)
      (description : option string) :=
    {| u_row := {| u_id := id; u_display_name := name; u_avatar_url := None;
                   u_role := role; u_is_verified := verified |};
       u_description := description |} in
  [ user 1%N "Asha" role_creator true None;
    user 2%N "Bina Art" role_creator false None;
    user 3%N "Artful reader" role_user false (Some "likes art");
    user 4%N "Dev" role_creator false (Some "Teaches ART") ].

Definition sample_profiles : list creator_profiles_text :=
  let profile (id : uuid) (followers : Z) (bio : option string) :=
    {| cp_row := {| cp_user_id := id; cp_followers_count := Some followers;
                    cp_likes_count := Some 0; cp_posts_count := Some 0;
                    cp_series_count := Some 0 |};
       cp_bio := bio; cp_category := None; cp_total_earnings := Some 0 |} in
  [ profile 1%N 5 (Some "Digital art"); profile 2%N 100 None ].

End Search.

(** ** What a feed row tells about the tables *)
Module FeedRows.
Import Feed.

(** The rows of a result; none when the call failed. *)
Definition rows {A} (r : result A) : list A :=
  match r with
  | Rows rs => rs
  | Error _ => []
  end.

(** There is a [post_likes] row of the user for the post. *)
Definition liked_by (db : database) (user_uuid : uuid) (p : posts_row) : Prop :=
  ∃ l, l ∈ post_likes db ∧ pl_post_id l = p_id p ∧ pl_user_id l = user_uuid.

(** The row shows post [p] with the name, avatar and badge of its author [a]
    and the title of its series [s]. *)
Definition shows_author_and_series (db : database) (r : Feed.discovery_row)
    (p : posts_row) (a : users_row) (s : series_row) : Prop :=
  p ∈ posts db ∧ a ∈ users db ∧ s ∈ series db
  ∧ p_user_id p = u_id a ∧ p_series_id p = Some (s_id s)
  ∧ df_post_id r = p_id p
  ∧ df_creator_id r = u_id a
  ∧ df_creator_name r = u_display_name a
  ∧ df_creator_avatar_url r = u_avatar_url a
  ∧ df_creator_verified r = u_is_verified a
  ∧ df_series_id r = Some (s_id s)
  ∧ df_series_title r = s_title s.

(** The discovery row shows the same post as the user-feed row, as one the
    user follows the creator of. *)
Definition same_post_followed (r : Feed.user_feed_row) (r' : Feed.discovery_row)
    : Prop :=
  df_post_id r' = uf_post_id r
  ∧ df_creator_id r' = uf_creator_id r
  ∧ df_post_title r' = uf_post_title r
  ∧ df_post_created_at r' = uf_post_created_at r
  ∧ df_likes_count r' = uf_likes_count r
  ∧ df_user_has_liked r' = uf_user_has_liked r
  ∧ df_user_follows_creator r' = true.

End FeedRows.

(** ** What the page handlers leave in the tables *)
Module Handlers.

(** The [post_likes] rows of a user for a post, and the [follows] rows from
    a user to a creator: the rows the pages look up and delete. *)
Definition user_likes (user_id post_id : uuid) (d : database) : list post_likes_row :=
  List.filter (λ r, N.eqb (pl_post_id r) post_id && N.eqb (pl_user_id r) user_id)
    (post_likes d).

Definition user_follows (follower_id following_id : uuid) (d : database)
    : list follows_row :=
  List.filter (λ r, N.eqb (f_follower_id r) follower_id
                    && N.eqb (f_following_id r) following_id)
    (follows d).

Definition has_liked (user_id post_id : uuid) (d : database) : bool :=
  bool_decide (user_likes user_id post_id d ≠ []).

(** The row handleSupport inserts. *)
Definition pending_support (id supporter creator : uuid) (amount : Z)
    : supporter_transactions_row :=
  {| st_id := id; st_supporter_id := supporter; st_creator_id := creator;
     st_amount := amount; st_status := st_pending |}.

End Handlers.

(** ** PostCard: formatContent *)
Module PostCardText.
Import PostForm.

(** [content.substring(0, 300) + '...'] for content longer than 300 code
    units. *)
Definition formatContent (content : js_string) : js_string :=
  if (length content <=? 300)%nat then content
  else take 300 content ++ js "...".

(** The card shows the "Read more" link. *)
Definition shows_read_more (content : js_string) : bool :=
  (300 <? length content)%nat.

End PostCardText.

(** ** ProtectedRoute

    The component reads [user] and [loading] from the auth context and the
    path from the router.  Its effect navigates at most once per run; what it
    returns is one of two spinners or its children.  A [redirectTo] that is
    left out or empty counts as not given. *)
Module ProtectedRoute.

Record props := {
  requireAuth : bool;
  redirectTo : option string;
}.

Inductive element :=
  | loading_spinner
  | redirecting_to_login_spinner
  | children.

Definition truthy (s : option string) : bool :=
  match s with
  | Some (String _ _) => true
  | _ => false
  end.

(** The body of [useEffect]: the path handed to [navigate], if any. *)
Definition effect (p : props) (user : option User) (loading : bool)
    (pathname : string) : option string :=
  if loading then None
  else if requireAuth p && negb (bool_decide (is_Some user)) then Some "/login"
  else if bool_decide (is_Some user) && negb (requireAuth p)
          && (bool_decide (pathname = "/login")
              || bool_decide (pathname = "/register"))
  then Some "/dashboard"
  else if truthy (redirectTo p) then redirectTo p
  else None.

(** What the component returns. *)
Definition render (p : props) (user : option User) (loading : bool) : element :=
  if loading then loading_spinner
  else if requireAuth p && negb (bool_decide (is_Some user))
  then redirecting_to_login_spinner
  else children.

(** The props the router gives its guarded routes: [requireAuth] only. *)
Definition route (requireAuth : bool) : props :=
  {| requireAuth := requireAuth; redirectTo := None |}.

End ProtectedRoute.

(** ** loadUserProfile run to its end *)
Module AuthLoad.
Import Auth.

(** A call of [loadUserProfile] whose responses are delivered before anything
    else happens: the [users] response first and then, if the call went on to
    ask for it, the [creator_profiles] response.  The new call is the last of
    the pending ones. *)
Definition load_to_completion (userId : uuid) (rt : runtime) : runtime :=
  let n := length (pending rt) in
  deliver n (deliver n (loadUserProfile userId rt)).

(** [isCreator] of the context value. *)
Definition isCreator (s : state) : bool :=
  match st_userProfile s with
  | Some profile =>
      match u_role profile with
      | role_creator | role_admin => true
      | role_user => false
      end
  | None => false
  end.

End AuthLoad.

(** ** The other page handlers

    The handlers below send requests the ones above do not, so they run
    against a client of their own, built the same way: a call fails as the
    world says, by call number, or runs against the database.  An error
    object is known by its code, and [.single()] reports anything but exactly
    one row with the code PGRST116.  [events] keeps the console errors and
    warnings, the form errors and the navigations. *)
Module Client.

Inductive request :=
  | posts_select_by_id (post_id : uuid)
  | users_select_by_id (user_id : uuid)
  | creator_profiles_select_by_user (user_id : uuid)
  | posts_select_by_user (user_id : uuid) (limit : nat)
  | follows_select (follower_id following_id : uuid)
  | posts_select_published (limit : nat)
  | posts_insert (user_id : uuid) (title content slug : PostForm.js_string)
      (number : Z) (is_published : bool) (thumbnail_url : option string)
  | posts_update (post_id : uuid) (title content slug : PostForm.js_string)
      (number : Z) (is_published : option bool) (thumbnail_url : option string)
  | users_update_role (user_id : uuid) (role : user_role)
  | creator_profiles_insert (user_id : uuid) (bio category : string)
  | auth_signOut.

Inductive event :=
  | console_error (label : string) (f : failure)
  | console_warn (label : string) (f : failure)
  | setError (field message : string)
  | navigate (to : string).

Record world := {
  db : database;
  failing : nat → option failure;
  calls : list request;
  events : list event;
}.

Definition with_db (d : database) (w : world) : world :=
  {| db := d; failing := failing w; calls := calls w; events := events w |}.

Definition record_call (rq : request) (w : world) : world :=
  {| db := db w; failing := failing w; calls := calls w ++ [rq];
     events := events w |}.

Definition emit (e : event) (w : world) : world :=
  {| db := db w; failing := failing w; calls := calls w;
     events := events w ++ [e] |}.

Definition execute (rq : request) (run : database → database) (w : world)
    : world * option failure :=
  match failing w (length (calls w)) with
  | Some f => (record_call rq w, Some f)
  | None => (with_db (run (db w)) (record_call rq w), None)
  end.

Definition query {A} (rq : request) (read : database → A) (w : world)
    : world * (failure + A) :=
  match failing w (length (calls w)) with
  | Some f => (record_call rq w, inl f)
  | None => (record_call rq w, inr (read (db w)))
  end.

(** [.single()] on top of a query: the row, or the failure, which is
    PGRST116 when the rows are not exactly one. *)
Definition query_single {A} (rq : request) (read : database → list A) (w : world)
    : world * (failure + A) :=
  let '(w1, response) := query rq read w in
  match response with
  | inl f => (w1, inl f)
  | inr [row] => (w1, inr row)
  | inr _ => (w1, inl (returned "PGRST116"))
  end.

Definition reliable (d : database) : world :=
  {| db := d; failing := λ _, None; calls := []; events := [] |}.

(** The next [n] calls all go through. *)
Definition next_calls_succeed (n : nat) (w : world) : Prop :=
  ∀ i, (i < n)%nat → failing w (length (calls w) + i) = None.

End Client.

(** ** AppDataContext: fetchSinglePost *)
Module SinglePost.
Import Client.

Definition fetchSinglePost (postId : uuid) (singlePost : option posts_row)
    (w : world) : option posts_row * world :=
  (* Clear the current singlePost to avoid showing stale data *)
  let singlePost := @None posts_row in
  let '(w1, response) :=
    query_single (posts_select_by_id postId)
      (λ d, List.filter (λ p, N.eqb (p_id p) postId) (posts d)) w in
  match response with
  | inl (returned e) =>
      (singlePost, emit (console_error "Error fetching post:" (returned e)) w1)
  | inl (thrown e) =>
      (singlePost, emit (console_error "Error in fetchSinglePost:" (thrown e)) w1)
  | inr data => (Some data, w1)
  end.

End SinglePost.

(** ** Creator profile page: fetchCreatorData *)
Module CreatorData.
Import Client.

(** [{ id, display_name, photo_url }] attached to each post. *)
Record creator_info := {
  ci_id : uuid;
  ci_display_name : string;
  ci_photo_url : option string;
}.

Record state := {
  creatorUser : option users_row;
  creatorProfile : option creator_profiles_row;
  posts : list (posts_row * creator_info);
  isFollowing : bool;
  isLoading : bool;
}.

Definition setCreatorUser (u : option users_row) (s : state) : state :=
  {| creatorUser := u; creatorProfile := creatorProfile s; posts := posts s;
     isFollowing := isFollowing s; isLoading := isLoading s |}.

Definition setCreatorProfile (c : option creator_profiles_row) (s : state) : state :=
  {| creatorUser := creatorUser s; creatorProfile := c; posts := posts s;
     isFollowing := isFollowing s; isLoading := isLoading s |}.

Definition setPosts (ps : list (posts_row * creator_info)) (s : state) : state :=
  {| creatorUser := creatorUser s; creatorProfile := creatorProfile s;
     posts := ps; isFollowing := isFollowing s; isLoading := isLoading s |}.

Definition setIsFollowing (b : bool) (s : state) : state :=
  {| creatorUser := creatorUser s; creatorProfile := creatorProfile s;
     posts := posts s; isFollowing := b; isLoading := isLoading s |}.

Definition setIsLoading (b : bool) (s : state) : state :=
  {| creatorUser := creatorUser s; creatorProfile := creatorProfile s;
     posts := posts s; isFollowing := isFollowing s; isLoading := b |}.

(** [.eq('user_id', creatorId).eq('is_published', true)
      .order('created_at', { ascending: false }).limit(20)] *)
Definition published_posts_of (creatorId : uuid) (limit : nat) (d : database)
    : list posts_row :=
  take limit
    (merge_sort AppData.created_at_desc
       (List.filter (λ p, N.eqb (p_user_id p) creatorId && p_is_published p)
          (Db.posts d))).

Definition fetchCreatorData (user : option User) (creatorId : option uuid)
    (s : state) (w : world) : state * world :=
  match creatorId with
  | None => (s, w)
  | Some creatorId =>
      let s := setIsLoading true s in
      let caught (f : failure) (s' : state) (w' : world) :=
        (setIsLoading false s',
         emit (console_error "Error fetching creator data:" f) w') in
      (* Fetch user info *)
      let '(w1, users_response) :=
        query_single (users_select_by_id creatorId)
          (λ d, List.filter (λ u, N.eqb (u_id u) creatorId) (users d)) w in
      match users_response with
      | inl f => caught f s w1
      | inr userData =>
          let s := setCreatorUser (Some userData) s in
          (* Fetch creator profile *)
          let '(w2, profile_response) :=
            query_single (creator_profiles_select_by_user creatorId)
              (λ d, List.filter (λ c, N.eqb (cp_user_id c) creatorId)
                      (creator_profiles d)) w1 in
          match profile_response with
          | inl (thrown e) => caught (thrown e) s w2
          | _ =>
              let '(s, w2) :=
                match profile_response with
                | inl (returned code) =>
                    if bool_decide (code ≠ "PGRST116")
                    then (s, emit (console_warn "Creator profile not found:"
                                     (returned code)) w2)
                    else (s, w2)
                | inr profileData => (setCreatorProfile (Some profileData) s, w2)
                | inl (thrown _) => (s, w2)
                end in
              (* Fetch creator's posts *)
              let '(w3, posts_response) :=
                query (posts_select_by_user creatorId 20)
                  (published_posts_of creatorId 20) w2 in
              match posts_response with
              | inl f => caught f s w3
              | inr postsData =>
                  let creator :=
                    {| ci_id := u_id userData;
                       ci_display_name := u_display_name userData;
                       ci_photo_url := u_avatar_url userData |} in
                  let s := setPosts ((λ post, (post, creator)) <$> postsData) s in
                  (* Check if current user is following this creator *)
                  match user with
                  | Some user =>
                      let '(w4, follow_response) :=
                        query_single (follows_select (uid user) creatorId)
                          (λ d, List.filter
                                  (λ f, N.eqb (f_follower_id f) (uid user)
                                        && N.eqb (f_following_id f) creatorId)
                                  (follows d)) w3 in
                      match follow_response with
                      | inl (thrown e) => caught (thrown e) s w4
                      | inl (returned _) =>
                          (setIsLoading false (setIsFollowing false s), w4)
                      | inr _ =>
                          (setIsLoading false (setIsFollowing true s), w4)
                      end
                  | None => (setIsLoading false s, w3)
                  end
              end
          end
      end
  end.

(** The page as it is first rendered. *)
Definition initial : state :=
  {| creatorUser := None; creatorProfile := None; posts := [];
     isFollowing := false; isLoading := true |}.

(** The requests of one run, in the order they are sent. *)
Definition requests (user : option User) (creatorId : uuid) : list request :=
  [ users_select_by_id creatorId;
    creator_profiles_select_by_user creatorId;
    posts_select_by_user creatorId 20 ]
  ++ match user with
     | Some user => [ follows_select (uid user) creatorId ]
     | None => []
     end.

End CreatorData.

(** ** Post form: handleSubmit

    The form holds its strings as JavaScript strings; [to_text] is what the
    database stores for one.  The columns the insert does not name get their
    column defaults, which the migration at hand does not show:
    [column_defaults] is the row of defaults at the time of the insert. *)
Module PostSubmit.
Import Client PostForm.

Record CreatePostRequest := {
  title : js_string;
  postNumber : Z;
  isPublished : option bool;
  thumbnailUrl : option string;
}.

(** [s || null] *)
Definition or_null (s : option string) : option string :=
  match s with
  | Some (String _ _ as url) => Some url
  | _ => None
  end.

(** [!editorContent || editorContent.trim() === '' || editorContent === '<p></p>'] *)
Definition blank (editorContent : js_string) : bool :=
  bool_decide (editorContent = [])
  || bool_decide (trim editorContent = [])
  || bool_decide (editorContent = js "<p></p>").

(** [fetchPosts] of the app data context, on this client. *)
Definition fetchPosts (posts : option (list posts_row)) (w : world)
    : option (list posts_row) * world :=
  let '(w1, response) :=
    query (posts_select_published 20) (AppData.published_posts 20) w in
  match response with
  | inl (returned e) =>
      (posts, emit (console_error "Error fetching posts:" (returned e)) w1)
  | inl (thrown e) =>
      (posts, emit (console_error "Error in fetchPosts:" (thrown e)) w1)
  | inr data => (Some data, w1)
  end.

Section handleSubmit.
Variable toLowerCase : js_string → js_string.
Variable to_text : js_string → string.
Variable column_defaults : database → posts_row.
(** Whether the error object the client returns is an [Error] instance. *)
Variable returned_error_is_Error : bool.

(** The row [insert] adds: the named columns over the defaults. *)
Definition new_post (user_id : uuid) (formData : CreatePostRequest)
    (editorContent : js_string) (d : database) : posts_row :=
  let defaults := column_defaults d in
  {| p_id := p_id defaults; p_user_id := user_id;
     p_series_id := p_series_id defaults;
     p_title := to_text (title formData);
     p_content := to_text editorContent;
     p_number := postNumber formData;
     p_thumbnail_url := or_null (thumbnailUrl formData);
     p_created_at := p_created_at defaults;
     p_is_published := default true (isPublished formData);
     p_deleted_at := p_deleted_at defaults;
     p_likes_count := p_likes_count defaults;
     p_comments_count := p_comments_count defaults;
     p_views_count := p_views_count defaults |}.

(** What [update] makes of a row; an undefined [is_published] is not sent
    and leaves the column alone. *)
Definition edited (formData : CreatePostRequest) (editorContent : js_string)
    (p : posts_row) : posts_row :=
  {| p_id := p_id p; p_user_id := p_user_id p; p_series_id := p_series_id p;
     p_title := to_text (title formData);
     p_content := to_text editorContent;
     p_number := postNumber formData;
     p_thumbnail_url := or_null (thumbnailUrl formData);
     p_created_at := p_created_at p;
     p_is_published := default (p_is_published p) (isPublished formData);
     p_deleted_at := p_deleted_at p;
     p_likes_count := p_likes_count p;
     p_comments_count := p_comments_count p;
     p_views_count := p_views_count p |}.

Definition update_post (post_id : uuid) (formData : CreatePostRequest)
    (editorContent : js_string) (d : database) : database :=
  with_posts
    (UPDATE_WHERE (posts d) (edited formData editorContent)
       (λ p, N.eqb (p_id p) post_id)) d.

(** [error instanceof Error ? error.message : `Failed to ... post`] *)
Definition message (verb : string) (f : failure) : string :=
  match f with
  | thrown e => e
  | returned e =>
      if returned_error_is_Error then e else "Failed to " +:+ verb +:+ " post"
  end.

(** Returns [isLoading], the [posts] of the app data context and the
    world. *)
Definition handleSubmit (isEditMode : bool) (existingPost : option posts_row)
    (userProfile : option users_row) (editor : option js_string)
    (formData : CreatePostRequest) (posts : option (list posts_row))
    (w : world) : bool * option (list posts_row) * world :=
  let verb := if isEditMode then "update" else "create" in
  let caught (f : failure) (w' : world) :=
    (false, posts,
     emit (setError "title" (message verb f))
       (emit (console_error ("Failed to " +:+ verb +:+ " post:") f) w')) in
  (* Get content from TinyMCE editor *)
  let editorContent := default [] editor in
  if blank editorContent then
    (false, posts, emit (setError "content" "Content is required") w)
  else
    (* Generate slug from title *)
    let slug := slug toLowerCase (title formData) in
    match userProfile with
    | None => caught (thrown "User not authenticated") w
    | Some userProfile =>
        let '(w1, error) :=
          match isEditMode, existingPost with
          | true, Some existingPost =>
              (* Update existing post *)
              execute
                (posts_update (p_id existingPost) (title formData) editorContent
                   slug (postNumber formData) (isPublished formData)
                   (or_null (thumbnailUrl formData)))
                (update_post (p_id existingPost) formData editorContent) w
          | _, _ =>
              (* Create new post *)
              execute
                (posts_insert (u_id userProfile) (title formData) editorContent
                   slug (postNumber formData)
                   (default true (isPublished formData))
                   (or_null (thumbnailUrl formData)))
                (λ d, Triggers.insert_posts
                        (new_post (u_id userProfile) formData editorContent d) d)
                w
          end in
        match error with
        | Some f => caught f w1
        | None =>
            (* Refresh posts data *)
            let '(posts', w2) := fetchPosts posts w1 in
            (* Navigate back to content dashboard *)
            (false, posts', emit (navigate "/dashboard/content") w2)
        end
    end.
End handleSubmit.

(** The form went to the content dashboard. *)
Definition navigated (w w' : world) : Prop :=
  ∃ before, events w' = events w ++ before ++ [navigate "/dashboard/content"].

(** No navigation among the events since [w]. *)
Definition stayed (w w' : world) : Prop :=
  ∃ new, events w' = events w ++ new ∧ ∀ to, navigate to ∉ new.

(** A form filled in by creator 1 and the defaults an empty [posts] table
    would give. *)
Definition sample_form : CreatePostRequest :=
  {| title := js "My first post"; postNumber := 1; isPublished := None;
     thumbnailUrl := Some "" |}.

Definition sample_defaults (d : database) : posts_row :=
  {| p_id := 100%N; p_user_id := 0%N; p_series_id := None; p_title := "";
     p_content := ""; p_number := 0; p_thumbnail_url := None;
     p_created_at := 500; p_is_published := false; p_deleted_at := None;
     p_likes_count := Some 0; p_comments_count := Some 0;
     p_views_count := Some 0 |}.

(** ASCII code units as text. *)
Definition ascii_text (s : js_string) : string :=
  String.string_of_list_ascii
    ((λ c, Ascii.ascii_of_nat (N.to_nat c)) <$> s).

End PostSubmit.

(** ** AuthProvider: the actions of the context value

    The actions await [loadUserProfile], so here it is written straight
    through, on the client of the other handlers; its branches are those of
    [Auth.resume].  An action resolves to [{ error }], or its promise is
    rejected when the client throws outside a [try]. *)
Module AuthActions.
Import Client.

Definition state := Auth.state.

Inductive outcome :=
  | resolved (error : option string)
  | rejected (e : string).

Definition role_of (creator : bool) : user_role :=
  if creator then role_creator else role_user.

Definition loadUserProfile (userId : uuid) (s : state) (w : world) : state * world :=
  let '(w1, response) :=
    query_single (users_select_by_id userId)
      (λ d, List.filter (λ u, N.eqb (u_id u) userId) (users d)) w in
  let exception (e : string) (s' : state) (w' : world) :=
    (Auth.setCreatorProfile None (Auth.setUserProfile None s'),
     emit (console_error "[Auth] Exception in loadUserProfile after" (thrown e))
       w') in
  match response with
  | inl (thrown e) => exception e s w1
  | inl (returned e) =>
      (Auth.setCreatorProfile None (Auth.setUserProfile None s),
       emit (console_error "[Auth] Error loading user profile:" (returned e)) w1)
  | inr profile =>
      let s := Auth.setUserProfile (Some profile) s in
      match u_role profile with
      | role_creator | role_admin =>
          let '(w2, response) :=
            query_single (creator_profiles_select_by_user userId)
              (λ d, List.filter (λ c, N.eqb (cp_user_id c) userId)
                      (creator_profiles d)) w1 in
          match response with
          | inl (thrown e) => exception e s w2
          | inl (returned e) =>
              (Auth.setCreatorProfile None s,
               emit (console_error "[Auth] Error loading creator profile:"
                       (returned e)) w2)
          | inr creator => (Auth.setCreatorProfile (Some creator) s, w2)
          end
      | role_user => (Auth.setCreatorProfile None s, w1)
      end
  end.

Definition refreshProfile (s : state) (w : world) : state * world :=
  match Auth.st_user s with
  | Some user => loadUserProfile (uid user) s w
  | None => (s, w)
  end.

Definition signOut (s : state) (w : world) : state * world * option string :=
  let '(w1, error) := execute auth_signOut (λ d, d) w in
  match error with
  | Some (returned e) =>
      (s, emit (console_error "[Auth] Sign out error:" (returned e)) w1, Some e)
  | Some (thrown e) =>
      (s, emit (console_error "[Auth] Exception during sign out:" (thrown e)) w1,
       Some e)
  | None =>
      (Auth.setSession None
         (Auth.setCreatorProfile None
            (Auth.setUserProfile None (Auth.setUser None s))), w1, None)
  end.

Definition set_u_role (r : user_role) (u : users_row) : users_row :=
  {| u_id := u_id u; u_display_name := u_display_name u;
     u_avatar_url := u_avatar_url u; u_role := r;
     u_is_verified := u_is_verified u |}.

Definition with_users (t : list users_row) (d : database) : database :=
  {| users := t; creator_profiles := creator_profiles d; posts := posts d;
     series := series d; follows := follows d; post_likes := post_likes d;
     post_comments := post_comments d;
     supporter_transactions := supporter_transactions d;
     subscriptions := subscriptions d |}.

(** [from('users').update({ role }).eq('id', user.id)] *)
Definition update_role (user_id : uuid) (r : user_role) (d : database) : database :=
  with_users (UPDATE_WHERE (users d) (set_u_role r) (λ u, N.eqb (u_id u) user_id)) d.

Definition updateUserRole (creator : bool) (s : state) (w : world)
    : state * world * outcome :=
  match Auth.st_user s with
  | None => (s, w, resolved (Some "Not authenticated"))
  | Some user =>
      let '(w1, error) :=
        execute (users_update_role (uid user) (role_of creator))
          (update_role (uid user) (role_of creator)) w in
      match error with
      | Some (thrown e) => (s, w1, rejected e)
      | Some (returned e) => (s, w1, resolved (Some e))
      | None =>
          let '(s', w2) := loadUserProfile (uid user) s w1 in
          (s', w2, resolved None)
      end
  end.

Section createCreatorProfile.
(** The counters of a new profile row are the column defaults. *)
Variable profile_defaults : database → creator_profiles_row.

Definition new_profile (user_id : uuid) (d : database) : creator_profiles_row :=
  {| cp_user_id := user_id;
     cp_followers_count := cp_followers_count (profile_defaults d);
     cp_likes_count := cp_likes_count (profile_defaults d);
     cp_posts_count := cp_posts_count (profile_defaults d);
     cp_series_count := cp_series_count (profile_defaults d) |}.

Definition insert_profile (user_id : uuid) (d : database) : database :=
  with_creator_profiles (creator_profiles d ++ [new_profile user_id d]) d.

Definition createCreatorProfile (bio category : string) (s : state) (w : world)
    : state * world * outcome :=
  match Auth.st_user s with
  | None => (s, w, resolved (Some "Not authenticated"))
  | Some user =>
      (* First update user role to creator *)
      let '(s1, w1, roleOutcome) := updateUserRole true s w in
      match roleOutcome with
      | rejected e => (s1, w1, rejected e)
      | resolved (Some roleError) => (s1, w1, resolved (Some roleError))
      | resolved None =>
          (* Then create creator profile *)
          let '(w2, error) :=
            execute (creator_profiles_insert (uid user) bio category)
              (insert_profile (uid user)) w1 in
          match error with
          | Some (thrown e) => (s1, w2, rejected e)
          | Some (returned e) => (s1, w2, resolved (Some e))
          | None =>
              let '(s2, w3) := loadUserProfile (uid user) s1 w2 in
              (s2, w3, resolved None)
          end
      end
  end.
End createCreatorProfile.

(** [isAuthenticated] of the context value. *)
Definition isAuthenticated (s : state) : bool := bool_decide (is_Some (Auth.st_user s)).

(** A reader (user 7) who is signed in and has a [users] row but no
    creator profile. *)
Definition reader : users_row :=
  {| u_id := 7%N; u_display_name := "reader"; u_avatar_url := None;
     u_role := role_user; u_is_verified := false |}.

Definition with_reader : database :=
  with_users (users Triggers.two_followers ++ [reader]) Triggers.two_followers.

Definition signed_in_reader : state :=
  {| Auth.st_user := Some {| uid := 7%N; email := "reader@example.org" |};
     Auth.st_userProfile := Some reader;
     Auth.st_creatorProfile := None;
     Auth.st_session :=
       Some {| user := {| uid := 7%N; email := "reader@example.org" |};
               access_token := "token" |};
     Auth.st_loading := false;
     Auth.initialLoadCompleteRef := true |}.

Definition zero_counters (d : database) : creator_profiles_row :=
  {| cp_user_id := 0%N; cp_followers_count := Some 0; cp_likes_count := Some 0;
     cp_posts_count := Some 0; cp_series_count := Some 0 |}.

End AuthActions.

(** ** Home: the posts of the signed-in creator *)
Module Home.

(** [posts?.filter((post) => post.user_id === userProfile?.id) || []];
    without a profile the comparison is against [undefined] and never
    holds. *)
Definition userPosts (posts : option (list posts_row))
    (userProfile : option users_row) : list posts_row :=
  match posts with
  | Some posts =>
      List.filter
        (λ post, match userProfile with
                 | Some profile => N.eqb (p_user_id post) (u_id profile)
                 | None => false
                 end) posts
  | None => []
  end.

(** The page shows the welcome text instead of posts. *)
Definition shows_welcome (posts : option (list posts_row))
    (userProfile : option users_row) : bool :=
  bool_decide (userPosts posts userProfile = []).

(** The published posts that are newer than [p]. *)
Definition newer_published (p : posts_row) (d : database) : list posts_row :=
  List.filter (λ q, p_is_published q && (p_created_at p <? p_created_at q))
    (posts d).

(** Creator 1 published one post; since then creator 2 has published
    twenty. *)
Definition crowded : database :=
  with_posts
    (Feed.sample_post 11%N 1%N 7%N 1 true
     :: ((λ i, Feed.sample_post (N.of_nat (100 + i)) 2%N 8%N
                 (Z.of_nat (100 + i)) true) <$> seq 0 20))
    Feed.sample.

End Home.
(** * Properties *)

(** ** Counting and updating rows *)
Section sql_lemmas.
Context {A : Type}.
Implicit Types (cond : A → bool) (t : list A).

Lemma COUNT_nonneg cond t : 0 ≤ COUNT cond t.
Proof. induction t as [|r t IH]; simpl; [lia|]. destruct (cond r); lia. Qed.

Lemma COUNT_app cond t1 t2 : COUNT cond (t1 ++ t2) = COUNT cond t1 + COUNT cond t2.
Proof. induction t1 as [|r t1 IH]; simpl; [lia|]. rewrite IH. lia. Qed.

Lemma COUNT_snoc cond t r :
  COUNT cond (t ++ [r]) = COUNT cond t + (if cond r then 1 else 0).
Proof. rewrite COUNT_app. simpl. lia. Qed.

Lemma COUNT_delete cond t i r :
  t !! i = Some r →
  COUNT cond (delete i t) = COUNT cond t - (if cond r then 1 else 0).
Proof.
  revert i. induction t as [|x t IH]; intros [|i] Hi; simpl in *; try discriminate.
  - injection Hi as ->. lia.
  - rewrite (IH _ Hi). lia.
Qed.

Lemma COUNT_lookup_pos cond t i r :
  t !! i = Some r → cond r = true → 1 ≤ COUNT cond t.
Proof.
  revert i. induction t as [|x t IH]; intros [|i] Hi Hr; simpl in *; try discriminate.
  - injection Hi as ->. rewrite Hr. pose proof (COUNT_nonneg cond t). lia.
  - specialize (IH _ Hi Hr). destruct (cond x); lia.
Qed.

Lemma COUNT_ext cond cond' t :
  (∀ r, cond r = cond' r) → COUNT cond t = COUNT cond' t.
Proof. intros E. induction t as [|r t IH]; simpl; [done|]. by rewrite E, IH. Qed.

Lemma Forall2_UPDATE_WHERE (P : A → A → Prop) t set cond :
  (∀ r, cond r = true → P r (set r)) →
  (∀ r, cond r = false → P r r) →
  Forall2 P t (UPDATE_WHERE t set cond).
Proof.
  intros Hs Hk. unfold UPDATE_WHERE.
  induction t as [|r t IH]; csimpl; constructor; [|done].
  destruct (cond r) eqn:E; auto.
Qed.

Lemma existsb_UPDATE_WHERE (f : A → bool) t set cond :
  (∀ r, f (set r) = f r) →
  existsb f (UPDATE_WHERE t set cond) = existsb f t.
Proof.
  intros Hf. unfold UPDATE_WHERE.
  induction t as [|r t IH]; csimpl; [done|].
  rewrite IH. destruct (cond r); by rewrite ?Hf.
Qed.
End sql_lemmas.

(** ** Counter triggers *)
Section counter_column.
Context {A C : Type}.
Variable counter : A → option Z.
Variable set : option Z → A → A.
Variable m : A → C → bool.
Hypothesis counter_set : ∀ c a, counter (set c a) = c.
Hypothesis set_counter : ∀ a, set (counter a) a = a.
Hypothesis m_set : ∀ c a x, m (set c a) x = m a x.

Import Triggers.

Lemma synced_insert (t : list A) (cs : list C) (NEW : C) :
  Forall2 (λ r r',
    r' = set (counter r') r ∧
    (counter r = Some (COUNT (m r) cs) →
     counter r' = Some (COUNT (m r') (cs ++ [NEW]))))
    t (UPDATE_WHERE t (λ a, set (incr (counter a)) a) (λ a, m a NEW)).
Proof.
  apply Forall2_UPDATE_WHERE; intros r Hr.
  - rewrite counter_set. split; [done|]. intros ->.
    rewrite (COUNT_ext (m (set _ r)) (m r)) by (intros; apply m_set).
    rewrite COUNT_snoc, Hr. done.
  - rewrite set_counter. split; [done|]. intros ->.
    rewrite COUNT_snoc, Hr. f_equal. lia.
Qed.

Lemma synced_delete (t : list A) (cs : list C) (i : nat) (OLD : C) :
  cs !! i = Some OLD →
  Forall2 (λ r r',
    r' = set (counter r') r ∧
    (counter r = Some (COUNT (m r) cs) →
     counter r' = Some (COUNT (m r') (delete i cs))))
    t (UPDATE_WHERE t (λ a, set (decr (counter a)) a) (λ a, m a OLD)).
Proof.
  intros Hi. apply Forall2_UPDATE_WHERE; intros r Hr.
  - rewrite counter_set. split; [done|]. intros ->.
    rewrite (COUNT_ext (m (set _ r)) (m r)) by (intros; apply m_set).
    rewrite (COUNT_delete _ _ _ _ Hi), Hr.
    pose proof (COUNT_lookup_pos (m r) cs i OLD Hi Hr).
    unfold decr; simpl. f_equal. lia.
  - rewrite set_counter. split; [done|]. intros ->.
    rewrite (COUNT_delete _ _ _ _ Hi), Hr. f_equal. lia.
Qed.

Lemma steps_incr (t : list A) (target : A → bool) :
  steps_by counter set target (λ n, n + 1)
    t (UPDATE_WHERE t (λ a, set (incr (counter a)) a) target).
Proof.
  apply Forall2_UPDATE_WHERE; intros r Hr; rewrite Hr; [|done].
  rewrite counter_set. split; [|split; [done|]].
  - destruct (counter r); simpl; [lia|done].
  - by intros n _ ->.
Qed.

Lemma steps_decr (t : list A) (target : A → bool) :
  steps_by counter set target (λ n, Z.max (n - 1) 0)
    t (UPDATE_WHERE t (λ a, set (decr (counter a)) a) target).
Proof.
  apply Forall2_UPDATE_WHERE; intros r Hr; rewrite Hr; [|done].
  rewrite counter_set. split; [|split; [done|]].
  - destruct (counter r); simpl; lia.
  - by intros n _ ->.
Qed.
End counter_column.

Module TriggerProps.
Import Triggers.

Lemma steps_by_ext {A} (counter : A → option Z) set (tg tg' : A → bool) f t t' :
  (∀ r, tg r = tg' r) → steps_by counter set tg f t t' → steps_by counter set tg' f t t'.
Proof.
  intros E H. unfold steps_by in *. eapply Forall2_impl; [exact H|].
  intros r r'; simpl. by rewrite E.
Qed.

(** Setting a counter column reads back, and writing back what is there
    changes nothing. *)
Ltac column := first [ by intros | by intros [] ].

(** With a unique key column, an [UPDATE ... WHERE key = v] targets at most
    one row. *)
Lemma absent_key_no_target {A} (key : A → uuid) (v : uuid) (t : list A) :
  v ∉ key <$> t → COUNT (λ r, N.eqb (key r) v) t = 0.
Proof.
  induction t as [|r t IH]; csimpl; [done|].
  rewrite not_elem_of_cons. intros [Hne Hnin].
  rewrite (proj2 (N.eqb_neq (key r) v)) by done. rewrite IH by done. lia.
Qed.

Lemma unique_key_one_target {A} (key : A → uuid) (v : uuid) (t : list A) :
  NoDup (key <$> t) → COUNT (λ r, N.eqb (key r) v) t ≤ 1.
Proof.
  induction t as [|r t IH]; csimpl; [lia|].
  rewrite NoDup_cons. intros [Hnin Hnd].
  destruct (N.eqb_spec (key r) v) as [<-|Hne].
  - rewrite absent_key_no_target by done. lia.
  - specialize (IH Hnd). lia.
Qed.

Lemma nonneg_incr c : nonneg c → nonneg (incr c).
Proof. destruct c; simpl; [lia|done]. Qed.

Lemma nonneg_decr c : nonneg (decr c).
Proof. destruct c; simpl; lia. Qed.

Lemma Forall_UPDATE_WHERE {A} (P : A → Prop) t set cond :
  (∀ r, P r → P (set r)) → Forall P t → Forall P (UPDATE_WHERE t set cond).
Proof.
  intros Hset Ht. unfold UPDATE_WHERE. apply Forall_fmap.
  eapply Forall_impl; [exact Ht|]. intros r Hr; simpl.
  destruct (cond r); auto.
Qed.

Lemma triggers_keep_counters_nonneg TG_OP db :
  counters_nonneg db →
  (∀ row, counters_nonneg (update_post_comments_count TG_OP row db))
  ∧ (∀ row, counters_nonneg (update_followers_count TG_OP row db))
  ∧ (∀ row, counters_nonneg (update_series_posts_count TG_OP row db))
  ∧ (∀ row, counters_nonneg (update_creator_series_count TG_OP row db)).
Proof.
  intros (Hp & Hs & Hc).
  repeat split; destruct TG_OP; simpl; try done;
    apply Forall_UPDATE_WHERE; try done; simpl;
    intros r Hr; simpl; intuition auto using nonneg_incr, nonneg_decr.
Qed.

(** The triggers on [post_comments], [follows], [posts] and [series] add one
    on INSERT and subtract one, clamped at zero, on DELETE: a targeted row
    whose counter is [n >= 0] ends with [n + 1], respectively
    [max (n - 1) 0]; rows outside the [WHERE] clause are left alone; and a
    counter that was not negative is not negative afterwards. *)
Lemma sibling_triggers_increment_and_clamp :
  (∀ TG_OP db,
     counters_nonneg db →
     (∀ row, counters_nonneg (update_post_comments_count TG_OP row db))
     ∧ (∀ row, counters_nonneg (update_followers_count TG_OP row db))
     ∧ (∀ row, counters_nonneg (update_series_posts_count TG_OP row db))
     ∧ (∀ row, counters_nonneg (update_creator_series_count TG_OP row db)))
  ∧ increments_and_clamps update_post_comments_count
    p_comments_count set_p_comments_count posts
    (λ row _ p, N.eqb (p_id p) (pc_post_id row))
  ∧ increments_and_clamps update_followers_count
    cp_followers_count set_cp_followers_count creator_profiles
    (λ row _ cp, N.eqb (cp_user_id cp) (f_following_id row))
  ∧ increments_and_clamps update_series_posts_count
    s_posts_count set_s_posts_count series
    (λ row _ s, eq_null (p_series_id row) (s_id s))
  ∧ increments_and_clamps update_series_posts_count
    cp_posts_count set_cp_posts_count creator_profiles
    (λ row _ cp, N.eqb (cp_user_id cp) (p_user_id row))
  ∧ increments_and_clamps update_creator_series_count
    cp_series_count set_cp_series_count creator_profiles
    (λ row _ cp, N.eqb (cp_user_id cp) (s_user_id row)).
Proof.
  split; [exact triggers_keep_counters_nonneg|].
  repeat split; simpl;
    try (apply steps_incr; column); try (apply steps_decr; column).
Qed.

(** *** The trigger on [post_likes] *)

(** Both tables in scope of the second [UPDATE] have a [likes_count]. *)
Lemma likes_count_is_ambiguous :
  column_ref "likes_count" [creator_profiles_columns; posts_columns]
  = Some "42702".
Proof. reflexivity. Qed.

Lemma update_post_likes_count_raises row db :
  update_post_likes_count INSERT row db = Raised "42702"
  ∧ update_post_likes_count DELETE row db = Raised "42702".
Proof. unfold update_post_likes_count. by rewrite likes_count_is_ambiguous. Qed.

Lemma insert_post_likes_raises NEW db :
  insert_post_likes NEW db = Raised "42702".
Proof. apply update_post_likes_count_raises. Qed.

Lemma delete_post_likes_raises i db :
  delete_post_likes i db
  = match post_likes db !! i with
    | Some _ => Raised "42702"
    | None => Returned db
    end.
Proof.
  unfold delete_post_likes. destruct (post_likes db !! i); [|done].
  apply update_post_likes_count_raises.
Qed.

Lemma with_post_likes_same db : with_post_likes (post_likes db) db = db.
Proof. by destruct db. Qed.

Lemma filter_none {A} (f : A → bool) (l : list A) :
  Forall (λ r, f r = false) l →
  List.filter f l = [] ∧ List.filter (λ r, negb (f r)) l = l.
Proof.
  induction 1 as [|r l Hr _ [IH1 IH2]]; simpl; [done|].
  rewrite Hr; simpl. by rewrite IH1, IH2.
Qed.

Lemma raised_stays_raised (olds : list post_likes_row) sqlstate :
  foldl (λ f OLD,
           match f with
           | Returned d => update_post_likes_count DELETE OLD d
           | Raised e => Raised e
           end) (Raised sqlstate) olds
  = Raised sqlstate.
Proof. by induction olds. Qed.

(** [DELETE FROM post_likes WHERE cond] raises as soon as one row matches,
    and has nothing to do otherwise. *)
Lemma delete_post_likes_where_raises cond db :
  delete_post_likes_where cond db
  = if existsb cond (post_likes db) then Raised "42702" else Returned db.
Proof.
  unfold delete_post_likes_where.
  destruct (existsb cond (post_likes db)) eqn:E.
  - apply existsb_exists in E as (r & Hin & Hr).
    destruct (List.filter cond (post_likes db)) as [|OLD olds] eqn:Ef.
    + assert (In r (List.filter cond (post_likes db))) as Hf
        by (by apply filter_In).
      rewrite Ef in Hf. destruct Hf.
    + cbn [foldl].
      rewrite (proj2 (update_post_likes_count_raises OLD _)).
      apply raised_stays_raised.
  - assert (Forall (λ r, cond r = false) (post_likes db)) as Hnone.
    { apply Forall_forall. intros r Hin%list_elem_of_In.
      destruct (cond r) eqn:Hr; [|done].
      assert (existsb cond (post_likes db) = true) as E'
        by (apply existsb_exists; eauto).
      by rewrite E in E'. }
    destruct (filter_none _ _ Hnone) as [-> ->]. cbn [foldl].
    by rewrite with_post_likes_same.
Qed.

(** No statement on [post_likes] leaves the database other than it was. *)
Lemma post_likes_statements_change_nothing db :
  (∀ NEW, committed (insert_post_likes NEW) db = db)
  ∧ (∀ i, committed (delete_post_likes i) db = db)
  ∧ (∀ cond, committed (delete_post_likes_where cond) db = db).
Proof.
  unfold committed. split; [|split].
  - intros NEW. by rewrite insert_post_likes_raises.
  - intros i. rewrite delete_post_likes_raises.
    by destruct (post_likes db !! i).
  - intros cond. rewrite delete_post_likes_where_raises.
    by destruct (existsb cond (post_likes db)).
Qed.

(** C4: the claim holds for the sibling triggers but not for
    [update_post_likes_count].  Its second [UPDATE] names [likes_count]
    without a qualifier while [creator_profiles] and [posts] are both in
    scope, so every firing on INSERT or DELETE raises ambiguous_column
    (42702) and the statement is rolled back.  On a post with one like and
    both counters at 1, a second like leaves the counters at 1, not 2, and
    deleting the stored like leaves them at 1, not 0. *)
Theorem likes_trigger_neither_increments_nor_decrements :
  (∀ row db,
     update_post_likes_count INSERT row db = Raised "42702"
     ∧ update_post_likes_count DELETE row db = Raised "42702")
  ∧ (let NEW := {| pl_post_id := 10%N; pl_user_id := 5%N |} in
     let after_insert := committed (insert_post_likes NEW) one_liked_post in
     let after_delete := committed (delete_post_likes 0) one_liked_post in
     insert_post_likes NEW one_liked_post = Raised "42702"
     ∧ p_likes_count <$> posts after_insert = [Some 1]
     ∧ cp_likes_count <$> creator_profiles after_insert = [Some 1]
     ∧ post_likes after_insert = post_likes one_liked_post
     ∧ delete_post_likes 0 one_liked_post = Raised "42702"
     ∧ p_likes_count <$> posts after_delete = [Some 1]
     ∧ cp_likes_count <$> creator_profiles after_delete = [Some 1]
     ∧ post_likes after_delete = post_likes one_liked_post).
Proof.
  split; [exact update_post_likes_count_raises|].
  cbn zeta. repeat split; reflexivity.
Qed.

(** A delete that finds no row leaves every counter table as it was. *)
Lemma stays_synced_refl {A} (counter : A → option Z) set rows_of tbl db :
  (∀ a, set (counter a) a = a) →
  stays_synced counter set rows_of tbl db db.
Proof.
  intros Hset. apply Forall2_same_length_lookup_2; [done|].
  intros j r r' Hr Hr'. rewrite Hr in Hr'. injection Hr' as <-. by rewrite Hset.
Qed.

Ltac synced_ins :=
  intros db; unfold stays_synced;
  unfold likes_of_post, comments_of_post, followers_of_creator,
    posts_of_series, posts_of_creator, series_of_creator; simpl;
  apply synced_insert; column.

Ltac synced_del tbl :=
  let db := fresh "db" in let Hi := fresh "Hi" in
  intros db; unfold stays_synced;
  match goal with
  | |- context [ tbl (?del ?i db) ] =>
      unfold del; destruct (_ !! i) eqn:Hi;
      [ unfold likes_of_post, comments_of_post, followers_of_creator,
          posts_of_series, posts_of_creator, series_of_creator; simpl;
        refine (synced_delete _ _ _ _ _ _ _ _ _ _ Hi); column
      | apply stays_synced_refl; column ]
  end.

(** A statement that leaves the database as it was keeps every counter in
    step. *)
Lemma keeps_synced_unchanged {A} (counter : A → option Z) set rows_of tbl stmt :
  (∀ a, set (counter a) a = a) →
  (∀ db, stmt db = db) →
  keeps_synced counter set rows_of tbl stmt.
Proof. intros Hset Hsame db. rewrite Hsame. by apply stays_synced_refl. Qed.

(** C1: for each of the seven trigger-maintained counters, a row-level insert
    into or delete from its underlying table, together with the trigger it
    fires, keeps a counter that equalled its number of matching rows equal to
    that number.  For the two likes counters the database after the statement
    is the one the statement leaves behind when its trigger has raised. *)
Theorem counters_stay_in_sync :
  (∀ NEW, keeps_synced p_likes_count set_p_likes_count likes_of_post
            posts (committed (insert_post_likes NEW)))
  ∧ (∀ i, keeps_synced p_likes_count set_p_likes_count likes_of_post
            posts (committed (delete_post_likes i)))
  ∧ (∀ NEW, keeps_synced cp_likes_count set_cp_likes_count likes_of_creator
            creator_profiles (committed (insert_post_likes NEW)))
  ∧ (∀ i, keeps_synced cp_likes_count set_cp_likes_count likes_of_creator
            creator_profiles (committed (delete_post_likes i)))
  ∧ (∀ NEW, keeps_synced p_comments_count set_p_comments_count comments_of_post
            posts (insert_post_comments NEW))
  ∧ (∀ i, keeps_synced p_comments_count set_p_comments_count comments_of_post
            posts (delete_post_comments i))
  ∧ (∀ NEW, keeps_synced cp_followers_count set_cp_followers_count
            followers_of_creator creator_profiles (insert_follows NEW))
  ∧ (∀ i, keeps_synced cp_followers_count set_cp_followers_count
            followers_of_creator creator_profiles (delete_follows i))
  ∧ (∀ NEW, keeps_synced s_posts_count set_s_posts_count posts_of_series
            series (insert_posts NEW))
  ∧ (∀ i, keeps_synced s_posts_count set_s_posts_count posts_of_series
            series (delete_posts i))
  ∧ (∀ NEW, keeps_synced cp_posts_count set_cp_posts_count posts_of_creator
            creator_profiles (insert_posts NEW))
  ∧ (∀ i, keeps_synced cp_posts_count set_cp_posts_count posts_of_creator
            creator_profiles (delete_posts i))
  ∧ (∀ NEW, keeps_synced cp_series_count set_cp_series_count series_of_creator
            creator_profiles (insert_series NEW))
  ∧ (∀ i, keeps_synced cp_series_count set_cp_series_count series_of_creator
            creator_profiles (delete_series i)).
Proof.
  split; [intros NEW; apply keeps_synced_unchanged; [column|];
          intros db; apply post_likes_statements_change_nothing|].
  split; [intros i; apply keeps_synced_unchanged; [column|];
          intros db; apply post_likes_statements_change_nothing|].
  split; [intros NEW; apply keeps_synced_unchanged; [column|];
          intros db; apply post_likes_statements_change_nothing|].
  split; [intros i; apply keeps_synced_unchanged; [column|];
          intros db; apply post_likes_statements_change_nothing|].
  split; [intros NEW; synced_ins|].
  split; [intros i; synced_del posts|].
  split; [intros NEW; synced_ins|].
  split; [intros i; synced_del creator_profiles|].
  split; [intros NEW; synced_ins|].
  split; [intros i; synced_del series|].
  split; [intros NEW; synced_ins|].
  split; [intros i; synced_del creator_profiles|].
  split; [intros NEW; synced_ins|].
  intros i; synced_del creator_profiles.
Qed.

(** *** An insert followed by the delete of the same row *)

Lemma UPDATE_WHERE_ext {A} (t : list A) set (cond cond' : A → bool) :
  (∀ r, cond r = cond' r) → UPDATE_WHERE t set cond = UPDATE_WHERE t set cond'.
Proof.
  intros E. unfold UPDATE_WHERE. apply list_fmap_ext. intros i r _. by rewrite E.
Qed.

Section round_trip.
Context {A : Type}.
Variable counter : A → option Z.
Variable set : option Z → A → A.
Hypothesis counter_set : ∀ c a, counter (set c a) = c.
Hypothesis set_counter : ∀ a, set (counter a) a = a.
Hypothesis set_set : ∀ c c' a, set c (set c' a) = set c a.

Lemma decr_incr (c : option Z) : defined c → decr (incr c) = c.
Proof. intros (n & -> & Hn). unfold decr, incr; simpl. f_equal. lia. Qed.

Lemma UPDATE_WHERE_round_trip (t : list A) (tgt tgt' : A → bool) :
  (∀ c r, tgt' (set c r) = tgt r) →
  (∀ r, tgt' r = tgt r) →
  Forall (λ r, defined (counter r)) t →
  UPDATE_WHERE (UPDATE_WHERE t (λ a, set (incr (counter a)) a) tgt)
    (λ a, set (decr (counter a)) a) tgt' = t.
Proof.
  intros Hset Hsame. unfold UPDATE_WHERE.
  induction 1 as [|r t Hr _ IH]; csimpl; [done|]. rewrite IH. f_equal.
  destruct (tgt r) eqn:E.
  - rewrite Hset, E, counter_set, set_set, decr_incr by done. apply set_counter.
  - by rewrite Hsame, E.
Qed.
End round_trip.

Lemma delete_appended {A} (l : list A) (x : A) :
  (l ++ [x]) !! length l = Some x ∧ delete (length l) (l ++ [x]) = l.
Proof.
  split; [apply list_lookup_middle; done|].
  rewrite delete_middle. apply app_nil_r.
Qed.

(** Reduce the table projections of an updated database. *)
Ltac db_fields :=
  cbv beta iota zeta delta
    [update_post_comments_count update_followers_count
     update_series_posts_count update_creator_series_count
     with_creator_profiles with_posts with_series with_follows with_post_likes
     with_post_comments with_supporter_transactions
     users creator_profiles posts series follows post_likes post_comments
     supporter_transactions subscriptions].

Ltac undo_update :=
  apply UPDATE_WHERE_round_trip;
    [by intros|by intros []|by intros c c' []|by intros c []|done|].

(** X5: in a database whose counters all hold non-negative numbers, inserting
    a row and then deleting that same row leaves the database exactly as it
    was, for each of the four tables whose trigger runs to its end
    ([post_comments], [follows], [posts], [series]): the trigger's decrement
    undoes its increment.  On [post_likes] there is nothing to undo: the
    insert raises 42702 and leaves the database as it was. *)
Theorem insert_then_delete_restores db :
  counters_defined db →
  (∀ NEW, insert_post_likes NEW db = Raised "42702"
          ∧ committed (insert_post_likes NEW) db = db)
  ∧ (∀ NEW, delete_post_comments (length (post_comments db))
              (insert_post_comments NEW db) = db)
  ∧ (∀ NEW, delete_follows (length (follows db)) (insert_follows NEW db) = db)
  ∧ (∀ NEW, delete_posts (length (posts db)) (insert_posts NEW db) = db)
  ∧ (∀ NEW, delete_series (length (series db)) (insert_series NEW db) = db).
Proof.
  intros (Hp & Hs & Hc). destruct db as [us cps ps ss fs pls pcs sts subs].
  simpl in Hp, Hs, Hc.
  split.
  { intros NEW. split; [apply insert_post_likes_raises|].
    apply post_likes_statements_change_nothing. }
  repeat split; intros NEW.
  - unfold delete_post_comments, insert_post_comments. db_fields.
    destruct (delete_appended pcs NEW) as [-> ->]. db_fields. f_equal.
    undo_update. eapply Forall_impl; [exact Hp|]. by intros p [_ ?].
  - unfold delete_follows, insert_follows. db_fields.
    destruct (delete_appended fs NEW) as [-> ->]. db_fields. f_equal.
    undo_update. eapply Forall_impl; [exact Hc|]. by intros cp (? & _).
  - unfold delete_posts, insert_posts. db_fields.
    destruct (delete_appended ps NEW) as [-> ->]. db_fields. f_equal.
    + undo_update. eapply Forall_impl; [exact Hc|]. by intros cp (_ & _ & ? & _).
    + undo_update. eapply Forall_impl; [exact Hs|]. done.
  - unfold delete_series, insert_series. db_fields.
    destruct (delete_appended ss NEW) as [-> ->]. db_fields. f_equal.
    undo_update. eapply Forall_impl; [exact Hc|]. by intros cp (_ & _ & _ & ?).
Qed.

Lemma insert_then_delete_restores_witness :
  counters_defined one_liked_post
  ∧ (∀ NEW, insert_post_likes NEW one_liked_post = Raised "42702"
            ∧ committed (insert_post_likes NEW) one_liked_post = one_liked_post)
  ∧ (∀ NEW, delete_post_comments (length (post_comments one_liked_post))
              (insert_post_comments NEW one_liked_post) = one_liked_post)
  ∧ (∀ NEW, delete_follows (length (follows one_liked_post))
              (insert_follows NEW one_liked_post) = one_liked_post)
  ∧ (∀ NEW, delete_posts (length (posts one_liked_post))
              (insert_posts NEW one_liked_post) = one_liked_post)
  ∧ (∀ NEW, delete_series (length (series one_liked_post))
              (insert_series NEW one_liked_post) = one_liked_post).
Proof.
  assert (H : counters_defined one_liked_post).
  { repeat split; repeat constructor; eexists; (split; [reflexivity|lia]). }
  split; [exact H|]. exact (insert_then_delete_restores one_liked_post H).
Defined.

(** Without the premise the round trip is lost: a NULL counter stays NULL on
    the insert and becomes 0 on the delete. *)
Example insert_then_delete_null_counter :
  let db := with_creator_profiles
              [ {| cp_user_id := 1%N; cp_followers_count := None;
                   cp_likes_count := Some 0; cp_posts_count := Some 0;
                   cp_series_count := Some 0 |} ] Db.empty in
  let NEW := {| f_follower_id := 3%N; f_following_id := 1%N |} in
  cp_followers_count <$> creator_profiles (insert_follows NEW db) = [None]
  ∧ cp_followers_count
      <$> creator_profiles (delete_follows 0 (insert_follows NEW db)) = [Some 0].
Proof. vm_compute. done. Qed.

(** *** Statement-level deletes *)

Lemma COUNT_filter_split {A} (c p : A → bool) (t : list A) :
  COUNT c t
  = COUNT c (List.filter p t) + COUNT c (List.filter (λ r, negb (p r)) t).
Proof. induction t as [|r t IH]; simpl; [done|]. destruct (p r); simpl; lia. Qed.

Lemma Forall2_compose {A} (P Q R : A → A → Prop) (l k n : list A) :
  (∀ x y z, P x y → Q y z → R x z) →
  Forall2 P l k → Forall2 Q k n → Forall2 R l n.
Proof.
  intros H HP. revert n.
  induction HP; intros n HQ; inversion HQ; subst; constructor; eauto.
Qed.

Section delete_where.
Context {A C : Type}.
Variable counter : A → option Z.
Variable set : option Z → A → A.
Variable m : A → C → bool.
Hypothesis counter_set : ∀ c a, counter (set c a) = c.
Hypothesis set_counter : ∀ a, set (counter a) a = a.
Hypothesis set_set : ∀ c c' a, set c (set c' a) = set c a.
Hypothesis m_set : ∀ c a x, m (set c a) x = m a x.

(** The row trigger fired once for each deleted row takes from a counter
    the number of deleted rows that match it, as long as the counter holds
    at least that number. *)
Lemma fired_for_each (olds : list C) (t : list A) :
  Forall2 (λ r r',
    r' = set (counter r') r ∧
    ∀ n, counter r = Some n → COUNT (m r) olds ≤ n →
         counter r' = Some (n - COUNT (m r) olds))
    t (foldl (λ t OLD, UPDATE_WHERE t (λ a, set (decr (counter a)) a)
                         (λ a, m a OLD)) t olds).
Proof.
  revert t. induction olds as [|OLD olds IH]; intros t; simpl.
  - apply Forall2_same_length_lookup_2; [done|].
    intros j r r' Hr Hr'. rewrite Hr in Hr'. injection Hr' as <-.
    rewrite set_counter. split; [done|]. intros n -> _. f_equal. lia.
  - eapply (Forall2_compose
      (λ r r1, (m r OLD = true ∧ r1 = set (decr (counter r)) r)
               ∨ (m r OLD = false ∧ r1 = r)));
      [|apply Forall2_UPDATE_WHERE; intros r Hr;
         [left|right]; (split; [exact Hr|reflexivity])
       |apply IH].
    simpl. intros r r1 r' [[Hr ->]|[Hr ->]] [E Hn].
    + split; [by rewrite set_set in E|]. intros n Hc Hle.
      rewrite Hr in Hle. pose proof (COUNT_nonneg (m r) olds).
      rewrite (COUNT_ext (m (set _ r)) (m r)) in Hn by (intros; apply m_set).
      rewrite (Hn (n - 1)).
      * f_equal. rewrite Hr. lia.
      * rewrite counter_set, Hc. unfold decr; simpl. f_equal. lia.
      * lia.
    + split; [done|]. intros n Hc Hle. rewrite Hr in Hle |- *.
      rewrite (Hn n) by (done || lia). f_equal.
Qed.

Lemma synced_delete_where (cond : C → bool) (cs : list C) (t : list A) :
  Forall2 (λ r r',
    r' = set (counter r') r ∧
    (counter r = Some (COUNT (m r) cs) →
     counter r' = Some (COUNT (m r') (List.filter (λ c, negb (cond c)) cs))))
    t (foldl (λ t OLD, UPDATE_WHERE t (λ a, set (decr (counter a)) a)
                         (λ a, m a OLD)) t (List.filter cond cs)).
Proof.
  eapply Forall2_impl; [apply fired_for_each|]. simpl.
  intros r r' [E Hn]. split; [done|]. intros Hc.
  pose proof (COUNT_filter_split (m r) cond cs).
  pose proof (COUNT_nonneg (m r) (List.filter (λ c, negb (cond c)) cs)).
  rewrite (Hn _ Hc) by lia. f_equal.
  rewrite E, (COUNT_ext (m (set _ r)) (m r)) by (intros; apply m_set). lia.
Qed.
End delete_where.

Lemma fold_followers_trigger (olds : list follows_row) (d : database) :
  creator_profiles (foldl (λ d OLD, update_followers_count DELETE OLD d) d olds)
  = foldl (λ t OLD,
       UPDATE_WHERE t
         (λ cp, set_cp_followers_count (decr (cp_followers_count cp)) cp)
         (λ cp, N.eqb (cp_user_id cp) (f_following_id OLD)))
      (creator_profiles d) olds
  ∧ follows (foldl (λ d OLD, update_followers_count DELETE OLD d) d olds)
    = follows d.
Proof.
  revert d. induction olds as [|OLD olds IH]; intros d; cbn [foldl]; [done|].
  destruct (IH (update_followers_count DELETE OLD d)) as [-> ->]. done.
Qed.

Lemma follows_delete_where_synced cond :
  keeps_synced cp_followers_count set_cp_followers_count
    followers_of_creator creator_profiles (delete_follows_where cond).
Proof.
  intros db. unfold stays_synced, delete_follows_where, followers_of_creator.
  destruct (fold_followers_trigger (List.filter cond (follows db))
    (with_follows (List.filter (λ r, negb (cond r)) (follows db)) db))
    as [-> ->].
  db_fields. apply synced_delete_where; column.
Qed.

(** X6: the [DELETE ... WHERE] statements the pages send to unfollow and to
    unlike.  On [follows], removing any number of rows, the row trigger
    firing once for each of them, keeps a followers counter that equalled
    its number of rows equal to that number.  On [post_likes] the statement
    raises 42702 as soon as one row matches and has nothing to do otherwise,
    so it never removes a row and never moves a counter. *)
Theorem delete_where_keeps_counters_in_sync :
  (∀ cond, keeps_synced cp_followers_count set_cp_followers_count
             followers_of_creator creator_profiles (delete_follows_where cond))
  ∧ (∀ cond db,
       delete_post_likes_where cond db
       = if existsb cond (post_likes db) then Raised "42702" else Returned db)
  ∧ (∀ cond db, committed (delete_post_likes_where cond) db = db).
Proof.
  split; [exact follows_delete_where_synced|].
  split; [exact delete_post_likes_where_raises|].
  intros cond db. apply post_likes_statements_change_nothing.
Qed.

(** The row-level inserts the pages send, with their trigger. *)
Lemma follows_insert_synced NEW :
  keeps_synced cp_followers_count set_cp_followers_count
    followers_of_creator creator_profiles (insert_follows NEW).
Proof. synced_ins. Qed.

(** The unfollow statement after the follow statement: when the table held
    no matching row before, the database is back where it was. *)
Lemma unfollow_undoes_follow (cond : follows_row → bool) NEW db :
  cond NEW = true →
  Forall (λ r, cond r = false) (follows db) →
  Forall (λ cp, defined (cp_followers_count cp)) (creator_profiles db) →
  delete_follows_where cond (insert_follows NEW db) = db.
Proof.
  intros HNEW Hnone Hdef. destruct (filter_none _ _ Hnone) as [E1 E2].
  destruct db as [us cps ps ss fs pls pcs sts subs].
  unfold delete_follows_where, insert_follows. db_fields.
  cbn [follows] in E1, E2.
  rewrite !List.filter_app, E1, E2. simpl List.filter. rewrite HNEW.
  simpl. rewrite app_nil_r. db_fields. f_equal. undo_update. exact Hdef.
Qed.

Example follow_then_unfollow :
  let d1 := insert_follows {| f_follower_id := 5%N; f_following_id := 1%N |}
              two_followers in
  let d2 := delete_follows 0 d1 in
  cp_followers_count <$> creator_profiles d1 = [Some 3]
  ∧ cp_followers_count <$> creator_profiles d2 = [Some 2]
  ∧ length (follows d2) = 2%nat.
Proof. vm_compute. done. Qed.

End TriggerProps.

(** ** get_creator_stats *)
Module StatsProps.
Import Stats.

(** *** What the chain of LEFT JOINs does to a sum *)

Lemma sumZ_app {A} (g : A → Z) l1 l2 : sumZ g (l1 ++ l2) = sumZ g l1 + sumZ g l2.
Proof.
  unfold sumZ. rewrite fmap_app, foldr_app.
  induction (g <$> l1) as [|x xs IH]; simpl; lia.
Qed.

Lemma sumZ_const {A} (g : A → Z) (v : Z) l :
  Forall (λ x, g x = v) l → sumZ g l = v * Z.of_nat (length l).
Proof.
  unfold sumZ. induction 1 as [|x l Hx _ IH]; csimpl; [lia|].
  rewrite IH, Hx. lia.
Qed.

Lemma length_opts {R} (ms : list R) :
  Z.of_nat (length (opts ms)) = Z.max 1 (Z.of_nat (length ms)).
Proof. destruct ms; simpl; [done|]. rewrite length_fmap. lia. Qed.

Lemma COUNT_length_filter {A} (cond : A → bool) t :
  COUNT cond t = Z.of_nat (length (List.filter cond t)).
Proof.
  induction t as [|r t IH]; simpl; [done|].
  destruct (cond r); simpl; lia.
Qed.

Lemma LEFT_JOIN_block {L R} (x : L) (l : list L) (r : list R) on :
  LEFT_JOIN (x :: l) r on
  = ((λ o, (x, o)) <$> opts (List.filter (on x) r)) ++ LEFT_JOIN l r on.
Proof.
  unfold LEFT_JOIN; simpl. f_equal. unfold opts.
  destruct (List.filter (on x) r); [done|]. by rewrite <-list_fmap_compose.
Qed.

Section left_join.
Context {L R K : Type}.
Variable k : L → K.
Variable h : K → R → bool.
Variable on : L → R → bool.
Hypothesis on_key : ∀ x y, on x y = h (k x) y.

Lemma filter_on_key x r : List.filter (on x) r = List.filter (h (k x)) r.
Proof. apply List.filter_ext. intros y. apply on_key. Qed.

(** A WHERE clause on the left row can be applied before the join. *)
Lemma filter_LEFT_JOIN (P : L → bool) (l : list L) (r : list R) :
  List.filter (λ z, P z.1) (LEFT_JOIN l r on)
  = LEFT_JOIN (List.filter P l) r on.
Proof.
  induction l as [|x l IH]; [done|].
  rewrite LEFT_JOIN_block, List.filter_app, IH. simpl.
  destruct (P x) eqn:E.
  - rewrite LEFT_JOIN_block. f_equal.
    induction (opts (List.filter (on x) r)) as [|o os IHo]; csimpl; [done|].
    by rewrite E, IHo.
  - rewrite <-(app_nil_l (LEFT_JOIN _ _ _)) at 2. f_equal.
    induction (opts (List.filter (on x) r)) as [|o os IHo]; csimpl; [done|].
    by rewrite E.
Qed.

Lemma LEFT_JOIN_keys (κ : K) (l : list L) (r : list R) :
  Forall (λ x, k x = κ) l → Forall (λ z, k z.1 = κ) (LEFT_JOIN l r on).
Proof.
  induction 1 as [|x l Hx _ IH]; [constructor|].
  rewrite LEFT_JOIN_block. apply Forall_app. split; [|done].
  apply Forall_fmap, Forall_forall. by intros o _.
Qed.

(** A sum over the left rows is multiplied by the number of partners. *)
Lemma sumZ_LEFT_JOIN_left (κ : K) (g : L → Z) (l : list L) (r : list R) :
  Forall (λ x, k x = κ) l →
  sumZ (λ z, g z.1) (LEFT_JOIN l r on)
  = sumZ g l * Z.of_nat (length (opts (List.filter (h κ) r))).
Proof.
  induction 1 as [|x l Hx _ IH]; [done|].
  rewrite LEFT_JOIN_block, sumZ_app, IH, filter_on_key, Hx.
  rewrite (sumZ_const _ (g x)), length_fmap
    by (apply Forall_fmap, Forall_forall; by intros o _).
  change (sumZ g (x :: l)) with (g x + sumZ g l). lia.
Qed.

(** A sum over the partners is repeated for every left row. *)
Lemma sumZ_LEFT_JOIN_right (κ : K) (g : option R → Z) (l : list L) (r : list R) :
  Forall (λ x, k x = κ) l →
  sumZ (λ z, g z.2) (LEFT_JOIN l r on)
  = Z.of_nat (length l) * sumZ g (opts (List.filter (h κ) r)).
Proof.
  induction 1 as [|x l Hx _ IH]; [done|].
  rewrite LEFT_JOIN_block, sumZ_app, IH, filter_on_key, Hx.
  replace (sumZ (λ z : L * option R, g z.2)
             ((λ o, (x, o)) <$> opts (List.filter (h κ) r)))
    with (sumZ g (opts (List.filter (h κ) r))).
  - simpl length. lia.
  - unfold sumZ. by rewrite <-list_fmap_compose.
Qed.
End left_join.

Lemma LEFT_JOIN_singleton {L R} (x : L) (r : list R) on :
  LEFT_JOIN [x] r on = (λ o, (x, o)) <$> opts (List.filter (on x) r).
Proof. rewrite LEFT_JOIN_block. apply app_nil_r. Qed.

Lemma LEFT_JOIN_nonempty {L R} (l : list L) (r : list R) on :
  l ≠ [] → LEFT_JOIN l r on ≠ [].
Proof.
  destruct l as [|x l]; [done|]. intros _. rewrite LEFT_JOIN_block.
  by destruct (List.filter (on x) r).
Qed.

Lemma filter_fmap_bool {A B} (f : A → B) (P : B → bool) l :
  List.filter P (f <$> l) = f <$> List.filter (λ x, P (f x)) l.
Proof.
  induction l as [|x l IH]; csimpl; [done|].
  destruct (P (f x)); csimpl; by rewrite IH.
Qed.

Lemma filter_all {A} (P : A → bool) l :
  Forall (λ x, P x = true) l → List.filter P l = l.
Proof. induction 1 as [|x l Hx _ IH]; simpl; [done|]. by rewrite Hx, IH. Qed.

Lemma remove_dups_const {A} `{EqDecision A} (v : A) l :
  l ≠ [] → Forall (λ x, x = v) l → remove_dups l = [v].
Proof.
  intros Hne Hl. induction Hl as [|x l -> Hl IH]; [done|]. simpl.
  case_decide as Hin.
  - apply IH. intros ->. by apply not_elem_of_nil in Hin.
  - destruct l as [|y l]; [done|]. exfalso. apply Hin.
    apply Forall_cons_1 in Hl as [-> _]. left.
Qed.

(** A SUM whose inputs are never NULL adds them all up, and COALESCE makes
    the sum over no row zero. *)
Lemma COALESCE_SUM_Some (xs : list Z) :
  COALESCE (SUM (Some <$> xs)) 0 = foldr Z.add 0 xs.
Proof.
  unfold SUM.
  replace (omap id (Some <$> xs)) with xs; [by destruct xs|].
  induction xs as [|x xs IH]; csimpl; [done|]. by rewrite <-IH.
Qed.

Lemma completed_amount_earned j : completed_amount j = Some (earned (j_st j)).
Proof.
  unfold completed_amount, earned.
  destruct (j_st j) as [st|]; [|done]. by destruct (is_completed _).
Qed.

Lemma sumZ_earned c u (sts : list supporter_transactions_row) :
  u = c →
  sumZ earned (opts (List.filter (λ st, N.eqb u (st_creator_id st)) sts))
  = foldr Z.add 0
      (st_amount <$>
         List.filter (λ st, N.eqb (st_creator_id st) c
                            && is_completed (st_status st)) sts).
Proof.
  intros ->.
  transitivity (sumZ earned
    (Some <$> List.filter (λ st, N.eqb c (st_creator_id st)) sts)).
  { by destruct (List.filter _ sts). }
  unfold sumZ. induction sts as [|st sts IH]; [done|]. simpl.
  rewrite (N.eqb_sym (st_creator_id st) c).
  destruct (N.eqb c (st_creator_id st)); csimpl; [|done].
  destruct (is_completed (st_status st)); csimpl; rewrite IH; lia.
Qed.

Lemma from_clause_users db : from_clause db = from_users (users db) db.
Proof. reflexivity. Qed.

(** [WHERE u.id = creator_uuid] selects the users before the joins. *)
Lemma where_from_users c us db :
  List.filter (λ j, N.eqb (u_id (j_u j)) c) (from_users us db)
  = from_users (List.filter (λ u, N.eqb (u_id u) c) us) db.
Proof.
  unfold from_users. rewrite filter_fmap_bool. f_equal.
  rewrite <-(filter_LEFT_JOIN _ (λ x, N.eqb (u_id x) c)).
  rewrite <-(filter_LEFT_JOIN _ (λ x, N.eqb (u_id x.1) c)).
  rewrite <-(filter_LEFT_JOIN _ (λ x, N.eqb (u_id x.1.1) c)).
  rewrite <-(filter_LEFT_JOIN _ (λ x, N.eqb (u_id x.1.1.1) c)).
  rewrite <-(filter_LEFT_JOIN _ (λ x, N.eqb (u_id x.1.1.1.1) c)).
  apply List.filter_ext. by intros [[[[[u cp] st] sub] p] s].
Qed.

(** The sum of the completed amounts over the joined rows of one creator. *)
Lemma total_earnings_with_fan_out db creator_uuid u0 :
  List.filter (λ u, N.eqb (u_id u) creator_uuid) (users db) = [u0] →
  (length (List.filter (λ cp, N.eqb creator_uuid (cp_user_id cp))
             (creator_profiles db)) ≤ 1)%nat →
  total_earnings <$> get_creator_stats db creator_uuid
  = [ completed_earnings db creator_uuid * fan_out db creator_uuid ].
Proof.
  intros Hu Hcp.
  assert (u_id u0 = creator_uuid) as Hid.
  { assert (u0 ∈ List.filter (λ u, N.eqb (u_id u) creator_uuid) (users db)) as Hin
      by (rewrite Hu; left).
    apply list_elem_of_In, filter_In in Hin as [_ Hin]. by apply N.eqb_eq. }
  unfold get_creator_stats.
  rewrite from_clause_users, where_from_users, Hu. unfold from_users.
  (* the user meets at most one profile row *)
  rewrite LEFT_JOIN_singleton.
  assert (∃ ocp, opts (List.filter (λ cp, N.eqb (u_id u0) (cp_user_id cp))
                         (creator_profiles db)) = [ocp]) as [ocp ->].
  { rewrite Hid.
    destruct (List.filter _ (creator_profiles db)) as [|cp [|cp' cps]];
      simpl in *; [by eexists..|lia]. }
  set (κ := (u0, ocp)).
  change ((λ o, (u0, o)) <$> [ocp]) with [κ].
  set (J2 := LEFT_JOIN [κ] (supporter_transactions db) _).
  set (J3 := LEFT_JOIN J2 (subscriptions db) _).
  set (J4 := LEFT_JOIN J3 (posts db) _).
  set (J5 := LEFT_JOIN J4 (series db) _).
  set (h2 := λ (x : users_row * option creator_profiles_row) st,
               N.eqb (u_id x.1) (st_creator_id st)).
  set (h3 := λ (x : users_row * option creator_profiles_row) sub,
               N.eqb (u_id x.1) (sub_creator_id sub)).
  set (h4 := λ (x : users_row * option creator_profiles_row) p,
               N.eqb (u_id x.1) (p_user_id p) && IS_NULL (p_deleted_at p)).
  set (h5 := λ (x : users_row * option creator_profiles_row) s,
               N.eqb (u_id x.1) (s_user_id s) && IS_NULL (s_deleted_at s)).
  assert (Forall (λ x, x = κ) [κ]) as K1 by (by constructor).
  assert (Forall (λ z, z.1 = κ) J2) as K2.
  { unfold J2. by apply (LEFT_JOIN_keys (λ x, x)). }
  assert (Forall (λ z, z.1.1 = κ) J3) as K3.
  { unfold J3. by apply (LEFT_JOIN_keys (λ x, x.1)). }
  assert (Forall (λ z, z.1.1.1 = κ) J4) as K4.
  { unfold J4. by apply (LEFT_JOIN_keys (λ x, x.1.1)). }
  assert (Forall (λ z, z.1.1.1.1 = κ) J5) as K5.
  { unfold J5. by apply (LEFT_JOIN_keys (λ x, x.1.1.1)). }
  assert (J5 ≠ []) as Hne.
  { unfold J5, J4, J3, J2. by repeat apply LEFT_JOIN_nonempty. }
  set (mk := λ '(u, cp, st, sub, p, s), _).
  (* one group *)
  set (key := (u_id u0, ocp ≫= cp_followers_count, ocp ≫= cp_likes_count)).
  assert (Forall (λ j, group_key j = key) (mk <$> J5)) as Hkey.
  { apply Forall_fmap. eapply Forall_impl; [exact K5|].
    by intros [[[[[u cp] st] sub] p] s] [= -> ->]. }
  rewrite (remove_dups_const key);
    [|by destruct J5|by apply Forall_fmap].
  csimpl. f_equal.
  rewrite filter_all
    by (eapply Forall_impl; [exact Hkey|]; intros j ->; by apply bool_decide_eq_true).
  (* the sum over the joined rows *)
  assert (completed_amount <$> (mk <$> J5)
          = Some <$> ((λ z, earned z.1.1.1.2) <$> J5)) as ->.
  { rewrite <-!list_fmap_compose. apply list_fmap_ext.
    intros i [[[[[u cp] st] sub] p] s] _. apply completed_amount_earned. }
  rewrite COALESCE_SUM_Some.
  fold (sumZ (λ z, earned z.1.1.1.2) J5).
  unfold J5.
  rewrite (sumZ_LEFT_JOIN_left (λ x, x.1.1.1) h5)
    with (κ := κ) (g := λ y, earned y.1.1.2);
    [|by intros [[[[? ?] ?] ?] ?] ?|exact K4].
  unfold J4.
  rewrite (sumZ_LEFT_JOIN_left (λ x, x.1.1) h4)
    with (κ := κ) (g := λ x, earned x.1.2);
    [|by intros [[[? ?] ?] ?] ?|exact K3].
  unfold J3.
  rewrite (sumZ_LEFT_JOIN_left (λ x, x.1) h3)
    with (κ := κ) (g := λ w, earned w.2);
    [|by intros [[? ?] ?] ?|exact K2].
  unfold J2.
  rewrite (sumZ_LEFT_JOIN_right (λ x, x) h2) with (κ := κ) (g := earned);
    [|by intros [? ?] ?|exact K1].
  rewrite !length_opts, <-!COUNT_length_filter.
  unfold h2, h3, h4, h5, κ, fan_out, partners, completed_earnings; simpl.
  rewrite (sumZ_earned creator_uuid) by done. rewrite Hid. lia.
Qed.

(** X1: what get_creator_stats computes for a creator with one [users] row
    and at most one profile row: every completed transaction is added once
    per combination of a subscription, a post and a series of the creator. *)
Theorem get_creator_stats_total_earnings db creator_uuid u0 :
  List.filter (λ u, N.eqb (u_id u) creator_uuid) (users db) = [u0] →
  (length (List.filter (λ cp, N.eqb creator_uuid (cp_user_id cp))
             (creator_profiles db)) ≤ 1)%nat →
  total_earnings <$> get_creator_stats db creator_uuid
  = [ completed_earnings db creator_uuid * fan_out db creator_uuid ].
Proof. exact (total_earnings_with_fan_out db creator_uuid u0). Qed.

(** Without subscriptions, posts and series each transaction is counted
    once. *)
Corollary get_creator_stats_without_fan_out db creator_uuid u0 :
  List.filter (λ u, N.eqb (u_id u) creator_uuid) (users db) = [u0] →
  (length (List.filter (λ cp, N.eqb creator_uuid (cp_user_id cp))
             (creator_profiles db)) ≤ 1)%nat →
  fan_out db creator_uuid = 1 →
  total_earnings <$> get_creator_stats db creator_uuid
  = [ completed_earnings db creator_uuid ].
Proof.
  intros Hu Hcp Hone.
  rewrite (total_earnings_with_fan_out db creator_uuid u0 Hu Hcp), Hone.
  f_equal. lia.
Qed.

(** The creator with two posts has no subscription and no series: the single
    completed transaction is counted twice. *)
Example total_earnings_of_two_posts :
  fan_out creator_with_two_posts 1%N = 2
  ∧ total_earnings <$> get_creator_stats creator_with_two_posts 1%N
    = [ completed_earnings creator_with_two_posts 1%N * 2 ].
Proof.
  split; [reflexivity|].
  by rewrite (total_earnings_with_fan_out creator_with_two_posts 1%N
                {| u_id := 1%N; u_display_name := "creator";
                   u_avatar_url := None; u_role := role_creator;
                   u_is_verified := false |})
    by (vm_compute; first [reflexivity | lia]).
Qed.

(** The general statement at the creator with two posts: the single
    completed transaction of 100 is paired with both posts. *)
Lemma get_creator_stats_total_earnings_witness :
  total_earnings <$> get_creator_stats creator_with_two_posts 1%N
  = [ completed_earnings creator_with_two_posts 1%N
      * fan_out creator_with_two_posts 1%N ].
Proof.
  apply (get_creator_stats_total_earnings creator_with_two_posts 1%N
           {| u_id := 1%N; u_display_name := "creator";
              u_avatar_url := None; u_role := role_creator;
              u_is_verified := false |}).
  - reflexivity.
  - vm_compute. lia.
Defined.

(** C2 fails on the code: the LEFT JOINs pair the single completed transaction
    with each of the creator's two posts, and [SUM] adds its amount once per
    pair, while [COUNT(DISTINCT ...)] in the same SELECT list still counts two
    posts and one supporter. *)
Theorem get_creator_stats_repeats_transactions :
  get_creator_stats creator_with_two_posts 1%N
  = [ {| total_earnings := 200; total_supporters := 1;
         active_subscriptions := 0; total_posts := 2; total_series := 0;
         total_followers := 0; total_likes := 0; total_comments := 0 |} ]
  ∧ completed_earnings creator_with_two_posts 1%N = 100.
Proof. split; vm_compute; reflexivity. Qed.

Lemma elem_of_filter_bool' {A} (f : A → bool) (l : list A) x :
  x ∈ List.filter f l ↔ x ∈ l ∧ f x = true.
Proof. rewrite !list_elem_of_In. apply filter_In. Qed.

(** *** The whole result row *)

Lemma elem_of_opts {R} (ms : list R) (y : R) : Some y ∈ opts ms ↔ y ∈ ms.
Proof.
  destruct ms as [|m ms].
  - simpl. rewrite list_elem_of_singleton.
    split; [done|]. by intros ?%not_elem_of_nil.
  - change (opts (m :: ms)) with (Some <$> (m :: ms)).
    rewrite list_elem_of_fmap. split.
    + by intros (y' & [= ->] & Hy).
    + intros Hy. by exists y.
Qed.

Lemma opts_inhabited {R} (ms : list R) : ∃ o, o ∈ opts ms.
Proof. destruct ms as [|m ms]; simpl; eexists; left. Qed.

Lemma elem_of_LEFT_JOIN {L R} (l : list L) (r : list R) on x o :
  (x, o) ∈ LEFT_JOIN l r on ↔ x ∈ l ∧ o ∈ opts (List.filter (on x) r).
Proof.
  induction l as [|y l IH].
  - split; [by intros ?%not_elem_of_nil|]. by intros [?%not_elem_of_nil _].
  - rewrite LEFT_JOIN_block, elem_of_app, IH, elem_of_cons.
    split.
    + intros [Hin|[Hx Ho]]; [|by split; [right|]].
      apply list_elem_of_fmap in Hin as (o' & [= -> ->] & Ho).
      by split; [left|].
    + intros [[->|Hx] Ho]; [left|right; by split].
      apply list_elem_of_fmap. by exists o.
Qed.

(** The joined rows of one user-with-profile: every combination of a
    transaction, a subscription, a post and a series of the user. *)
Lemma elem_of_from_profiles u ocp db j :
  j ∈ from_profiles [(u, ocp)] db ↔
    j_u j = u ∧ j_cp j = ocp
    ∧ j_st j ∈ opts (transactions_of db (u_id u))
    ∧ j_sub j ∈ opts (subscriptions_of db (u_id u))
    ∧ j_p j ∈ opts (live_posts_of db (u_id u))
    ∧ j_s j ∈ opts (live_series_of db (u_id u)).
Proof.
  unfold from_profiles. rewrite list_elem_of_fmap. split.
  - intros ([[[[[u' cp] st] sub] p] s] & -> & Hin).
    cbn [j_u j_cp j_st j_sub j_p j_s].
    apply elem_of_LEFT_JOIN in Hin as [Hin Hs].
    apply elem_of_LEFT_JOIN in Hin as [Hin Hp].
    apply elem_of_LEFT_JOIN in Hin as [Hin Hsub].
    apply elem_of_LEFT_JOIN in Hin as [Hin Hst].
    apply list_elem_of_singleton in Hin as [= -> ->]. done.
  - destruct j as [u' cp st sub p s]; cbn [j_u j_cp j_st j_sub j_p j_s].
    intros (-> & -> & Hst & Hsub & Hp & Hs).
    exists (u, ocp, st, sub, p, s). split; [done|].
    apply elem_of_LEFT_JOIN; split; [|exact Hs].
    apply elem_of_LEFT_JOIN; split; [|exact Hp].
    apply elem_of_LEFT_JOIN; split; [|exact Hsub].
    apply elem_of_LEFT_JOIN; split; [|exact Hst].
    by apply list_elem_of_singleton.
Qed.

Lemma from_users_profiles us db :
  from_users us db
  = from_profiles (LEFT_JOIN us (creator_profiles db)
                     (λ u cp, N.eqb (u_id u) (cp_user_id cp))) db.
Proof. reflexivity. Qed.

(** A creator with one [users] row and at most one profile row makes one
    group. *)
Lemma get_creator_stats_one_group db creator_uuid u0 :
  List.filter (λ u, N.eqb (u_id u) creator_uuid) (users db) = [u0] →
  (length (profiles_of db creator_uuid) ≤ 1)%nat →
  u_id u0 = creator_uuid
  ∧ ∃ ocp, opts (profiles_of db creator_uuid) = [ocp]
    ∧ get_creator_stats db creator_uuid
      = [ aggregate (creator_uuid, ocp ≫= cp_followers_count,
                     ocp ≫= cp_likes_count)
            (from_profiles [(u0, ocp)] db) ].
Proof.
  intros Hu Hcp.
  assert (u_id u0 = creator_uuid) as Hid.
  { assert (u0 ∈ List.filter (λ u, N.eqb (u_id u) creator_uuid) (users db)) as Hin
      by (rewrite Hu; left).
    apply list_elem_of_In, filter_In in Hin as [_ Hin]. by apply N.eqb_eq. }
  split; [done|].
  assert (∃ ocp, opts (profiles_of db creator_uuid) = [ocp]) as [ocp Hocp].
  { unfold profiles_of in *.
    destruct (List.filter _ (creator_profiles db)) as [|cp [|cp' cps]];
      simpl in *; [by eexists..|lia]. }
  exists ocp. split; [done|].
  unfold get_creator_stats.
  rewrite from_clause_users, where_from_users, Hu, from_users_profiles.
  rewrite LEFT_JOIN_singleton, Hid. fold (profiles_of db creator_uuid).
  rewrite Hocp. change ((λ o, (u0, o)) <$> [ocp]) with [(u0, ocp)].
  set (rows := from_profiles [(u0, ocp)] db).
  set (key := (creator_uuid, ocp ≫= cp_followers_count, ocp ≫= cp_likes_count)).
  assert (Forall (λ j, group_key j = key) rows) as Hkey.
  { apply Forall_forall. intros j Hj.
    apply elem_of_from_profiles in Hj as (Hju & Hjcp & _).
    unfold group_key, key. by rewrite Hju, Hjcp, Hid. }
  assert (rows ≠ []) as Hne.
  { destruct (opts_inhabited (transactions_of db (u_id u0))) as [st Hst].
    destruct (opts_inhabited (subscriptions_of db (u_id u0))) as [sub Hsub].
    destruct (opts_inhabited (live_posts_of db (u_id u0))) as [p Hp].
    destruct (opts_inhabited (live_series_of db (u_id u0))) as [s Hs].
    assert ({| j_u := u0; j_cp := ocp; j_st := st; j_sub := sub; j_p := p;
               j_s := s |} ∈ rows) as Hin by (by apply elem_of_from_profiles).
    intros E. rewrite E in Hin. by apply not_elem_of_nil in Hin. }
  rewrite (remove_dups_const key);
    [|by destruct rows|by apply Forall_fmap]. csimpl. f_equal.
  rewrite filter_all; [done|].
  eapply Forall_impl; [exact Hkey|]. intros j ->. by apply bool_decide_eq_true.
Qed.

(** Two lists with the same non-NULL values have the same COUNT(DISTINCT). *)
Lemma COUNT_DISTINCT_set (vs : list (option uuid)) (ws : list uuid) :
  (∀ x, Some x ∈ vs ↔ x ∈ ws) → COUNT_DISTINCT vs = distinct ws.
Proof.
  intros Hset. unfold COUNT_DISTINCT, distinct. f_equal.
  apply Permutation_length, NoDup_Permutation; [apply NoDup_remove_dups..|].
  intros x. rewrite !elem_of_remove_dups, list_elem_of_omap, <-Hset.
  split; [|intros Hx; by exists (Some x)].
  intros (o & Ho & Eo). unfold id in Eo. by subst o.
Qed.

(** A value of one joined column occurs among the joined rows exactly when
    it occurs in the creator's rows of that table. *)
Lemma joined_column_values {A} u ocp db (col : joined → option A)
    (partners : list A) :
  (∀ j, j ∈ from_profiles [(u, ocp)] db → col j ∈ opts partners) →
  (∀ o, o ∈ opts partners → ∃ j, j ∈ from_profiles [(u, ocp)] db ∧ col j = o) →
  ∀ (f : A → uuid) x,
    Some x ∈ (λ j, f <$> col j) <$> from_profiles [(u, ocp)] db
    ↔ x ∈ f <$> partners.
Proof.
  intros Hin Hall f x. rewrite !list_elem_of_fmap. split.
  - intros (j & Hx & Hj). specialize (Hin j Hj).
    destruct (col j) as [a|]; [|done]. injection Hx as ->.
    exists a. split; [done|]. by apply elem_of_opts.
  - intros (a & -> & Ha). apply elem_of_opts in Ha.
    destruct (Hall _ Ha) as (j & Hj & Hc). exists j. by rewrite Hc.
Qed.

Ltac joined_row u0 ocp db st sub p s :=
  exists {| j_u := u0; j_cp := ocp; j_st := st; j_sub := sub; j_p := p;
            j_s := s |};
  split; [by apply elem_of_from_profiles|done].

(** X2: for a creator with one [users] row and at most one profile row,
    get_creator_stats returns one row whose counts are not affected by the
    joins: the supporters are the different supporter ids of the creator's
    transactions of any status, the active subscriptions, posts and series
    the different ids of the creator's active subscriptions, non-deleted
    posts and non-deleted series, and followers and likes the counters of
    the profile row, zero without one. *)
Theorem get_creator_stats_counts db creator_uuid u0 :
  List.filter (λ u, N.eqb (u_id u) creator_uuid) (users db) = [u0] →
  (length (profiles_of db creator_uuid) ≤ 1)%nat →
  (λ r, (total_supporters r, active_subscriptions r, total_posts r,
         total_series r, total_followers r, total_likes r))
    <$> get_creator_stats db creator_uuid
  = [ (distinct (st_supporter_id <$> transactions_of db creator_uuid),
       distinct (sub_id <$> List.filter (λ sub, is_active (sub_status sub))
                              (subscriptions_of db creator_uuid)),
       distinct (p_id <$> live_posts_of db creator_uuid),
       distinct (s_id <$> live_series_of db creator_uuid),
       COALESCE (head (profiles_of db creator_uuid) ≫= cp_followers_count) 0,
       COALESCE (head (profiles_of db creator_uuid) ≫= cp_likes_count) 0) ].
Proof.
  intros Hu Hcp.
  destruct (get_creator_stats_one_group db creator_uuid u0 Hu Hcp)
    as (Hid & ocp & Hocp & ->).
  assert (ocp = head (profiles_of db creator_uuid)) as Hhead.
  { destruct (profiles_of db creator_uuid) as [|cp [|cp' cps]];
      simpl in *; by injection Hocp as <-. }
  destruct (opts_inhabited (transactions_of db (u_id u0))) as [st0 Hst0].
  destruct (opts_inhabited (subscriptions_of db (u_id u0))) as [sub0 Hsub0].
  destruct (opts_inhabited (live_posts_of db (u_id u0))) as [p0 Hp0].
  destruct (opts_inhabited (live_series_of db (u_id u0))) as [s0 Hs0].
  csimpl. rewrite <-Hhead, <-Hid. repeat f_equal.
  - apply COUNT_DISTINCT_set. apply joined_column_values.
    + intros j Hj. by apply elem_of_from_profiles in Hj as (_&_&?&_).
    + intros o Ho. joined_row u0 ocp db o sub0 p0 s0.
  - apply COUNT_DISTINCT_set. intros x.
    rewrite !list_elem_of_fmap. split.
    + intros (j & Hx & Hj).
      apply elem_of_from_profiles in Hj as (_&_&_&Hsub&_).
      unfold active_id in Hx. destruct (j_sub j) as [sub|]; [|done].
      destruct (is_active (sub_status sub)) eqn:Hact; [|done].
      injection Hx as ->. exists sub. split; [done|].
      apply elem_of_filter_bool'. split; [by apply elem_of_opts|done].
    + intros (sub & -> & Hsub).
      apply elem_of_filter_bool' in Hsub as [Hsub Hact].
      apply elem_of_opts in Hsub.
      exists {| j_u := u0; j_cp := ocp; j_st := st0; j_sub := Some sub;
                j_p := p0; j_s := s0 |}.
      split; [|by apply elem_of_from_profiles].
      unfold active_id; simpl. by rewrite Hact.
  - apply COUNT_DISTINCT_set. apply joined_column_values.
    + intros j Hj. by apply elem_of_from_profiles in Hj as (_&_&_&_&?&_).
    + intros o Ho. joined_row u0 ocp db st0 sub0 o s0.
  - apply COUNT_DISTINCT_set. apply joined_column_values.
    + intros j Hj. by apply elem_of_from_profiles in Hj as (_&_&_&_&_&?).
    + intros o Ho. joined_row u0 ocp db st0 sub0 p0 o.
Qed.

(** X3: for an id that no [users] row carries, get_creator_stats returns no
    row at all (not a row of zeros). *)
Theorem get_creator_stats_unknown_creator db creator_uuid :
  (∀ u, u ∈ users db → u_id u ≠ creator_uuid) →
  get_creator_stats db creator_uuid = [].
Proof.
  intros Hnone. unfold get_creator_stats.
  rewrite from_clause_users, where_from_users.
  replace (List.filter (λ u, N.eqb (u_id u) creator_uuid) (users db))
    with (@nil users_row); [done|].
  symmetry. induction (users db) as [|u us IH]; [done|]. simpl.
  rewrite (proj2 (N.eqb_neq _ _)) by (apply Hnone; left).
  apply IH. intros u' Hu'. apply Hnone. by right.
Qed.

Lemma get_creator_stats_unknown_creator_witness :
  get_creator_stats creator_with_two_posts 7%N = [].
Proof.
  apply get_creator_stats_unknown_creator.
  intros u Hu. apply list_elem_of_singleton in Hu as ->. done.
Defined.

Lemma COALESCE_SUM (vs : list (option Z)) :
  COALESCE (SUM vs) 0 = foldr Z.add 0 ((λ v, COALESCE v 0) <$> vs).
Proof.
  unfold SUM.
  assert (foldr Z.add 0 (omap id vs)
          = foldr Z.add 0 ((λ v, COALESCE v 0) <$> vs)) as <-.
  { induction vs as [|[v|] vs IH]; csimpl; [done|by rewrite IH|done]. }
  by destruct (omap id vs).
Qed.

Lemma sumZ_one {A} (l : list A) : sumZ (λ _, 1) l = Z.of_nat (length l).
Proof. unfold sumZ. induction l as [|x l IH]; csimpl; lia. Qed.

Lemma sumZ_opts_Some {A} (g : A → Z) (ms : list A) :
  sumZ (λ o, from_option g 0 o) (opts ms) = sumZ g ms.
Proof.
  destruct ms as [|m ms]; [done|].
  change (opts (m :: ms)) with (Some <$> (m :: ms)).
  unfold sumZ. by rewrite <-list_fmap_compose.
Qed.

(** A sum over the post column of the joined rows is the sum over the
    creator's posts, once for every combination of a transaction, a
    subscription and a series. *)
Lemma sumZ_joined_posts u ocp db (g : option posts_row → Z) :
  sumZ (λ j, g (j_p j)) (from_profiles [(u, ocp)] db)
  = Z.of_nat (length (opts (transactions_of db (u_id u))))
    * Z.of_nat (length (opts (subscriptions_of db (u_id u))))
    * sumZ g (opts (live_posts_of db (u_id u)))
    * Z.of_nat (length (opts (live_series_of db (u_id u)))).
Proof.
  unfold from_profiles.
  set (κ := (u, ocp)).
  set (J2 := LEFT_JOIN [κ] (supporter_transactions db) _).
  set (J3 := LEFT_JOIN J2 (subscriptions db) _).
  set (J4 := LEFT_JOIN J3 (posts db) _).
  set (J5 := LEFT_JOIN J4 (series db) _).
  set (h2 := λ (x : users_row * option creator_profiles_row) st,
               N.eqb (u_id x.1) (st_creator_id st)).
  set (h3 := λ (x : users_row * option creator_profiles_row) sub,
               N.eqb (u_id x.1) (sub_creator_id sub)).
  set (h4 := λ (x : users_row * option creator_profiles_row) p,
               N.eqb (u_id x.1) (p_user_id p) && IS_NULL (p_deleted_at p)).
  set (h5 := λ (x : users_row * option creator_profiles_row) s,
               N.eqb (u_id x.1) (s_user_id s) && IS_NULL (s_deleted_at s)).
  assert (Forall (λ x, x = κ) [κ]) as K1 by (by constructor).
  assert (Forall (λ z, z.1 = κ) J2) as K2.
  { unfold J2. by apply (LEFT_JOIN_keys (λ x, x)). }
  assert (Forall (λ z, z.1.1 = κ) J3) as K3.
  { unfold J3. by apply (LEFT_JOIN_keys (λ x, x.1)). }
  assert (Forall (λ z, z.1.1.1 = κ) J4) as K4.
  { unfold J4. by apply (LEFT_JOIN_keys (λ x, x.1.1)). }
  transitivity (sumZ (λ z, g z.1.2) J5).
  { unfold sumZ. rewrite <-list_fmap_compose. f_equal.
    apply list_fmap_ext. by intros i [[[[[u' cp] st] sub] p] s] _. }
  unfold J5.
  rewrite (sumZ_LEFT_JOIN_left (λ x, x.1.1.1) h5)
    with (κ := κ) (g := λ y, g y.2);
    [|by intros [[[[? ?] ?] ?] ?] ?|exact K4].
  unfold J4.
  rewrite (sumZ_LEFT_JOIN_right (λ x, x.1.1) h4) with (κ := κ) (g := g);
    [|by intros [[[? ?] ?] ?] ?|exact K3].
  rewrite <-(sumZ_one J3). unfold J3.
  rewrite (sumZ_LEFT_JOIN_left (λ x, x.1) h3)
    with (κ := κ) (g := λ _, 1);
    [|by intros [[? ?] ?] ?|exact K2].
  unfold J2.
  rewrite (sumZ_LEFT_JOIN_left (λ x, x) h2)
    with (κ := κ) (g := λ _, 1);
    [|by intros [? ?] ?|exact K1].
  change (sumZ (λ _, 1) [κ]) with 1.
  unfold transactions_of, subscriptions_of, live_posts_of, live_series_of,
    h2, h3, h4, h5, κ; simpl. lia.
Qed.

(** X4: for a creator with one [users] row and at most one profile row,
    [total_comments] is the sum of the comment counters of the creator's
    non-deleted posts, added once for every combination of a transaction, a
    subscription and a series of the creator. *)
Theorem get_creator_stats_total_comments db creator_uuid u0 :
  List.filter (λ u, N.eqb (u_id u) creator_uuid) (users db) = [u0] →
  (length (profiles_of db creator_uuid) ≤ 1)%nat →
  total_comments <$> get_creator_stats db creator_uuid
  = [ comments_on_posts db creator_uuid
      * (partners (λ st, N.eqb creator_uuid (st_creator_id st))
           (supporter_transactions db)
         * partners (λ sub, N.eqb creator_uuid (sub_creator_id sub))
             (subscriptions db)
         * partners (λ s, N.eqb creator_uuid (s_user_id s)
                          && IS_NULL (s_deleted_at s)) (series db)) ].
Proof.
  intros Hu Hcp.
  destruct (get_creator_stats_one_group db creator_uuid u0 Hu Hcp)
    as (Hid & ocp & Hocp & ->).
  csimpl. f_equal. rewrite COALESCE_SUM, <-list_fmap_compose.
  pose proof (sumZ_joined_posts u0 ocp db
                (λ o, COALESCE (o ≫= p_comments_count) 0)) as Hsum.
  unfold sumZ at 1 in Hsum.
  etransitivity; [|etransitivity; [exact Hsum|]]; [done|]. clear Hsum.
  rewrite !length_opts, Hid.
  unfold transactions_of, subscriptions_of, live_series_of, partners.
  rewrite <-!COUNT_length_filter.
  replace (sumZ (λ o, COALESCE (o ≫= p_comments_count) 0)
             (opts (live_posts_of db creator_uuid)))
    with (comments_on_posts db creator_uuid); [lia|].
  unfold comments_on_posts.
  destruct (live_posts_of db creator_uuid) as [|p ps]; [done|].
  change (opts (p :: ps)) with (Some <$> (p :: ps)).
  unfold sumZ. by rewrite <-list_fmap_compose.
Qed.

Lemma get_creator_stats_total_comments_witness :
  total_comments <$> get_creator_stats creator_with_comments 1%N
  = [ 7 * (2 * 3 * 1) ].
Proof.
  apply (get_creator_stats_total_comments creator_with_comments 1%N
           {| u_id := 1%N; u_display_name := "creator";
              u_avatar_url := None; u_role := role_creator;
              u_is_verified := false |}).
  - reflexivity.
  - vm_compute. lia.
Defined.

(** The creator's two posts have 3 + 4 = 7 comments; with two transactions
    and three subscriptions the function reports 7 * (2 * 3 * 1) = 42. *)
Example total_comments_of_creator_with_comments :
  total_comments <$> get_creator_stats creator_with_comments 1%N = [42]
  ∧ comments_on_posts creator_with_comments 1%N = 7
  ∧ length (post_comments creator_with_comments) = 7%nat.
Proof. vm_compute. done. Qed.

Lemma get_creator_stats_counts_witness :
  (λ r, (total_supporters r, active_subscriptions r, total_posts r,
         total_series r, total_followers r, total_likes r))
    <$> get_creator_stats creator_with_two_posts 1%N
  = [ (1, 0, 2, 0, 0, 0) ].
Proof.
  apply (get_creator_stats_counts creator_with_two_posts 1%N
           {| u_id := 1%N; u_display_name := "creator";
              u_avatar_url := None; u_role := role_creator;
              u_is_verified := false |}).
  - reflexivity.
  - vm_compute. lia.
Defined.

End StatsProps.

(** ** Feed functions *)
Module FeedProps.
Import Feed.

Lemma elem_of_filter_bool {A} (f : A → bool) (l : list A) x :
  x ∈ List.filter f l ↔ x ∈ l ∧ f x = true.
Proof. rewrite !list_elem_of_In. apply filter_In. Qed.

Lemma elem_of_INNER_JOIN {L R} (l : list L) (r : list R) on x y :
  (x, y) ∈ INNER_JOIN l r on ↔ x ∈ l ∧ y ∈ r ∧ on x y = true.
Proof.
  unfold INNER_JOIN. rewrite list_elem_of_In, in_flat_map. split.
  - intros (x' & Hx' & Hin). apply list_elem_of_In, list_elem_of_fmap in Hin.
    destruct Hin as (y' & [= -> ->] & Hy'). apply elem_of_filter_bool in Hy'.
    by rewrite list_elem_of_In.
  - intros (Hx & Hy & Hon). exists x. split; [by apply list_elem_of_In|].
    apply list_elem_of_In, list_elem_of_fmap. exists y. split; [done|].
    by apply elem_of_filter_bool.
Qed.

#[local] Instance newest_first_total : Total newest_first.
Proof. intros a b. unfold newest_first. lia. Qed.

#[local] Instance newest_first_trans : Transitive newest_first.
Proof. intros a b c. unfold newest_first. lia. Qed.

Lemma merge_sort_orders candidates :
  orders_newest_first (merge_sort newest_first candidates) candidates.
Proof.
  split; [apply merge_sort_Permutation|apply StronglySorted_merge_sort; apply _].
Qed.

Lemma StronglySorted_take {A} (R : relation A) n l :
  StronglySorted R l → StronglySorted R (take n l).
Proof. rewrite <-(take_drop n l) at 1. apply StronglySorted_app_1_l. Qed.

Lemma StronglySorted_drop {A} (R : relation A) n l :
  StronglySorted R l → StronglySorted R (drop n l).
Proof. rewrite <-(take_drop n l) at 1. apply StronglySorted_app_1_r. Qed.

Lemma IS_NULL_true {A} (a : option A) : IS_NULL a = true → a = None.
Proof. by destruct a. Qed.

(** Every joined row comes from the tables, and [visible] is the WHERE
    clause. *)
Lemma visible_joined_row db j :
  j ∈ posts_with_author_and_series db → visible j = true →
  shows_visible_post db (p_id (post_of j)) (p_created_at (post_of j)) (post_of j).
Proof.
  destruct j as [[p u] s]. unfold posts_with_author_and_series, visible.
  intros Hin Hv.
  apply elem_of_INNER_JOIN in Hin as (Hpu & Hs & Hps).
  apply elem_of_INNER_JOIN in Hpu as (Hp & Hu & Hpu).
  unfold shows_visible_post, post_of, series_of in *. simpl in *.
  apply andb_prop in Hv as [Hv Hsd]. apply andb_prop in Hv as [Hpub Hpd].
  apply IS_NULL_true in Hpd, Hsd.
  split; [done|]. split; [done|]. split; [done|]. split; [done|].
  split; [done|]. exists s. split; [done|]. split; [|done].
  unfold eq_null in Hps. destruct (p_series_id p) as [sid|]; [|done].
  apply N.eqb_eq in Hps. by subst.
Qed.

Lemma discovery_candidate_visible db j :
  j ∈ discovery_candidates db →
  shows_visible_post db (p_id (post_of j)) (p_created_at (post_of j)) (post_of j).
Proof.
  unfold discovery_candidates. rewrite elem_of_filter_bool.
  intros [Hj Hv]. by apply visible_joined_row.
Qed.

Lemma user_feed_candidate_visible db user_uuid j :
  j ∈ user_feed_candidates db user_uuid →
  shows_visible_post db (p_id (post_of j)) (p_created_at (post_of j)) (post_of j)
  ∧ follows_author db user_uuid (post_of j).
Proof.
  unfold user_feed_candidates. rewrite list_elem_of_fmap.
  intros ([j' f] & -> & Hin). simpl.
  apply elem_of_filter_bool in Hin as [Hin Hv].
  apply elem_of_INNER_JOIN in Hin as (Hj & Hf & Hon).
  split; [by apply visible_joined_row|].
  apply andb_prop in Hon as [H1 H2]. apply N.eqb_eq in H1, H2.
  by exists f.
Qed.

(** C5: get_discovery_feed rejects a negative limit before producing a row
    and otherwise returns at most [feed_limit] rows, each showing a published,
    non-deleted post of a non-deleted series, newest first; the rows are the
    first [feed_limit] of all such posts in [created_at] descending order, so
    nothing but that order and the limit decides what is returned. *)
Theorem get_discovery_feed_newest_visible_posts db user_uuid feed_limit :
  match get_discovery_feed db user_uuid feed_limit with
  | Error _ => feed_limit < 0
  | Rows rs =>
      0 ≤ feed_limit
      ∧ Z.of_nat (length rs) ≤ feed_limit
      ∧ Forall (λ r, ∃ p,
          shows_visible_post db (df_post_id r) (df_post_created_at r) p) rs
      ∧ StronglySorted df_newest_first rs
      ∧ ∃ all, orders_newest_first all (discovery_candidates db)
               ∧ rs = discovery_select db user_uuid
                        <$> take (Z.to_nat feed_limit) all
  end.
Proof.
  unfold get_discovery_feed. destruct (feed_limit <? 0) eqn:Hlim.
  { by apply Z.ltb_lt. }
  apply Z.ltb_ge in Hlim.
  pose proof (merge_sort_orders (discovery_candidates db)) as [Hperm Hsorted].
  split; [done|]. split; [|split; [|split]].
  - rewrite length_fmap, length_take. lia.
  - apply Forall_fmap, Forall_forall. intros j Hj.
    apply subseteq_take in Hj. rewrite Hperm in Hj.
    exists (post_of j). by apply discovery_candidate_visible.
  - eapply StronglySorted_fmap; [|by apply StronglySorted_take]. done.
  - by eexists.
Qed.

(** C6: get_user_feed rejects a negative limit or offset and otherwise
    returns only published, non-deleted posts whose author the user follows,
    newest first: the rows are what remains of all such posts, in [created_at]
    descending order, after skipping [feed_offset] of them and keeping at most
    [feed_limit]. *)
Theorem get_user_feed_followed_newest_posts db user_uuid feed_limit feed_offset :
  match get_user_feed db user_uuid feed_limit feed_offset with
  | Error _ => feed_limit < 0 ∨ feed_offset < 0
  | Rows rs =>
      0 ≤ feed_limit ∧ 0 ≤ feed_offset
      ∧ Z.of_nat (length rs) ≤ feed_limit
      ∧ Forall (λ r, ∃ p,
          shows_visible_post db (uf_post_id r) (uf_post_created_at r) p
          ∧ uf_creator_id r = p_user_id p
          ∧ follows_author db user_uuid p) rs
      ∧ StronglySorted uf_newest_first rs
      ∧ ∃ all, orders_newest_first all (user_feed_candidates db user_uuid)
               ∧ rs = user_feed_select db user_uuid
                        <$> take (Z.to_nat feed_limit)
                              (drop (Z.to_nat feed_offset) all)
  end.
Proof.
  unfold get_user_feed. destruct (feed_limit <? 0) eqn:Hlim.
  { left. by apply Z.ltb_lt. }
  destruct (feed_offset <? 0) eqn:Hoff.
  { right. by apply Z.ltb_lt. }
  apply Z.ltb_ge in Hlim, Hoff.
  pose proof (merge_sort_orders (user_feed_candidates db user_uuid))
    as [Hperm Hsorted].
  split; [done|]. split; [done|]. split; [|split; [|split]].
  - rewrite length_fmap, length_take. lia.
  - apply Forall_fmap, Forall_forall. intros j Hj.
    apply subseteq_take, subseteq_drop in Hj. rewrite Hperm in Hj.
    apply user_feed_candidate_visible in Hj as [Hv Hf].
    by exists (post_of j).
  - eapply StronglySorted_fmap;
      [|by apply StronglySorted_take, StronglySorted_drop]. done.
  - by eexists.
Qed.

Example discovery_feed_of_sample :
  (λ r, (df_post_id r, df_post_created_at r, df_likes_count r,
         df_user_has_liked r, df_user_follows_creator r))
    <$> match get_discovery_feed sample 3%N 20 with
        | Rows rs => rs
        | Error _ => []
        end
  = [ (12%N, 200, 0, true, true); (11%N, 100, 0, false, true) ].
Proof. vm_compute. reflexivity. Qed.

Example discovery_feed_limit_one :
  df_post_id <$> match get_discovery_feed sample 3%N 1 with
                 | Rows rs => rs
                 | Error _ => []
                 end
  = [ 12%N ].
Proof. vm_compute. reflexivity. Qed.

Example discovery_feed_negative_limit :
  get_discovery_feed sample 3%N (-1) = Error "LIMIT must not be negative".
Proof. reflexivity. Qed.

Example user_feed_second_page :
  uf_post_id <$> match get_user_feed sample 3%N 1 1 with
                 | Rows rs => rs
                 | Error _ => []
                 end
  = [ 11%N ].
Proof. vm_compute. reflexivity. Qed.

Example user_feed_of_stranger :
  get_user_feed sample 4%N 20 0 = Rows [].
Proof. vm_compute. reflexivity. Qed.

(** Every row of either feed shows a visible post. *)
Lemma get_discovery_feed_rows db user_uuid feed_limit :
  Forall (λ r, ∃ p, shows_visible_post db (df_post_id r) (df_post_created_at r) p)
    (FeedRows.rows (get_discovery_feed db user_uuid feed_limit)).
Proof.
  unfold get_discovery_feed. destruct (feed_limit <? 0); [constructor|].
  cbn [FeedRows.rows]. apply Forall_fmap, Forall_forall. intros j Hj.
  apply subseteq_take in Hj. rewrite merge_sort_Permutation in Hj.
  exists (post_of j). by apply discovery_candidate_visible.
Qed.

Lemma get_user_feed_rows db user_uuid feed_limit feed_offset :
  Forall (λ r, ∃ p, shows_visible_post db (uf_post_id r) (uf_post_created_at r) p)
    (FeedRows.rows (get_user_feed db user_uuid feed_limit feed_offset)).
Proof.
  unfold get_user_feed. destruct (feed_limit <? 0); [constructor|].
  destruct (feed_offset <? 0); [constructor|].
  cbn [FeedRows.rows]. apply Forall_fmap, Forall_forall. intros j Hj.
  apply subseteq_take, subseteq_drop in Hj. rewrite merge_sort_Permutation in Hj.
  exists (post_of j). by apply user_feed_candidate_visible in Hj as [? _].
Qed.

(** *** The joined columns and the two flags *)

Lemma existsb_true_iff {A} (f : A → bool) (l : list A) :
  existsb f l = true ↔ ∃ x, x ∈ l ∧ f x = true.
Proof.
  rewrite existsb_exists. split; intros (x & Hx & Hf); exists x;
    by rewrite ?list_elem_of_In in *.
Qed.

Lemma user_has_liked_iff db user_uuid p :
  user_has_liked db user_uuid p = true ↔ FeedRows.liked_by db user_uuid p.
Proof.
  unfold user_has_liked, FeedRows.liked_by. rewrite existsb_true_iff.
  split; intros (l & Hl & H); exists l; (split; [done|]).
  - apply andb_prop in H as [H1 H2]. by apply N.eqb_eq in H1, H2.
  - destruct H as [-> ->]. by rewrite !N.eqb_refl.
Qed.

Lemma user_follows_creator_iff db user_uuid p :
  user_follows_creator db user_uuid p = true ↔ follows_author db user_uuid p.
Proof.
  unfold user_follows_creator, follows_author. rewrite existsb_true_iff.
  split; intros (f & Hf & H); exists f; (split; [done|]).
  - apply andb_prop in H as [H1 H2]. by apply N.eqb_eq in H1, H2.
  - destruct H as [-> ->]. by rewrite !N.eqb_refl.
Qed.

Lemma joined_row_tables db p a s :
  (p, a, s) ∈ posts_with_author_and_series db →
  p ∈ posts db ∧ a ∈ users db ∧ s ∈ series db
  ∧ p_user_id p = u_id a ∧ p_series_id p = Some (s_id s).
Proof.
  unfold posts_with_author_and_series. intros Hin.
  apply elem_of_INNER_JOIN in Hin as (Hpu & Hs & Hps).
  apply elem_of_INNER_JOIN in Hpu as (Hp & Hu & Hpu).
  apply N.eqb_eq in Hpu. do 4 (split; [done|]).
  unfold eq_null in Hps. destruct (p_series_id p) as [sid|]; [|done].
  apply N.eqb_eq in Hps. by subst.
Qed.

(** X10: every row of the discovery feed shows a post together with the name,
    avatar and verified badge of the [users] row that is its author and the
    title of the [series] row it belongs to, so a post without a series is
    never listed; [user_has_liked] is true exactly when the user has a
    [post_likes] row for the post, and [user_follows_creator] exactly when the
    user has a [follows] row for its author. *)
Theorem discovery_rows_show_author_series_and_flags db user_uuid feed_limit :
  Forall (λ r, ∃ p a s,
      FeedRows.shows_author_and_series db r p a s
      ∧ (df_user_has_liked r = true ↔ FeedRows.liked_by db user_uuid p)
      ∧ (df_user_follows_creator r = true ↔ follows_author db user_uuid p))
    (FeedRows.rows (get_discovery_feed db user_uuid feed_limit)).
Proof.
  unfold get_discovery_feed. destruct (feed_limit <? 0); [constructor|].
  cbn [FeedRows.rows]. apply Forall_fmap, Forall_forall. intros [[p a] s] Hj.
  apply subseteq_take in Hj. rewrite merge_sort_Permutation in Hj.
  unfold discovery_candidates in Hj. apply elem_of_filter_bool in Hj as [Hj _].
  apply joined_row_tables in Hj as (Hp & Ha & Hs & Hpa & Hps).
  exists p, a, s. split; [|split].
  - unfold FeedRows.shows_author_and_series, discovery_select, post_of,
      author_of, series_of; simpl. by rewrite Hpa, Hps.
  - apply user_has_liked_iff.
  - apply user_follows_creator_iff.
Qed.

(** X11: with a limit that covers every candidate, the discovery feed contains
    each post of the user's feed, whatever page of it is asked for, marked as
    one whose creator the user follows. *)
Theorem user_feed_within_discovery_feed db user_uuid feed_limit feed_offset
    (limit : Z) :
  Z.of_nat (length (discovery_candidates db)) ≤ limit →
  Forall (λ r, ∃ r',
      r' ∈ FeedRows.rows (get_discovery_feed db user_uuid limit)
      ∧ FeedRows.same_post_followed r r')
    (FeedRows.rows (get_user_feed db user_uuid feed_limit feed_offset)).
Proof.
  intros Hlimit. unfold get_user_feed.
  destruct (feed_limit <? 0); [constructor|].
  destruct (feed_offset <? 0); [constructor|].
  cbn [FeedRows.rows]. apply Forall_fmap, Forall_forall. intros j Hj.
  apply subseteq_take, subseteq_drop in Hj.
  rewrite merge_sort_Permutation in Hj.
  unfold user_feed_candidates in Hj.
  apply list_elem_of_fmap in Hj as ([j' f] & -> & Hin). simpl.
  apply elem_of_filter_bool in Hin as [Hin Hv].
  apply elem_of_INNER_JOIN in Hin as (Hj & Hf & Hon).
  exists (discovery_select db user_uuid j'). split.
  - unfold get_discovery_feed.
    assert (0 ≤ limit) as Hpos by lia.
    apply Z.ltb_ge in Hpos. rewrite Hpos. cbn [FeedRows.rows].
    apply list_elem_of_fmap. exists j'. split; [done|].
    rewrite take_ge.
    + rewrite merge_sort_Permutation. unfold discovery_candidates.
      by apply elem_of_filter_bool.
    + rewrite merge_sort_Permutation. lia.
  - unfold FeedRows.same_post_followed, discovery_select, user_feed_select; simpl.
    do 6 (split; [done|]).
    apply user_follows_creator_iff.
    apply andb_prop in Hon as [H1 H2]. apply N.eqb_eq in H1, H2.
    by exists f.
Qed.

Lemma user_feed_within_discovery_feed_witness :
  Z.of_nat (length (discovery_candidates sample)) ≤ 20
  ∧ Forall (λ r, ∃ r',
        r' ∈ FeedRows.rows (get_discovery_feed sample 3%N 20)
        ∧ FeedRows.same_post_followed r r')
      (FeedRows.rows (get_user_feed sample 3%N 1 1)).
Proof.
  assert (Z.of_nat (length (discovery_candidates sample)) ≤ 20) as H
    by (vm_compute; discriminate).
  split; [exact H|].
  exact (user_feed_within_discovery_feed sample 3%N 1 1 20 H).
Defined.

End FeedProps.

(** ** Post form: slug *)
Module PostFormProps.
Import PostForm.
Local Open Scope N_scope.

Lemma slug_char_cases c :
  slug_char c = true →
  (97 ≤ c ∧ c ≤ 122) ∨ (48 ≤ c ∧ c ≤ 57) ∨ c = 45.
Proof.
  unfold slug_char, is_lower, is_digit, is_hyphen, hyphen.
  rewrite !orb_true_iff, !andb_true_iff, !N.leb_le, N.eqb_eq. tauto.
Qed.

Lemma slug_char_not_space c : slug_char c = true → is_space c = false.
Proof.
  intros H. apply slug_char_cases in H. unfold is_space.
  repeat (apply orb_false_intro);
    rewrite ?andb_false_iff, ?N.leb_gt, ?N.eqb_neq; lia.
Qed.

Lemma hyphen_slug_char : slug_char hyphen = true.
Proof. reflexivity. Qed.

Lemma kept_not_space_slug_char c :
  is_lower c || is_digit c || is_space c || is_hyphen c = true →
  is_space c = false → slug_char c = true.
Proof.
  unfold slug_char. intros H Hs. rewrite Hs in H.
  by rewrite orb_false_r in H.
Qed.

Lemma remove_others_Forall keep s : Forall (λ c, keep c = true) (remove_others keep s).
Proof.
  apply Forall_forall. intros c Hc.
  apply list_elem_of_In, filter_In in Hc. tauto.
Qed.

(** Replacing runs keeps the characters outside the class and adds [r]. *)
Lemma replace_runs_from_Forall (P Q : code_unit → Prop) class r b s :
  Q r → (∀ c, P c → class c = false → Q c) →
  Forall P s → Forall Q (replace_runs_from b class r s).
Proof.
  intros Hr HPQ Hs. revert b.
  induction Hs as [|c s Hc Hs IH]; intros b; simpl; [constructor|].
  destruct (class c) eqn:E; [destruct b|]; auto.
Qed.

Lemma replace_runs_hyphen_head s :
  match replace_runs_from true is_hyphen hyphen s with
  | c :: _ => is_hyphen c = false
  | [] => True
  end.
Proof.
  induction s as [|c s IH]; simpl; [done|].
  destruct (is_hyphen c) eqn:E; [exact IH|exact E].
Qed.

Lemma no_double_hyphen_cons c d t :
  no_double_hyphen (c :: d :: t)
  = negb (is_hyphen c && is_hyphen d) && no_double_hyphen (d :: t).
Proof. reflexivity. Qed.

Lemma replace_runs_no_double_hyphen b s :
  no_double_hyphen (replace_runs_from b is_hyphen hyphen s) = true.
Proof.
  revert b. induction s as [|c s IH]; intros b; [done|].
  simpl replace_runs_from. destruct (is_hyphen c) eqn:E.
  - destruct b; [apply IH|].
    pose proof (replace_runs_hyphen_head s) as Hh. specialize (IH true).
    destruct (replace_runs_from true is_hyphen hyphen s) as [|d t]; [done|].
    rewrite no_double_hyphen_cons, Hh, IH. by rewrite andb_false_r.
  - specialize (IH false).
    destruct (replace_runs_from false is_hyphen hyphen s) as [|d t]; [done|].
    by rewrite no_double_hyphen_cons, E, IH.
Qed.

Lemma trimStart_no_space s :
  Forall (λ c, is_space c = false) s → trimStart s = s.
Proof. destruct 1 as [|c s Hc _]; simpl; [done|]. by rewrite Hc. Qed.

Lemma trim_no_space s : Forall (λ c, is_space c = false) s → trim s = s.
Proof.
  intros H. unfold trim, trimEnd. rewrite (trimStart_no_space s H).
  rewrite trimStart_no_space; [apply rev_involutive|].
  apply Forall_forall. intros c Hc. rewrite Forall_forall in H. apply H.
  apply list_elem_of_In. apply in_rev. by apply list_elem_of_In.
Qed.

(** C9: for every title (and whatever lower-casing does to it), the slug of
    handleSubmit consists of lowercase ASCII letters, digits and hyphens only
    and has no two hyphens in a row. *)
Theorem slug_is_lowercase_hyphenated (toLowerCase : js_string → js_string)
    (title : js_string) :
  forallb slug_char (slug toLowerCase title) = true
  ∧ no_double_hyphen (slug toLowerCase title) = true.
Proof.
  unfold slug.
  set (kept := remove_others _ (toLowerCase title)).
  assert (Forall (λ c, slug_char c = true)
            (replace_runs is_hyphen hyphen (replace_runs is_space hyphen kept)))
    as Hchars.
  { apply replace_runs_from_Forall with (P := λ c, slug_char c = true);
      [apply hyphen_slug_char|auto|].
    eapply replace_runs_from_Forall;
      [apply hyphen_slug_char|apply kept_not_space_slug_char|].
    apply remove_others_Forall. }
  rewrite trim_no_space
    by (eapply Forall_impl; [exact Hchars|apply slug_char_not_space]).
  split; [|apply replace_runs_no_double_hyphen].
  apply forallb_forall. intros c Hc. rewrite Forall_forall in Hchars.
  by apply Hchars, list_elem_of_In.
Qed.

Example slug_of_title :
  slug ascii_toLowerCase (js "Hello,  World -- 2024!") = js "hello-world-2024".
Proof. reflexivity. Qed.

Example slug_keeps_outer_hyphens :
  slug ascii_toLowerCase (js " My Post ") = js "-my-post-".
Proof. reflexivity. Qed.

End PostFormProps.

(** ** Cleanup script *)
Module CleanupProps.
Import Cleanup.

Lemma checked_app cs1 cs2 : checked (cs1 ++ cs2) = checked cs1 ++ checked cs2.
Proof. apply omap_app. Qed.

Lemma removals_app cs1 cs2 : removals (cs1 ++ cs2) = removals cs1 ++ removals cs2.
Proof. apply omap_app. Qed.

(** One call of [removeRecursive]: it looks its path up once, hands nothing
    but that path to a removal, and only when the path is there; it creates
    nothing and leaves alone what is neither the path nor inside it.  When it
    returns, the path is gone, the result tells whether it was there and one
    line has been written; when it throws, nothing has been written. *)
Lemma removeRecursive_spec itemPath (m : machine) :
  let '(m', r) := removeRecursive itemPath m in
  stat_throws m' = stat_throws m
  ∧ remove_throws m' = remove_throws m
  ∧ (∃ new, fs_calls m' = fs_calls m ++ new
            ∧ checked new = [itemPath]
            ∧ ∀ q, q ∈ removals new → q = itemPath)
  ∧ files m' ⊆ files m
  ∧ (∀ q, q ≠ itemPath → inside itemPath q = false →
          files m' !! q = files m !! q)
  ∧ match r with
    | inr removed =>
        files m' !! itemPath = None
        ∧ removed = bool_decide (is_Some (files m !! itemPath))
        ∧ output m'
          = output m
            ++ [ match files m !! itemPath with
                 | Some directory => removed_directory itemPath
                 | Some file => removed_file itemPath
                 | None => not_found itemPath
                 end ]
    | inl e => output m' = output m
    end.
Proof.
  unfold removeRecursive, existsSync, statSync, rmSync, unlinkSync.
  cbn [files called stat_throws remove_throws fs_calls output].
  destruct (files m !! itemPath) as [s|] eqn:Hp.
  2:{ rewrite bool_decide_eq_false_2 by (by intros []).
      cbn [files called log with_files stat_throws remove_throws fs_calls output].
      repeat split; try done.
      exists [call_existsSync itemPath]. split; [done|]. split; [done|].
      intros q []%not_elem_of_nil. }
  rewrite bool_decide_eq_true_2 by (by eexists).
  destruct (stat_throws m itemPath) as [e|].
  { cbn [files called log with_files stat_throws remove_throws fs_calls output].
    repeat split; try done.
    exists [call_existsSync itemPath; call_statSync itemPath].
    rewrite <-app_assoc. split; [done|]. split; [done|].
    intros q []%not_elem_of_nil. }
  destruct s;
    cbn [isDirectory files called log with_files stat_throws remove_throws
         fs_calls output];
    destruct (remove_throws m itemPath) as [r|];
    cbn [files called log with_files stat_throws remove_throws fs_calls output];
    (split; [done|]); (split; [done|]).
  - split.
    { exists [call_existsSync itemPath; call_statSync itemPath;
              call_unlinkSync itemPath].
      rewrite <-!app_assoc. split; [done|]. split; [done|].
      by intros q ->%list_elem_of_singleton. }
    done.
  - split.
    { exists [call_existsSync itemPath; call_statSync itemPath;
              call_unlinkSync itemPath].
      rewrite <-!app_assoc. split; [done|]. split; [done|].
      by intros q ->%list_elem_of_singleton. }
    split; [apply delete_subseteq|].
    split; [by intros q Hne _; apply lookup_delete_ne|].
    split; [apply lookup_delete_eq|done].
  - split.
    { exists [call_existsSync itemPath; call_statSync itemPath;
              call_rmSync itemPath].
      rewrite <-!app_assoc. split; [done|]. split; [done|].
      by intros q ->%list_elem_of_singleton. }
    split; [apply map_filter_subseteq|].
    split; [|done].
    intros q Hne Hin. destruct (files m !! q) as [x|] eqn:Eq.
    + apply map_lookup_filter_Some. split; [done|]. simpl. rewrite Hin.
      by intros [? _].
    + apply map_lookup_filter_None. by left.
  - split.
    { exists [call_existsSync itemPath; call_statSync itemPath;
              call_rmSync itemPath].
      rewrite <-!app_assoc. split; [done|]. split; [done|].
      by intros q ->%list_elem_of_singleton. }
    split; [apply map_filter_subseteq|].
    split.
    { intros q Hne Hin. destruct (files m !! q) as [x|] eqn:Eq.
      - by apply map_lookup_filter_Some.
      - apply map_lookup_filter_None. by left. }
    split; [|done].
    apply map_lookup_filter_None. right. intros x _ [Hne _]. by apply Hne.
Qed.

Lemma absent_stays_absent (fs fs' : filesystem) p :
  fs' ⊆ fs → fs !! p = None → fs' !! p = None.
Proof.
  intros Hsub Hp. destruct (fs' !! p) as [x|] eqn:E; [|done].
  eapply lookup_weaken in E; [|exact Hsub]. by rewrite Hp in E.
Qed.

Section loop.
Variable join : string → string → string.
Variable cwd : string.

(** The loop hands the items to [removeRecursive] one after the other and
    stops at the first that throws; every item that returned is counted once
    and gone. *)
Lemma remove_items_spec items o :
  error o = None →
  let o' := remove_items join cwd items o in
  let paths := join cwd <$> items in
  (stat_throws (final o') = stat_throws (final o)
   ∧ remove_throws (final o') = remove_throws (final o))
  ∧ (∃ n new,
       (n ≤ length items)%nat
       ∧ fs_calls (final o') = fs_calls (final o) ++ new
       ∧ checked new = take n paths
       ∧ (∀ q, q ∈ removals new → q ∈ take n paths)
       ∧ (removedCount o' + skippedCount o'
          + match error o' with Some _ => 1 | None => 0 end
          = removedCount o + skippedCount o + n)%nat
       ∧ (error o' = None → n = length items))
  ∧ files (final o') ⊆ files (final o)
  ∧ (∀ p, ¬ listed paths p → files (final o') !! p = files (final o) !! p)
  ∧ (error o' = None → ∀ p, p ∈ paths → files (final o') !! p = None)
  ∧ (error o' = None →
     ∃ ls, output (final o') = output (final o) ++ ls
           ∧ length ls = length items)
  ∧ (∀ e, error o' = Some e → ∃ ls, output (final o') = output (final o) ++ ls).
Proof.
  revert o. induction items as [|item items IH]; intros o Hok; cbn zeta.
  { cbn [remove_items fmap list_fmap length]. split; [done|].
    split.
    { exists 0%nat, []. rewrite app_nil_r, Hok. repeat split; try done; lia. }
    split; [done|]. split; [done|].
    split; [by intros _ p ?%not_elem_of_nil|].
    split; [intros _; exists []; by rewrite app_nil_r|].
    intros e He. by rewrite Hok in He. }
  cbn [remove_items]. csimpl.
  pose proof (removeRecursive_spec (join cwd item) (final o)) as H1.
  destruct (removeRecursive (join cwd item) (final o)) as [m1 [e|removed]].
  - destruct H1 as (Hst & Hrm & (new & Hcalls & Hchecked & Hrem) & Hsub & Hframe & Hout).
    cbn [final removedCount skippedCount error].
    split; [done|]. split.
    { exists 1%nat, new. cbn [take]. rewrite take_0.
      repeat split; try done; try lia.
      intros q Hq. apply Hrem in Hq as ->. left. }
    split; [done|]. split.
    { intros p Hp. apply Hframe.
      - intros ->. apply Hp. exists (join cwd item). split; [left|by left].
      - destruct (inside (join cwd item) p) eqn:E; [|done].
        exfalso. apply Hp. exists (join cwd item). split; [left|by right]. }
    split; [done|]. split; [done|].
    intros e' _. exists []. by rewrite app_nil_r.
  - destruct H1 as (Hst & Hrm & (new & Hcalls & Hchecked & Hrem) & Hsub & Hframe
                    & Hgone & Hremoved & Hout).
    match goal with |- context [remove_items _ _ _ ?o1] =>
      specialize (IH o1 eq_refl); set (o' := remove_items join cwd items o1) in *
    end.
    cbn zeta in IH. cbn [final removedCount skippedCount error] in IH.
    destruct IH as ((Hst' & Hrm') & (n & new' & Hn & Hcalls' & Hchecked' & Hrem'
                     & Hcount & Hall) & Hsub' & Hframe' & Hgone' & Hout' & Herr').
    split; [by rewrite Hst', Hrm'|]. split.
    { exists (S n), (new ++ new'). cbn [take].
      split; [lia|]. split; [by rewrite Hcalls', Hcalls, <-app_assoc|].
      split; [by rewrite checked_app, Hchecked, Hchecked'|].
      split.
      { intros q. rewrite removals_app, elem_of_app. intros [Hq|Hq].
        - apply Hrem in Hq as ->. left.
        - right. by apply Hrem'. }
      split; [destruct removed; lia|]. intros He. by rewrite (Hall He). }
    split; [by etransitivity|]. split.
    { intros p Hp. rewrite Hframe'.
      - apply Hframe.
        + intros ->. apply Hp. exists (join cwd item). split; [left|by left].
        + destruct (inside (join cwd item) p) eqn:E; [|done].
          exfalso. apply Hp. exists (join cwd item). split; [left|by right].
      - intros (q & Hq & Hpq). apply Hp. exists q. split; [by right|done]. }
    split.
    { intros He p [->|Hin]%elem_of_cons; [|by apply Hgone'].
      by eapply absent_stays_absent. }
    split.
    { intros He. destruct (Hout' He) as (ls & -> & Hlen).
      eexists (_ :: ls). rewrite Hout, <-app_assoc. split; [done|].
      simpl. by rewrite Hlen. }
    intros e He. destruct (Herr' e He) as (ls & ->).
    eexists (_ :: ls). by rewrite Hout, <-app_assoc.
Qed.
End loop.

(** A confirmed run that ends without an error leaves none of the six
    paths behind. *)
Lemma cleanup_run_removes_all (toLowerCase : string → string)
    (join : string → string → string) (cwd typed : string) (m : machine) :
  toLowerCase typed = "yes" →
  error (main toLowerCase join cwd typed m) = None →
  ∀ p, p ∈ join cwd <$> itemsToRemove →
       files (final (main toLowerCase join cwd typed m)) !! p = None.
Proof.
  intros Hyes. unfold main, promptUser.
  rewrite bool_decide_eq_true_2 by done.
  pose proof (remove_items_spec join cwd itemsToRemove
    {| final := log starting_cleanup m;
       removedCount := 0; skippedCount := 0; error := None |} eq_refl) as H.
  cbn zeta in H.
  set (o := remove_items join cwd itemsToRemove _) in *.
  destruct H as (_ & _ & _ & _ & Hgone & _).
  destruct (error o) eqn:He; cbn [error final files log]; [done|].
  intros _. by apply Hgone.
Qed.

(** C10 as amended: unless the lower-cased answer is exactly [yes], the
    script writes the cancellation line and makes no [fs] call at all.  When
    it is [yes], the paths handed to [removeRecursive] are the six items of
    [itemsToRemove] under the working directory, in order, up to the first
    whose removal throws; only those paths are handed to [rmSync] or
    [unlinkSync]; nothing is created and nothing outside the six paths
    changes.  When no call throws, all six are handed over, each is counted
    as removed or skipped (six in all) and none of them exists afterwards.
    When a call throws, the run ends there with exit code 1, fewer than six
    counted, and the error as its last line. *)
Theorem cleanup_needs_yes (toLowerCase : string → string)
    (join : string → string → string) (cwd typed : string) (m : machine) :
  let o := main toLowerCase join cwd typed m in
  let paths := join cwd <$> itemsToRemove in
  if bool_decide (toLowerCase typed = "yes")
  then (∃ n, (n ≤ 6)%nat
             ∧ attempted m o = take n paths
             ∧ (removedCount o + skippedCount o
                + match error o with Some _ => 1 | None => 0 end = n)%nat)
       ∧ (∀ q, q ∈ removals (calls_of_run m o) → q ∈ attempted m o)
       ∧ files (final o) ⊆ files m
       ∧ (∀ p, ¬ listed paths p → files (final o) !! p = files m !! p)
       ∧ match error o with
         | None =>
             attempted m o = paths
             ∧ (removedCount o + skippedCount o = 6)%nat
             ∧ (∀ p, p ∈ paths → files (final o) !! p = None)
             ∧ last (output (final o))
               = Some (cleanup_complete (removedCount o) (skippedCount o))
             ∧ exit_code o = 0
         | Some e =>
             (removedCount o + skippedCount o < 6)%nat
             ∧ last (output (final o)) = Some (error_line e)
             ∧ exit_code o = 1
         end
  else final o = log cleanup_cancelled m
       ∧ calls_of_run m o = []
       ∧ attempted m o = []
       ∧ error o = None
       ∧ removedCount o = 0%nat ∧ skippedCount o = 0%nat.
Proof.
  unfold main, promptUser, attempted, calls_of_run, exit_code. cbn zeta.
  case_bool_decide as Hyes.
  2:{ cbn [final log fs_calls error removedCount skippedCount].
      by rewrite drop_all. }
  pose proof (remove_items_spec join cwd itemsToRemove
    {| final := log starting_cleanup m;
       removedCount := 0; skippedCount := 0; error := None |} eq_refl) as H.
  cbn zeta in H.
  set (o := remove_items join cwd itemsToRemove _) in *.
  cbn [final log fs_calls error removedCount skippedCount files] in H.
  destruct H as (_ & (n & new & Hn & Hcalls & Hchecked & Hrem & Hcount & Hall)
                 & Hsub & Hframe & Hgone & Hout & Herr).
  assert (drop (length (fs_calls m)) (fs_calls (final o)) = new) as Hnew
    by (by rewrite Hcalls, drop_app_length).
  destruct (error o) as [e|] eqn:He;
    cbn [final log fs_calls error removedCount skippedCount files output];
    rewrite Hnew.
  - split; [exists n; split; [exact Hn|split; [done|simpl in *; lia]]|].
    split; [by intros q Hq; rewrite Hchecked; apply Hrem|].
    split; [done|]. split; [done|].
    split; [simpl in *; lia|]. split; [by rewrite last_snoc|done].
  - specialize (Hall eq_refl). subst n.
    rewrite take_ge in Hchecked by (by rewrite length_fmap).
    split; [exists 6%nat; split; [done|]; split; [by rewrite Hchecked|simpl in *; lia]|].
    split; [by intros q Hq; rewrite Hchecked; apply Hrem in Hq;
            rewrite take_ge in Hq by (by rewrite length_fmap)|].
    split; [done|]. split; [done|]. split; [done|].
    split; [simpl in *; lia|]. split; [by apply Hgone|].
    split; [by rewrite last_snoc|done].
Qed.

(** C10 fails on the code: on a checkout whose backend directory may not be
    removed the answer [yes] hands only the first of the six paths to
    [removeRecursive]; [rmSync] throws, nothing is counted, the lock file
    stays, and part of the directory is gone. *)
Lemma cleanup_stops_at_refused_removal :
  let o := main id posix_join "/repo" "yes" locked_checkout in
  attempted locked_checkout o = ["/repo/backend"]
  ∧ attempted locked_checkout o ≠ posix_join "/repo" <$> itemsToRemove
  ∧ (removedCount o + skippedCount o)%nat = 0%nat
  ∧ (removedCount o + skippedCount o ≠ 6)%nat
  ∧ error o = Some "EACCES: permission denied"
  ∧ output (final o)
    = [starting_cleanup; error_line "EACCES: permission denied"]
  ∧ (λ p, files (final o) !! p)
      <$> [ "/repo/backend"; "/repo/backend/src/main.rs"; "/repo/Cargo.lock" ]
    = [ Some directory; None; Some file ].
Proof. vm_compute. repeat split; done. Qed.

Example cleanup_of_checkout :
  let o := main id posix_join "/repo" "yes" (obliging checkout) in
  output (final o)
  = [ starting_cleanup;
      removed_directory "/repo/backend";
      not_found "/repo/clients/ts-sdk";
      not_found "/repo/clients/ts-sdk-tests";
      not_found "/repo/Cargo.toml";
      removed_file "/repo/Cargo.lock";
      not_found "/repo/docker-compose.yml";
      cleanup_complete 2 4 ]
  ∧ removals (fs_calls (final o)) = [ "/repo/backend"; "/repo/Cargo.lock" ]
  ∧ (λ p, files (final o) !! p)
      <$> [ "/repo/backend"; "/repo/backend/src/main.rs"; "/repo/Cargo.lock";
            "/repo/backend-notes.md"; "/repo/clients/react-server";
            "/repo/README.md" ]
    = [ None; None; None; Some file; Some directory; Some file ]
  ∧ size (files (final o)) = 3%nat.
Proof. vm_compute. done. Qed.

Example cleanup_declined :
  main id posix_join "/repo" " yes" (obliging checkout)
  = {| final := log cleanup_cancelled (obliging checkout);
       removedCount := 0; skippedCount := 0; error := None |}.
Proof. reflexivity. Qed.

End CleanupProps.

(** ** AppDataContext *)
Module AppDataProps.
Import AppData.

(** C7: when the posts query comes back with a provider error object,
    fetchPosts writes it to the console and returns with [posts] as it was;
    the query has been sent once, the database is untouched, and nothing else
    happens. *)
Theorem fetchPosts_error_logged_once
    (posts : option (list posts_row)) (w : world) (e : string) :
  failing w (length (calls w)) = Some (returned e) →
  let '(posts', w') := fetchPosts posts w in
  posts' = posts
  ∧ events w' = events w ++ [console_error "Error fetching posts:" (returned e)]
  ∧ calls w' = calls w ++ [posts_select_published 20]
  ∧ db w' = db w.
Proof. intros Hfail. unfold fetchPosts, query. by rewrite Hfail. Qed.

(** The same on a backend that answers every call with a timeout error. *)
Lemma fetchPosts_error_logged_once_witness :
  let '(posts', w') := fetchPosts None (unreachable "timeout") in
  posts' = None
  ∧ events w' = [console_error "Error fetching posts:" (returned "timeout")]
  ∧ calls w' = [posts_select_published 20]
  ∧ db w' = Db.empty.
Proof.
  exact (fetchPosts_error_logged_once None (unreachable "timeout") "timeout"
           eq_refl).
Defined.

(** Whatever the outcome, one invocation sends the query exactly once. *)
Lemma fetchPosts_one_call posts w :
  calls (fetchPosts posts w).2 = calls w ++ [posts_select_published 20].
Proof.
  unfold fetchPosts, query.
  by destruct (failing w (length (calls w))) as [[]|].
Qed.

End AppDataProps.

(** ** AuthProvider *)
Module AuthProps.
Import Auth.

(** C8: after the listener has handled an auth event, the stored session is
    the delivered one and [user] is its user (null without a session);
    without a session both profiles are null and no query is sent; with a
    session the [users] row of the session's user id has been requested and
    the rest of [loadUserProfile] waits for the response. *)
Theorem auth_state_mirrors_session (event : AuthChangeEvent)
    (session : option Session) (rt : runtime) :
  let rt' := onAuthStateChange event session rt in
  st_session (st rt') = session
  ∧ st_user (st rt') = user <$> session
  ∧ st_loading (st rt') = false
  ∧ match session with
    | Some s =>
        calls (w rt') = calls (w rt) ++ [users_select (uid (user s))]
        ∧ ∃ response,
            pending rt' = pending rt ++ [awaiting_users (uid (user s)) response]
    | None =>
        st_userProfile (st rt') = None
        ∧ st_creatorProfile (st rt') = None
        ∧ calls (w rt') = calls (w rt)
        ∧ pending rt' = pending rt
    end.
Proof.
  destruct session as [s|]; unfold onAuthStateChange; simpl.
  - unfold loadUserProfile, query; simpl.
    destruct (failing (w rt) (length (calls (w rt)))); simpl; eauto 10.
  - done.
Qed.

(** A sign-in followed by the delivery of both responses loads the user row
    and, for a creator, the creator profile row. *)
Example sign_in_loads_profiles :
  let session :=
    {| user := {| uid := 1%N; email := "asha@example.org" |};
       access_token := "token" |} in
  let rt0 :=
    {| st := {| st_user := None; st_userProfile := None;
                st_creatorProfile := None; st_session := None;
                st_loading := true; initialLoadCompleteRef := false |};
       w := reliable Triggers.two_followers;
       pending := [] |} in
  let rt := deliver 0 (deliver 0 (onAuthStateChange SIGNED_IN (Some session) rt0)) in
  (u_id <$> st_userProfile (st rt)) = Some 1%N
  ∧ (cp_followers_count <$> st_creatorProfile (st rt)) = Some (Some 2)
  ∧ calls (w rt) = [users_select 1%N; creator_profiles_select 1%N]
  ∧ pending rt = [].
Proof. vm_compute. done. Qed.

(** The listener does not cancel a load in flight: the response to a query
    sent at sign-in still sets [userProfile] when it arrives after the
    sign-out has been handled. *)
Example response_after_sign_out :
  let session :=
    {| user := {| uid := 1%N; email := "asha@example.org" |};
       access_token := "token" |} in
  let rt0 :=
    {| st := {| st_user := None; st_userProfile := None;
                st_creatorProfile := None; st_session := None;
                st_loading := true; initialLoadCompleteRef := false |};
       w := reliable Triggers.two_followers;
       pending := [] |} in
  let signed_out :=
    onAuthStateChange SIGNED_OUT None
      (onAuthStateChange SIGNED_IN (Some session) rt0) in
  let rt := deliver 0 signed_out in
  st_user (st signed_out) = None
  ∧ st_userProfile (st signed_out) = None
  ∧ st_user (st rt) = None
  ∧ (u_id <$> st_userProfile (st rt)) = Some 1%N.
Proof. vm_compute. done. Qed.

End AuthProps.

(** ** Client-side counters *)
Module ClientProps.
Import CreatorProfilePage.

(** C3 fails on the code: a visitor whose page still shows 0 followers
    follows a creator who has 2; the trigger makes the stored counter 3, the
    page shows 0 + 1 = 1. *)
Lemma handleFollow_shows_client_side_count :
  let '(st', w') :=
    handleFollow (Some {| uid := 5%N; email := "fan@example.org" |}) (Some 1%N)
      page_loaded_earlier (reliable Triggers.two_followers) in
  shown_followers st' = Some 1
  ∧ stored_followers 1%N (db w') = [Some 3]
  ∧ ¬ shows_stored_followers 1%N st' (db w').
Proof.
  vm_compute. split; [done|]. split; [done|].
  intros H. specialize (H 1 eq_refl).
  apply list_elem_of_singleton in H. discriminate.
Qed.

(** C3 as amended: the page never reads a counter back.  After a follow or
    unfollow that went through, the shown follower count is the one shown
    before plus one, respectively minus one but not below zero; after support
    that went through, the shown earnings grow by the amount and the supporter
    count by one; after a like or unlike that went through, the shown like
    count is the one before plus one, respectively minus one but not below
    zero.  When the handler returns early or the call fails, the shown values
    stay.  For the like button, whose statement can fail in the database
    too, this holds on whatever database carries the statements out. *)
Theorem client_counters_computed_locally :
  (∀ user creatorId st w,
     creatorProfile (handleFollow user creatorId st w).1
     = if bool_decide (is_Some user ∧ is_Some creatorId) && call_succeeds w
       then (λ cp, with_followers_count
                     (if isFollowing st then Z.max 0 (followers_count cp - 1)
                      else followers_count cp + 1) cp) <$> creatorProfile st
       else creatorProfile st)
  ∧ (∀ parseFloat gen_random_uuid user creatorId st w,
     creatorProfile
       (handleSupport parseFloat gen_random_uuid user creatorId st w).1
     = match parseFloat (supportAmount st) with
       | Some amount =>
           if bool_decide (is_Some user ∧ is_Some creatorId
                           ∧ supportAmount st ≠ "")
              && (0 <? amount) && call_succeeds w
           then (λ cp, with_support (total_earnings cp + amount)
                         (supporters_count cp + 1) cp) <$> creatorProfile st
           else creatorProfile st
       | None => creatorProfile st
       end)
  ∧ (∀ DELETE_WHERE INSERT user post_id st w,
     PostCard.likesCount
       (PostCard.handleLike DELETE_WHERE INSERT user post_id st w).1
     = match user with
       | Some u =>
           if negb (PostCard.isLiking st)
              && negb (PostCard.lookup_thrown w)
              && second_call_succeeds w
              && PostCard.statement_completes DELETE_WHERE INSERT
                   (uid u) post_id w
           then if PostCard.found_like (uid u) post_id w
                then Z.max 0 (PostCard.likesCount st - 1)
                else PostCard.likesCount st + 1
           else PostCard.likesCount st
       | None => PostCard.likesCount st
       end).
Proof.
  split; [|split].
  - intros [u|] [c|] st w; simpl; try done.
    unfold call_succeeds, execute.
    destruct (isFollowing st);
      destruct (failing w (length (calls w))); simpl; try done;
      destruct (creatorProfile st) eqn:E; simpl; by rewrite ?E.
  - intros parseFloat gen [u|] [c|] st w; unfold handleSupport;
      destruct (parseFloat (supportAmount st)) as [amount|] eqn:Hp;
      destruct (supportAmount st) eqn:Hs; rewrite ?Hp; simpl; try done.
    unfold call_succeeds, execute.
    rewrite (Z.ltb_antisym amount 0).
    destruct (amount <=? 0); simpl; [done|].
    destruct (failing w (length (calls w))); simpl; [done|].
    destruct (creatorProfile st) eqn:E; simpl; by rewrite ?E.
  - intros DELETE_WHERE INSERT [u|] post_id st w; [|done].
    unfold PostCard.handleLike, PostCard.statement_completes,
      PostCard.found_like, PostCard.lookup_thrown,
      call_succeeds, second_call_succeeds, query, attempt.
    destruct (PostCard.isLiking st); simpl; [done|].
    destruct (failing w (length (calls w))) as [[e|e]|] eqn:Hsel; simpl;
      rewrite ?length_app, ?Nat.add_1_r; simpl.
    + destruct (failing w (S (length (calls w)))) as [[]|]; simpl; try done.
      by destruct (INSERT _ _).
    + done.
    + destruct (single _) as [r|] eqn:Hone; simpl;
        rewrite ?length_app, ?Nat.add_1_r; simpl;
        destruct (failing w (S (length (calls w)))) as [[]|]; simpl; try done.
      * by destruct (DELETE_WHERE _ _).
      * by destruct (INSERT _ _).
Qed.

(** Support is shown as earned at once: the page adds the amount it parsed
    to the earnings it holds, while the row it has just inserted is still
    pending and adds nothing to the creator's completed earnings. *)
Lemma handleSupport_shows_pending_amount
    (parseFloat : string → option Z) (gen_random_uuid : database → uuid) :
  parseFloat "100" = Some 100 →
  let '(st', w') :=
    handleSupport parseFloat gen_random_uuid
      (Some {| uid := 5%N; email := "fan@example.org" |}) (Some 1%N)
      page_loaded_earlier (reliable Triggers.two_followers) in
  (total_earnings <$> creatorProfile st') = Some 100
  ∧ (supporters_count <$> creatorProfile st') = Some 1
  ∧ (st_status <$> supporter_transactions (db w')) = [st_pending]
  ∧ Stats.completed_earnings (db w') 1%N = 0.
Proof. intros Hparse. unfold handleSupport; simpl. by rewrite Hparse. Qed.

End ClientProps.

(** ** increment_post_views *)
Module ViewsProps.
Import Views.

Lemma viewed_zero post_uuid p : viewed 0 post_uuid p = p.
Proof.
  unfold viewed. destruct (N.eqb (p_id p) post_uuid); [|done].
  destruct p as [? ? ? ? ? ? ? ? ? ? ? ? [v|]]; [|done].
  unfold set_p_views_count; simpl. do 2 f_equal. lia.
Qed.

Lemma viewed_once_more n post_uuid p :
  (if N.eqb (p_id (viewed n post_uuid p)) post_uuid
   then set_p_views_count
          (plus (p_views_count (viewed n post_uuid p)) (Some 1))
          (viewed n post_uuid p)
   else viewed n post_uuid p)
  = viewed (S n) post_uuid p.
Proof.
  unfold viewed. destruct (N.eqb (p_id p) post_uuid) eqn:E; simpl; rewrite E; [|done].
  destruct p as [? ? ? ? ? ? ? ? ? ? ? ? [v|]]; [|done].
  unfold set_p_views_count; simpl. do 2 f_equal. lia.
Qed.

(** X7: [n] calls of increment_post_views add [n] to the view counter of the
    post with the given id, leave a NULL counter NULL, and change no other
    post, column or table. *)
Theorem increment_post_views_counts_calls post_uuid (n : nat) db :
  Nat.iter n (increment_post_views post_uuid) db
  = with_posts (viewed n post_uuid <$> posts db) db.
Proof.
  induction n as [|n IH].
  - simpl. rewrite (list_fmap_ext (viewed 0 post_uuid) id (posts db))
      by (intros i p _; apply viewed_zero).
    rewrite list_fmap_id. by destruct db.
  - rewrite Nat.iter_succ, IH. unfold increment_post_views, UPDATE_WHERE.
    cbn [posts with_posts]. rewrite <-list_fmap_compose. unfold with_posts.
    cbn [users creator_profiles posts series follows post_likes post_comments
         supporter_transactions subscriptions].
    f_equal. apply list_fmap_ext. intros i p _. apply viewed_once_more.
Qed.

Example three_views_of_sample :
  (λ p, (p_id p, p_views_count p))
    <$> posts (Nat.iter 3 (increment_post_views 12%N) Feed.sample)
  = [ (11%N, Some 9); (12%N, Some 12); (13%N, Some 9); (14%N, Some 9) ].
Proof. vm_compute. reflexivity. Qed.

End ViewsProps.

(** ** search_creators and search_series *)
Module SearchProps.
Import Search.

Lemma then_by_opp c1 c2 d1 d2 :
  c1 = CompOpp d1 → c2 = CompOpp d2 → then_by c1 c2 = CompOpp (then_by d1 d2).
Proof. intros -> ->. by destruct d1. Qed.

Lemma bool_desc_opp a b : bool_desc a b = CompOpp (bool_desc b a).
Proof. by destruct a, b. Qed.

Lemma int_desc_opp a b : int_desc a b = CompOpp (int_desc b a).
Proof. destruct a, b; simpl; try done. apply Z.compare_antisym. Qed.

Lemma total_of_opp {A} (cmp : A → A → comparison) :
  (∀ a b, cmp a b = CompOpp (cmp b a)) → Total (λ a b, cmp a b ≠ Gt).
Proof.
  intros H a b. rewrite (H b a).
  destruct (cmp a b); simpl; [left|left|right]; done.
Qed.

Lemma is_true_AND a b : is_true (AND a b) = true ↔ a = Some true ∧ b = Some true.
Proof. destruct a as [[]|], b as [[]|]; simpl; intuition congruence. Qed.

Lemma OR_true a b : OR a b = Some true ↔ a = Some true ∨ b = Some true.
Proof. destruct a as [[]|], b as [[]|]; simpl; intuition congruence. Qed.

Lemma AND_true a b : AND a b = Some true ↔ a = Some true ∧ b = Some true.
Proof. destruct a as [[]|], b as [[]|]; simpl; intuition congruence. Qed.

Lemma matches_true ILIKE column search_query :
  matches ILIKE column search_query = Some true
  ↔ ∃ t, column = Some t ∧ ILIKE t ("%" +:+ search_query +:+ "%") = true.
Proof.
  unfold matches. destruct column as [t|]; simpl.
  - split; [intros [= H]; by exists t|]. by intros (? & [= <-] & ->).
  - split; [done|]. by intros (? & ? & _).
Qed.

Lemma Sorted_take {A} (R : relation A) n l : Sorted R l → Sorted R (take n l).
Proof.
  intros H. revert n.
  induction H as [|x l Hl IH Hx]; intros [|n]; simpl; try constructor.
  - apply IH.
  - destruct Hx; destruct n; simpl; constructor; done.
Qed.

Lemma Sorted_fmap_Forall {A B} (f : A → B) (R1 : relation A) (R2 : relation B)
    (P : A → Prop) l :
  (∀ x y, P x → P y → R1 x y → R2 (f x) (f y)) →
  Forall P l → Sorted R1 l → Sorted R2 (f <$> l).
Proof.
  intros HR HP Hs. induction Hs as [|x l Hl IH Hx]; csimpl; [constructor|].
  apply Forall_cons in HP as [Px Pl]. constructor; [by apply IH|].
  destruct Hx as [|y l' Hxy]; csimpl; constructor.
  apply Forall_cons in Pl as [Py _]. by apply HR.
Qed.

#[local] Instance verified_first_trans : Transitive verified_first.
Proof. intros a b c. unfold verified_first. tauto. Qed.

#[local] Instance more_posts_first_trans : Transitive more_posts_first.
Proof. intros a b c. unfold more_posts_first. lia. Qed.

Section search_creators.
Variable ILIKE : string → string → bool.
Variable text_compare : string → string → comparison.
Hypothesis text_compare_opp : ∀ a b, text_compare a b = CompOpp (text_compare b a).

Lemma creators_order_total : Total (creators_order text_compare).
Proof.
  apply total_of_opp. intros a b. unfold creators_compare.
  apply then_by_opp; [apply bool_desc_opp|].
  apply then_by_opp; [apply int_desc_opp|apply text_compare_opp].
Qed.

Lemma creators_order_verified a b :
  creators_order text_compare a b →
  verified_first (creators_select a) (creators_select b).
Proof.
  destruct a as [ua cpa], b as [ub cpb].
  unfold creators_order, creators_compare, verified_first; simpl.
  destruct (u_is_verified (u_row ua)), (u_is_verified (u_row ub)); simpl; done.
Qed.

Lemma creators_found_matches users creator_profiles search_query u cp :
  (u, cp) ∈ creators_found ILIKE users creator_profiles search_query →
  u ∈ users
  ∧ u_role (u_row u) ≠ role_user
  ∧ creator_matches ILIKE creator_profiles search_query u.
Proof.
  unfold creators_found, creators_from.
  rewrite FeedProps.elem_of_filter_bool, StatsProps.elem_of_LEFT_JOIN.
  intros [[Hu Hcp] Hw]. split; [done|].
  unfold creators_where in Hw. apply is_true_AND in Hw as [Hrole Hany].
  split.
  { intros E. rewrite E in Hrole. done. }
  unfold creator_matches; cbn zeta.
  rewrite !OR_true, !matches_true in Hany.
  destruct Hany as [[[(t & [= <-] & Ht)|(t & Hd & Ht)]|(t & Hb & Ht)]|(t & Hc & Ht)].
  - by left.
  - right; left. by exists t.
  - right; right. destruct cp as [cp|]; [|done]. simpl in Hb.
    apply StatsProps.elem_of_opts, FeedProps.elem_of_filter_bool in Hcp as [Hin Hon].
    apply N.eqb_eq in Hon. exists cp. split; [done|]. split; [done|].
    left. by exists t.
  - right; right. destruct cp as [cp|]; [|done]. simpl in Hc.
    apply StatsProps.elem_of_opts, FeedProps.elem_of_filter_bool in Hcp as [Hin Hon].
    apply N.eqb_eq in Hon. exists cp. split; [done|]. split; [done|].
    right. by exists t.
Qed.

(** X8: search_creators rejects a negative limit and otherwise returns at
    most [search_limit] rows; every row is a user with role creator or admin
    whose display name or description, or the bio or category of a profile
    row of theirs, matches the pattern; a user with role user never appears;
    verified creators come before the others; and the rows are the first
    [search_limit] of all matching rows in the ORDER BY order. *)
Theorem search_creators_finds_matching_creators users creator_profiles
    search_query search_limit :
  match search_creators ILIKE text_compare users creator_profiles
          search_query search_limit with
  | Error _ => search_limit < 0
  | Rows rs =>
      0 ≤ search_limit
      ∧ Z.of_nat (length rs) ≤ search_limit
      ∧ Forall (λ r, ∃ u,
          u ∈ users
          ∧ sc_user_id r = u_id (u_row u)
          ∧ sc_display_name r = u_display_name (u_row u)
          ∧ u_role (u_row u) ≠ role_user
          ∧ creator_matches ILIKE creator_profiles search_query u) rs
      ∧ StronglySorted verified_first rs
      ∧ ∃ all,
          all ≡ₚ creators_found ILIKE users creator_profiles search_query
          ∧ Sorted (creators_order text_compare) all
          ∧ rs = creators_select <$> take (Z.to_nat search_limit) all
  end.
Proof.
  unfold search_creators. destruct (search_limit <? 0) eqn:Hlim.
  { by apply Z.ltb_lt. }
  apply Z.ltb_ge in Hlim.
  set (found := creators_found ILIKE users creator_profiles search_query).
  pose proof (merge_sort_Permutation (creators_order text_compare) found) as Hperm.
  pose proof (Sorted_merge_sort (creators_order text_compare)
                (Total0 := creators_order_total) found) as Hsorted.
  split; [done|]. split; [|split; [|split]].
  - rewrite length_fmap, length_take. lia.
  - apply Forall_fmap, Forall_forall. intros [u cp] Hj.
    apply subseteq_take in Hj. rewrite Hperm in Hj.
    apply creators_found_matches in Hj as (Hu & Hrole & Hm).
    by exists u.
  - apply Sorted_StronglySorted; [apply _|].
    eapply Sorted_fmap; [|by apply Sorted_take].
    apply creators_order_verified.
  - by eexists.
Qed.
End search_creators.

Lemma search_creators_finds_matching_creators_witness :
  (∀ a b, String.compare a b = CompOpp (String.compare b a))
  ∧ match search_creators simple_ILIKE String.compare
            sample_users sample_profiles "art" 20 with
    | Error _ => False
    | Rows rs => Z.of_nat (length rs) ≤ 20 ∧ StronglySorted verified_first rs
    end.
Proof.
  split; [exact String.compare_antisym|].
  pose proof (search_creators_finds_matching_creators simple_ILIKE
    String.compare String.compare_antisym sample_users sample_profiles
    "art" 20) as H.
  destruct (search_creators simple_ILIKE String.compare
              sample_users sample_profiles "art" 20) as [rs|msg].
  - destruct H as (_ & Hlen & _ & Hs & _). by split.
  - lia.
Defined.

(** The plain user is left out although the name matches; the creator
    without a profile row shows 0 followers and is listed before the
    unverified creator with 100. *)
Example search_creators_of_sample :
  (λ r, (sc_user_id r, sc_is_verified r, sc_followers_count r))
    <$> match search_creators simple_ILIKE String.compare
                sample_users sample_profiles "art" 20 with
        | Rows rs => rs
        | Error _ => []
        end
  = [ (1%N, true, 5); (4%N, false, 0); (2%N, false, 100) ].
Proof. vm_compute. reflexivity. Qed.

Section search_series.
Variable ILIKE : string → string → bool.

Lemma series_order_total : Total series_order.
Proof.
  apply total_of_opp. intros a b. unfold series_compare.
  apply then_by_opp; [apply int_desc_opp|apply Z.compare_antisym].
Qed.

Lemma series_order_more_posts a b :
  s_posts_count (s_row a.1) ≠ None → s_posts_count (s_row b.1) ≠ None →
  series_order a b → more_posts_first (series_select a) (series_select b).
Proof.
  destruct a as [sa ua], b as [sb ub].
  unfold series_order, series_compare, more_posts_first; simpl.
  destruct (s_posts_count (s_row sa)) as [x|], (s_posts_count (s_row sb)) as [y|];
    try done; simpl.
  intros _ _ H. destruct (Z.compare_spec y x); simpl in H; [lia|lia|done].
Qed.

Lemma series_found_matches series users search_query s u :
  (s, u) ∈ series_found ILIKE series users search_query →
  s ∈ series ∧ u ∈ users
  ∧ s_user_id (s_row s) = u_id (u_row u)
  ∧ s_is_published s = true
  ∧ s_deleted_at (s_row s) = None
  ∧ series_matches ILIKE search_query s u.
Proof.
  unfold series_found, series_from.
  rewrite FeedProps.elem_of_filter_bool, FeedProps.elem_of_INNER_JOIN.
  intros [(Hs & Hu & Hon) Hw]. apply N.eqb_eq in Hon.
  unfold series_where in Hw. apply is_true_AND in Hw as [Hvis Hany].
  apply AND_true in Hvis as [[= Hpub] [= Hdel]].
  apply FeedProps.IS_NULL_true in Hdel.
  do 5 (split; [done|]).
  unfold series_matches; cbn zeta.
  rewrite !OR_true, !matches_true in Hany.
  destruct Hany as [[[(t & [= <-] & Ht)|(t & Hd & Ht)]|(t & Hc & Ht)]|(t & [= <-] & Ht)].
  - by left.
  - right; left. by exists t.
  - right; right; left. by exists t.
  - by right; right; right.
Qed.

(** X9: search_series rejects a negative limit and otherwise returns at most
    [search_limit] rows; every row is a published, non-deleted series joined
    with its creator, and the pattern matches its title, description or
    category or the creator's name; when no series has a NULL posts counter
    the rows come with the larger counter first; and the rows are the first
    [search_limit] of all matching rows in the ORDER BY order. *)
Theorem search_series_finds_published_series series users search_query
    search_limit :
  match search_series ILIKE series users search_query search_limit with
  | Error _ => search_limit < 0
  | Rows rs =>
      0 ≤ search_limit
      ∧ Z.of_nat (length rs) ≤ search_limit
      ∧ Forall (λ r, ∃ s u,
          s ∈ series ∧ u ∈ users
          ∧ s_user_id (s_row s) = u_id (u_row u)
          ∧ r = series_select (s, u)
          ∧ s_is_published s = true
          ∧ s_deleted_at (s_row s) = None
          ∧ series_matches ILIKE search_query s u) rs
      ∧ (Forall (λ s, s_posts_count (s_row s) ≠ None) series →
         StronglySorted more_posts_first rs)
      ∧ ∃ all,
          all ≡ₚ series_found ILIKE series users search_query
          ∧ Sorted series_order all
          ∧ rs = series_select <$> take (Z.to_nat search_limit) all
  end.
Proof.
  unfold search_series. destruct (search_limit <? 0) eqn:Hlim.
  { by apply Z.ltb_lt. }
  apply Z.ltb_ge in Hlim.
  set (found := series_found ILIKE series users search_query).
  pose proof (merge_sort_Permutation series_order found) as Hperm.
  pose proof (Sorted_merge_sort series_order (Total0 := series_order_total) found)
    as Hsorted.
  split; [done|]. split; [|split; [|split]].
  - rewrite length_fmap, length_take. lia.
  - apply Forall_fmap, Forall_forall. intros [s u] Hj.
    apply subseteq_take in Hj. rewrite Hperm in Hj.
    apply series_found_matches in Hj as (Hs & Hu & Hon & Hpub & Hdel & Hm).
    by exists s, u.
  - intros Hcount. apply Sorted_StronglySorted; [apply _|].
    eapply (Sorted_fmap_Forall _ _ _ (λ j, s_posts_count (s_row j.1) ≠ None));
      [| |by apply Sorted_take].
    + intros a b. apply series_order_more_posts.
    + apply Forall_forall. intros [s u] Hj.
      apply subseteq_take in Hj. rewrite Hperm in Hj.
      apply series_found_matches in Hj as (Hs & _).
      rewrite Forall_forall in Hcount. by apply Hcount.
  - by eexists.
Qed.
End search_series.

End SearchProps.

(** ** The page handlers and the tables *)
Module HandlerProps.
Import Triggers Handlers.

Lemma found_row_matches {A} (f : A → bool) (l : list A) :
  is_Some (single (List.filter f l)) → existsb f l = true.
Proof.
  intros [r Hr]. destruct (List.filter f l) as [|r' [|]] eqn:Ef; try discriminate.
  assert (In r' (List.filter f l)) as Hin by (rewrite Ef; by left).
  apply filter_In in Hin as [Hin Hf]. apply existsb_exists. eauto.
Qed.

(** Whichever statement the like button sends, the trigger raises. *)
Lemma likes_statement_never_completes (user_id post_id : uuid) (w : world) :
  PostCard.statement_completes delete_post_likes_where insert_post_likes
    user_id post_id w = false.
Proof.
  unfold PostCard.statement_completes, PostCard.found_like.
  destruct (call_succeeds w); cbn [andb].
  - case_bool_decide as Hfound.
    + rewrite TriggerProps.delete_post_likes_where_raises.
      by rewrite (found_row_matches _ _ Hfound).
    + by rewrite TriggerProps.insert_post_likes_raises.
  - by rewrite TriggerProps.insert_post_likes_raises.
Qed.

(** The like button on the database of the migration: the error comes back
    as a returned error, and the handler drops it. *)
Lemma handleLike_on_triggers_spec (user : User) (post_id : uuid)
    (st : PostCard.state) (w : world) :
  let '(st', w') := PostCard.handleLike_on_triggers (Some user) post_id st w in
  PostCard.statement_completes delete_post_likes_where insert_post_likes
    (uid user) post_id w = false
  ∧ db w' = db w
  ∧ PostCard.isLiked st' = PostCard.isLiked st
  ∧ PostCard.likesCount st' = PostCard.likesCount st
  ∧ (PostCard.isLiking st = false →
     PostCard.isLiking st' = false
     ∧ calls w'
       = calls w
         ++ post_likes_select post_id (uid user)
            :: (if PostCard.lookup_thrown w then []
                else [ if PostCard.found_like (uid user) post_id w
                       then post_likes_delete post_id (uid user)
                       else post_likes_insert post_id (uid user) ])
     ∧ (PostCard.lookup_thrown w = false →
        (∀ e, failing w (S (length (calls w))) ≠ Some (thrown e)) →
        events w' = events w)).
Proof.
  pose proof (likes_statement_never_completes (uid user) post_id w) as Hnever.
  unfold PostCard.handleLike_on_triggers, PostCard.handleLike,
    PostCard.found_like, PostCard.lookup_thrown, call_succeeds, query, attempt.
  destruct (PostCard.isLiking st) eqn:Hbusy; [by repeat split|].
  destruct (failing w (length (calls w))) as [[e|e]|] eqn:Hsel;
    cbn [calls db events failing record_call emit with_db length andb].
  - rewrite TriggerProps.insert_post_likes_raises, length_app, Nat.add_1_r.
    cbn [length].
    destruct (failing w (S (length (calls w)))) as [[e'|e']|] eqn:Hw;
      cbn [calls db events failing record_call emit with_db
           PostCard.isLiked PostCard.likesCount PostCard.isLiking];
      repeat split; try done; try (by rewrite <-app_assoc).
    intros _ Hthrown. by destruct (Hthrown e').
  - cbn [calls db events failing record_call emit with_db
         PostCard.isLiked PostCard.likesCount PostCard.isLiking].
    repeat split; done.
  - rewrite length_app, Nat.add_1_r. cbn [length].
    destruct (single _) as [r|] eqn:Hone.
    + rewrite TriggerProps.delete_post_likes_where_raises.
      rewrite (found_row_matches _ (post_likes (db w)))
        by (rewrite Hone; by eexists).
      rewrite bool_decide_eq_true_2 by (by eexists).
      destruct (failing w (S (length (calls w)))) as [[e'|e']|] eqn:Hw;
        cbn [calls db events failing record_call emit with_db
             PostCard.isLiked PostCard.likesCount PostCard.isLiking];
        repeat split; try done; try (by rewrite <-app_assoc).
      intros _ Hthrown. by destruct (Hthrown e').
    + rewrite TriggerProps.insert_post_likes_raises.
      rewrite bool_decide_eq_false_2 by (by intros []).
      destruct (failing w (S (length (calls w)))) as [[e'|e']|] eqn:Hw;
        cbn [calls db events failing record_call emit with_db
             PostCard.isLiked PostCard.likesCount PostCard.isLiking];
        repeat split; try done; try (by rewrite <-app_assoc).
      intros _ Hthrown. by destruct (Hthrown e').
Qed.

(** X12: whatever handleFollow and handleLike do, the statement they send and
    the trigger it fires keep the followers counter and both likes counters
    equal to their numbers of rows wherever they were equal before; the
    like button does so by leaving the database as it is. *)
Theorem page_writes_keep_counters_in_sync :
  (∀ user creatorId st w,
     stays_synced cp_followers_count set_cp_followers_count
       followers_of_creator creator_profiles
       (db w) (db (CreatorProfilePage.handleFollow user creatorId st w).2))
  ∧ (∀ user post_id st w,
     db (PostCard.handleLike_on_triggers user post_id st w).2 = db w
     ∧ stays_synced p_likes_count set_p_likes_count likes_of_post posts
         (db w) (db (PostCard.handleLike_on_triggers user post_id st w).2)
     ∧ stays_synced cp_likes_count set_cp_likes_count likes_of_creator
         creator_profiles
         (db w) (db (PostCard.handleLike_on_triggers user post_id st w).2)).
Proof.
  split.
  - intros [u|] [c|] st w; simpl;
      try (apply TriggerProps.stays_synced_refl; by intros []).
    unfold execute.
    destruct (CreatorProfilePage.isFollowing st);
      destruct (failing w (length (calls w))); simpl;
      try (apply TriggerProps.stays_synced_refl; by intros []);
      destruct (CreatorProfilePage.creatorProfile st); simpl;
      first [ apply TriggerProps.follows_delete_where_synced
            | apply TriggerProps.follows_insert_synced ].
  - intros user post_id st w.
    assert (db (PostCard.handleLike_on_triggers user post_id st w).2 = db w)
      as ->.
    { destruct user as [u|]; [|done].
      pose proof (handleLike_on_triggers_spec u post_id st w) as H.
      destruct (PostCard.handleLike_on_triggers _ _ _ _) as [st' w'].
      cbn [snd]. by destruct H as (_ & ? & _). }
    split; [done|].
    split; apply TriggerProps.stays_synced_refl; by intros [].
Qed.

(** *** Follow, then unfollow *)

Lemma with_followers_count_back (cp : CreatorProfilePage.CreatorProfile) :
  0 ≤ CreatorProfilePage.followers_count cp →
  CreatorProfilePage.with_followers_count
    (Z.max 0 (CreatorProfilePage.followers_count cp + 1 - 1))
    (CreatorProfilePage.with_followers_count
       (CreatorProfilePage.followers_count cp + 1) cp) = cp.
Proof.
  intros H. destruct cp; unfold CreatorProfilePage.with_followers_count; simpl in *.
  f_equal. lia.
Qed.

(** X13: a visitor who does not follow the creator yet presses the button
    twice and both calls go through: the follow and the unfollow cancel, the
    database (rows and counters) and the page are as before, and exactly the
    insert and the delete were sent.  The counters must hold numbers, and the
    shown count must not be negative. *)
Theorem handleFollow_follow_then_unfollow (user : User) (creatorId : uuid)
    (st : CreatorProfilePage.state) (w : world) :
  CreatorProfilePage.isFollowing st = false →
  call_succeeds w = true → second_call_succeeds w = true →
  user_follows (uid user) creatorId (db w) = [] →
  Forall (λ cp, defined (cp_followers_count cp)) (creator_profiles (db w)) →
  (∀ cp, CreatorProfilePage.creatorProfile st = Some cp →
         0 ≤ CreatorProfilePage.followers_count cp) →
  let '(st1, w1) :=
    CreatorProfilePage.handleFollow (Some user) (Some creatorId) st w in
  let '(st2, w2) :=
    CreatorProfilePage.handleFollow (Some user) (Some creatorId) st1 w1 in
  CreatorProfilePage.isFollowing st1 = true
  ∧ st2 = st
  ∧ db w2 = db w
  ∧ calls w2 = calls w ++ [ follows_insert (uid user) creatorId;
                            follows_delete (uid user) creatorId ]
  ∧ events w2 = events w.
Proof.
  intros Hnot H1 H2 Hnone Hdef Hshown.
  unfold call_succeeds in H1. unfold second_call_succeeds in H2.
  destruct (failing w (length (calls w))) eqn:E1; [done|].
  assert (∀ st1,
    CreatorProfilePage.isFollowing st1 = true →
    let w1 := with_db
      (insert_follows
         {| f_follower_id := uid user; f_following_id := creatorId |} (db w))
      (record_call (follows_insert (uid user) creatorId) w) in
    let '(st2, w2) :=
      CreatorProfilePage.handleFollow (Some user) (Some creatorId) st1 w1 in
    st2 = (match CreatorProfilePage.creatorProfile st1 with
           | Some cp =>
               CreatorProfilePage.setCreatorProfile
                 (Some (CreatorProfilePage.with_followers_count
                          (Z.max 0 (CreatorProfilePage.followers_count cp - 1)) cp))
                 (CreatorProfilePage.setIsFollowing false st1)
           | None => CreatorProfilePage.setIsFollowing false st1
           end)
    ∧ db w2 = db w
    ∧ calls w2 = calls w ++ [ follows_insert (uid user) creatorId;
                              follows_delete (uid user) creatorId ]
    ∧ events w2 = events w) as Hsecond.
  { intros st1 Hst1. cbn zeta.
    unfold CreatorProfilePage.handleFollow. rewrite Hst1.
    unfold execute. cbn [calls record_call with_db failing db].
    rewrite length_app, Nat.add_1_r.
    destruct (failing w (S (length (calls w)))) eqn:E2; [done|].
    assert (delete_follows_where
      (λ r, N.eqb (f_follower_id r) (uid user)
            && N.eqb (f_following_id r) creatorId)
      (insert_follows
         {| f_follower_id := uid user; f_following_id := creatorId |} (db w))
      = db w) as Hback.
    { apply TriggerProps.unfollow_undoes_follow; [|
        |exact Hdef].
      - simpl. by rewrite !N.eqb_refl.
      - unfold user_follows in Hnone. apply Forall_forall. intros r Hr.
        destruct (_ && _) eqn:E; [|done].
        assert (r ∈ List.filter
          (λ r, N.eqb (f_follower_id r) (uid user)
                && N.eqb (f_following_id r) creatorId) (follows (db w))) as Hin
          by by apply FeedProps.elem_of_filter_bool.
        rewrite Hnone in Hin. by apply not_elem_of_nil in Hin. }
    destruct (CreatorProfilePage.creatorProfile st1);
      cbn [calls record_call with_db failing db events];
      rewrite Hback, <-app_assoc; done. }
  unfold CreatorProfilePage.handleFollow at 1. rewrite Hnot.
  unfold execute at 1. rewrite E1.
  destruct (CreatorProfilePage.creatorProfile st) as [cp|] eqn:Ecp.
  - specialize (Hsecond
      (CreatorProfilePage.setCreatorProfile
         (Some (CreatorProfilePage.with_followers_count
                  (CreatorProfilePage.followers_count cp + 1) cp))
         (CreatorProfilePage.setIsFollowing true st)) eq_refl).
    cbn zeta in Hsecond.
    destruct (CreatorProfilePage.handleFollow _ _ _ _) as [st2 w2].
    destruct Hsecond as (-> & Hdb & Hcalls & Hev).
    split; [done|]. split; [|done].
    cbn [CreatorProfilePage.creatorProfile CreatorProfilePage.setCreatorProfile].
    cbn [CreatorProfilePage.followers_count
         CreatorProfilePage.with_followers_count].
    destruct st as [ocp fol sup amt dlg msg]. simpl in *. subst.
    unfold CreatorProfilePage.setCreatorProfile,
      CreatorProfilePage.setIsFollowing; simpl.
    f_equal. f_equal.
    pose proof (with_followers_count_back cp (Hshown cp eq_refl)) as Hb.
    unfold CreatorProfilePage.with_followers_count in Hb. simpl in Hb. exact Hb.
  - specialize (Hsecond (CreatorProfilePage.setIsFollowing true st) eq_refl).
    cbn zeta in Hsecond.
    destruct (CreatorProfilePage.handleFollow _ _ _ _) as [st2 w2].
    destruct Hsecond as (-> & Hdb & Hcalls & Hev).
    split; [done|]. split; [|done].
    cbn [CreatorProfilePage.creatorProfile CreatorProfilePage.setIsFollowing].
    rewrite Ecp. destruct st; simpl in *; subst. done.
Qed.

Lemma handleFollow_follow_then_unfollow_witness :
  let '(st1, w1) :=
    CreatorProfilePage.handleFollow
      (Some {| uid := 5%N; email := "fan@example.org" |}) (Some 1%N)
      CreatorProfilePage.page_loaded_earlier (reliable two_followers) in
  let '(st2, w2) :=
    CreatorProfilePage.handleFollow
      (Some {| uid := 5%N; email := "fan@example.org" |}) (Some 1%N) st1 w1 in
  CreatorProfilePage.isFollowing st1 = true
  ∧ st2 = CreatorProfilePage.page_loaded_earlier
  ∧ db w2 = two_followers
  ∧ calls w2 = [ follows_insert 5%N 1%N; follows_delete 5%N 1%N ]
  ∧ events w2 = [].
Proof.
  apply (handleFollow_follow_then_unfollow
           {| uid := 5%N; email := "fan@example.org" |} 1%N
           CreatorProfilePage.page_loaded_earlier (reliable two_followers));
    [reflexivity|reflexivity|reflexivity|reflexivity| |].
  - repeat constructor. eexists. split; [reflexivity|lia].
  - intros cp [= <-]. simpl. lia.
Defined.

(** *** handleSupport *)

Lemma completed_earnings_pending d rows c :
  Forall (λ r, st_status r = st_pending) rows →
  Stats.completed_earnings
    (with_supporter_transactions (supporter_transactions d ++ rows) d) c
  = Stats.completed_earnings d c.
Proof.
  intros Hrows. unfold Stats.completed_earnings. cbn [supporter_transactions
    with_supporter_transactions]. rewrite List.filter_app.
  assert (List.filter (λ st, N.eqb (st_creator_id st) c
                             && Stats.is_completed (st_status st)) rows = [])
    as ->.
  { induction Hrows as [|r rows Hr _ IH]; simpl; [done|].
    rewrite Hr, andb_false_r. exact IH. }
  by rewrite app_nil_r.
Qed.

(** X14: whatever the input and whether or not the call goes through,
    handleSupport changes nothing in the database but the
    [supporter_transactions] table, where it adds at most one row: from the
    signed-in user to the creator, over the parsed amount, which is positive,
    and with status pending.  So no call changes what any creator has earned
    in completed transactions. *)
Theorem handleSupport_adds_one_pending_row
    (parseFloat : string → option Z) (gen_random_uuid : database → uuid)
    (user : option User) (creatorId : option uuid)
    (st : CreatorProfilePage.state) (w : world) :
  let w' :=
    (CreatorProfilePage.handleSupport parseFloat gen_random_uuid
       user creatorId st w).2 in
  (db w' = db w
   ∨ ∃ u c amount,
       user = Some u ∧ creatorId = Some c
       ∧ parseFloat (CreatorProfilePage.supportAmount st) = Some amount
       ∧ 0 < amount
       ∧ db w'
         = with_supporter_transactions
             (supporter_transactions (db w)
                ++ [pending_support (gen_random_uuid (db w)) (uid u) c amount])
             (db w)
       ∧ calls w'
         = calls w ++ [supporter_transactions_insert (uid u) c amount])
  ∧ ∀ c, Stats.completed_earnings (db w') c = Stats.completed_earnings (db w) c.
Proof.
  cbn zeta.
  assert (∀ w' : world,
    (db w' = db w
     ∨ ∃ u c amount,
       user = Some u ∧ creatorId = Some c
       ∧ parseFloat (CreatorProfilePage.supportAmount st) = Some amount
       ∧ 0 < amount
       ∧ db w'
         = with_supporter_transactions
             (supporter_transactions (db w)
                ++ [pending_support (gen_random_uuid (db w)) (uid u) c amount])
             (db w)
       ∧ calls w'
         = calls w ++ [supporter_transactions_insert (uid u) c amount]) →
    ∀ c, Stats.completed_earnings (db w') c = Stats.completed_earnings (db w) c)
    as Hearn.
  { intros w' [->|(u & c & amount & _ & _ & _ & _ & -> & _)] c'; [done|].
    apply completed_earnings_pending. by repeat constructor. }
  split; [|apply Hearn];
    (destruct user as [u|], creatorId as [c|]; unfold CreatorProfilePage.handleSupport;
     [|by left..];
     destruct (CreatorProfilePage.supportAmount st) eqn:Hs; [by left|];
     destruct (parseFloat (String a s)) as [amount|] eqn:Hp; [|by left];
     destruct (amount <=? 0) eqn:Hpos; [by left|];
     apply Z.leb_gt in Hpos;
     unfold execute;
     destruct (failing w (length (calls w))); [by left|];
     right; exists u, c, amount; simpl;
     by destruct (CreatorProfilePage.creatorProfile st)).
Qed.

(** *** handleLike *)

(** X15: on the database of the migration the like button changes nothing.
    Whatever the card shows and whatever the table holds, the statement the
    handler sends does not run to its end, so the database, the heart and
    the shown count are as before; the lookup is followed by the matching
    write unless the lookup threw; and when no call throws, nothing is
    written to the console: the returned error is dropped. *)
Theorem handleLike_never_stores_a_like (user : User) (post_id : uuid)
    (st : PostCard.state) (w : world) :
  let '(st', w') := PostCard.handleLike_on_triggers (Some user) post_id st w in
  PostCard.statement_completes delete_post_likes_where insert_post_likes
    (uid user) post_id w = false
  ∧ db w' = db w
  ∧ PostCard.isLiked st' = PostCard.isLiked st
  ∧ PostCard.likesCount st' = PostCard.likesCount st
  ∧ (PostCard.isLiking st = false →
     PostCard.isLiking st' = false
     ∧ calls w'
       = calls w
         ++ post_likes_select post_id (uid user)
            :: (if PostCard.lookup_thrown w then []
                else [ if PostCard.found_like (uid user) post_id w
                       then post_likes_delete post_id (uid user)
                       else post_likes_insert post_id (uid user) ])
     ∧ (PostCard.lookup_thrown w = false →
        (∀ e, failing w (S (length (calls w))) ≠ Some (thrown e)) →
        events w' = events w)).
Proof. exact (handleLike_on_triggers_spec user post_id st w). Qed.

(** On a backend where no call fails on its own: a first like is not stored
    and the heart stays empty; a press on a post the user has liked sends
    the delete, and the like stays. *)
Example handleLike_press_on_sample :
  let fan := {| uid := 3%N; email := "fan@example.org" |} in
  let card := {| PostCard.isLiked := false; PostCard.likesCount := 1;
                 PostCard.isLiking := false |} in
  let '(st1, w1) :=
    PostCard.handleLike_on_triggers (Some fan) 12%N card (reliable Feed.sample) in
  let '(st2, w2) :=
    PostCard.handleLike_on_triggers (Some fan) 11%N card (reliable Feed.sample) in
  (has_liked 3%N 12%N Feed.sample, has_liked 3%N 11%N Feed.sample)
  = (true, false)
  ∧ calls w1 = [post_likes_select 12%N 3%N; post_likes_delete 12%N 3%N]
  ∧ calls w2 = [post_likes_select 11%N 3%N; post_likes_insert 11%N 3%N]
  ∧ st1 = card ∧ st2 = card
  ∧ db w1 = Feed.sample ∧ db w2 = Feed.sample
  ∧ events w1 = [] ∧ events w2 = [].
Proof. vm_compute. done. Qed.

End HandlerProps.

(** ** fetchPosts when the query goes through *)
Module FetchProps.
Import AppData.

#[local] Instance created_at_desc_total : Total created_at_desc.
Proof. intros a b. unfold created_at_desc. lia. Qed.

#[local] Instance created_at_desc_trans : Transitive created_at_desc.
Proof. intros a b c. unfold created_at_desc. lia. Qed.

(** X16: when the query goes through, fetchPosts replaces [posts] by at most
    20 rows of the [posts] table, all published, newest first; a published
    post that is missing from them is no newer than any of the 20 that are
    there; nothing is logged and nothing is written.  Whether a post is
    deleted plays no part. *)
Theorem fetchPosts_loads_newest_published
    (posts : option (list posts_row)) (w : world) :
  call_succeeds w = true →
  let '(posts', w') := fetchPosts posts w in
  ∃ data,
    posts' = Some data
    ∧ (length data ≤ 20)%nat
    ∧ Forall (λ p, p ∈ Db.posts (db w) ∧ p_is_published p = true) data
    ∧ StronglySorted created_at_desc data
    ∧ (∀ p, p ∈ Db.posts (db w) → p_is_published p = true → p ∉ data →
            length data = 20%nat
            ∧ Forall (λ q, p_created_at p ≤ p_created_at q) data)
    ∧ events w' = events w
    ∧ db w' = db w.
Proof.
  unfold call_succeeds, fetchPosts, query.
  destruct (failing w (length (calls w))); [done|]. intros _.
  exists (published_posts 20 (db w)). unfold published_posts.
  set (found := List.filter p_is_published (Db.posts (db w))).
  pose proof (merge_sort_Permutation created_at_desc found) as Hperm.
  pose proof (StronglySorted_merge_sort created_at_desc found) as Hsorted.
  split; [done|]. split; [|split; [|split; [|split]]].
  - rewrite length_take. lia.
  - apply Forall_forall. intros p Hp. apply subseteq_take in Hp.
    rewrite Hperm in Hp. by apply FeedProps.elem_of_filter_bool in Hp.
  - by apply FeedProps.StronglySorted_take.
  - intros p Hp Hpub Hnot.
    assert (p ∈ merge_sort created_at_desc found) as Hin.
    { rewrite Hperm. by apply FeedProps.elem_of_filter_bool. }
    rewrite <-(take_drop 20) in Hin, Hsorted.
    apply elem_of_app in Hin as [Hin|Hin]; [done|].
    split.
    + rewrite length_take. apply Nat.min_l.
      destruct (decide (20 ≤ length (merge_sort created_at_desc found))%nat)
        as [|Hshort]; [done|].
      rewrite drop_ge in Hin by lia. by apply not_elem_of_nil in Hin.
    + apply Forall_forall. intros q Hq.
      exact (StronglySorted_app_1_elem_of _ _ _ q p Hsorted Hq Hin).
  - done.
Qed.

Lemma fetchPosts_loads_newest_published_witness :
  let '(posts', w') := fetchPosts None (reliable Feed.sample) in
  ∃ data,
    posts' = Some data
    ∧ (length data ≤ 20)%nat
    ∧ Forall (λ p, p ∈ Db.posts Feed.sample ∧ p_is_published p = true) data
    ∧ StronglySorted created_at_desc data
    ∧ (∀ p, p ∈ Db.posts Feed.sample → p_is_published p = true → p ∉ data →
            length data = 20%nat
            ∧ Forall (λ q, p_created_at p ≤ p_created_at q) data)
    ∧ events w' = []
    ∧ db w' = Feed.sample.
Proof.
  exact (fetchPosts_loads_newest_published None (reliable Feed.sample) eq_refl).
Defined.

(** Post 14 sits in a deleted series and is in no feed, yet fetchPosts lists
    it, and first. *)
Example fetchPosts_of_sample :
  fmap (M := option) (fmap (M := list) p_id)
    (fetchPosts None (reliable Feed.sample)).1
  = Some [ 14%N; 12%N; 11%N ].
Proof. vm_compute. reflexivity. Qed.

End FetchProps.

(** ** PostCard: formatContent *)
Module PostCardTextProps.
Import PostForm PostCardText.

(** X17: formatContent returns content of up to 300 code units as it is and
    otherwise its first 300 code units followed by three dots; the result
    never has more than 303 code units, starts with the same 300, and
    formatting it again changes nothing.  The card shows "Read more" exactly
    when the content was cut. *)
Theorem formatContent_cuts_at_300 (content : js_string) :
  (length (formatContent content) ≤ 303)%nat
  ∧ take 300 (formatContent content) = take 300 content
  ∧ formatContent (formatContent content) = formatContent content
  ∧ (if shows_read_more content
     then formatContent content = take 300 content ++ js "..."
          ∧ length (formatContent content) = 303%nat
     else formatContent content = content).
Proof.
  unfold formatContent, shows_read_more.
  destruct (Nat.leb_spec (length content) 300) as [Hle|Hgt].
  - rewrite (proj2 (Nat.leb_le _ _) Hle).
    rewrite (proj2 (Nat.ltb_ge _ _) Hle). split; [lia|done].
  - assert (length (take 300 content ++ js "...") = 303%nat) as Hlen.
    { rewrite length_app, length_take. change (length (js "...")) with 3%nat. lia. }
    rewrite (proj2 (Nat.ltb_lt _ _) Hgt).
    assert ((length (take 300 content ++ js "...") <=? 300)%nat = false) as ->.
    { apply Nat.leb_gt. lia. }
    split; [lia|]. split; [|split; [|done]].
    + rewrite take_app_le by (rewrite length_take; lia).
      apply take_take.
    + f_equal. rewrite take_app_le by (rewrite length_take; lia).
      rewrite take_take. f_equal.
Qed.

End PostCardTextProps.

(** ** Post form: more on the slug *)
Module SlugProps.
Import PostForm PostFormProps.
Local Open Scope N_scope.

(** The slug before the final [trim]. *)
Lemma hyphenated_shape (s : js_string) :
  Forall (λ c, (is_lower c || is_digit c || is_space c || is_hyphen c) = true) s →
  Forall (λ c, slug_char c = true)
    (replace_runs is_hyphen hyphen (replace_runs is_space hyphen s)).
Proof.
  intros Hs.
  apply replace_runs_from_Forall with (P := λ c, slug_char c = true);
    [apply hyphen_slug_char|auto|].
  eapply replace_runs_from_Forall;
    [apply hyphen_slug_char|apply kept_not_space_slug_char|exact Hs].
Qed.

Lemma replace_runs_nil class r s : replace_runs class r s = [] ↔ s = [].
Proof.
  split; [|by intros ->]. destruct s as [|c s]; [done|].
  unfold replace_runs; simpl. by destruct (class c).
Qed.

Lemma replace_runs_from_none b class r s :
  Forall (λ c, class c = false) s → replace_runs_from b class r s = s.
Proof.
  intros H. revert b. induction H as [|c s Hc _ IH]; intros b; simpl; [done|].
  by rewrite Hc, IH.
Qed.

Lemma replace_runs_single_hyphens s :
  no_double_hyphen s = true →
  replace_runs_from false is_hyphen hyphen s = s
  ∧ (match s with c :: _ => is_hyphen c = false | [] => True end →
     replace_runs_from true is_hyphen hyphen s = s).
Proof.
  induction s as [|c s IH]; [done|]. intros Hnd.
  assert (no_double_hyphen s = true
          ∧ (is_hyphen c = true →
             match s with d :: _ => is_hyphen d = false | [] => True end))
    as [Hs Hhead].
  { destruct s as [|d t]; [done|]. rewrite no_double_hyphen_cons in Hnd.
    apply andb_prop in Hnd as [Hcd Ht]. split; [done|]. intros Hc.
    rewrite Hc in Hcd. simpl in Hcd. by destruct (is_hyphen d). }
  destruct (IH Hs) as [IH1 IH2]. simpl.
  destruct (is_hyphen c) eqn:E.
  - split; [|done]. rewrite IH2 by (by apply Hhead).
    apply N.eqb_eq in E. by rewrite E.
  - by rewrite IH1.
Qed.

Lemma filter_all_kept (f : code_unit → bool) s :
  Forall (λ c, f c = true) s → List.filter f s = s.
Proof. induction 1 as [|c s Hc _ IH]; simpl; [done|]. by rewrite Hc, IH. Qed.

(** X18: the [trim] that ends the slug chain never removes anything, because
    the whitespace has been turned into hyphens before; and the slug is the
    empty string exactly when the lower-cased title contains no letter a-z,
    digit, whitespace or hyphen at all. *)
Theorem slug_trim_removes_nothing (toLowerCase : js_string → js_string)
    (title : js_string) :
  let kept :=
    remove_others (λ c, is_lower c || is_digit c || is_space c || is_hyphen c)
      (toLowerCase title) in
  slug toLowerCase title
  = replace_runs is_hyphen hyphen (replace_runs is_space hyphen kept)
  ∧ (slug toLowerCase title = [] ↔ kept = []).
Proof.
  cbn zeta. unfold slug.
  rewrite trim_no_space.
  - split; [done|]. by rewrite !replace_runs_nil.
  - eapply Forall_impl; [|apply slug_char_not_space].
    apply hyphenated_shape, remove_others_Forall.
Qed.

(** A title in Devanagari has an empty slug. *)
Example slug_of_devanagari_title :
  slug ascii_toLowerCase [2344; 2350; 2360; 2381; 2340; 2375] = [].
Proof. reflexivity. Qed.

(** X19: making the slug of a slug gives the same slug, provided lower-casing
    leaves strings of lowercase letters, digits and hyphens alone. *)
Theorem slug_idempotent (toLowerCase : js_string → js_string)
    (title : js_string) :
  (∀ s, forallb slug_char s = true → toLowerCase s = s) →
  slug toLowerCase (slug toLowerCase title) = slug toLowerCase title.
Proof.
  intros Hlower.
  assert (Forall (λ c, slug_char c = true) (slug toLowerCase title)
          ∧ no_double_hyphen (slug toLowerCase title) = true) as [Hchars Hnd].
  { unfold slug.
    pose proof (hyphenated_shape _
      (remove_others_Forall
         (λ c, is_lower c || is_digit c || is_space c || is_hyphen c)
         (toLowerCase title))) as Hchars.
    rewrite trim_no_space
      by (eapply Forall_impl; [exact Hchars|apply slug_char_not_space]).
    split; [exact Hchars|apply replace_runs_no_double_hyphen]. }
  set (t := slug toLowerCase title) in *.
  unfold slug at 1. rewrite Hlower.
  2:{ apply forallb_forall. intros c Hc. rewrite Forall_forall in Hchars.
      by apply Hchars, list_elem_of_In. }
  unfold remove_others. rewrite filter_all_kept.
  2:{ eapply Forall_impl; [exact Hchars|]. intros c Hc. simpl.
      unfold slug_char in Hc. apply orb_prop in Hc as [Hc|Hc].
      - by rewrite Hc.
      - rewrite Hc. by rewrite orb_true_r. }
  unfold replace_runs. rewrite (replace_runs_from_none false is_space hyphen t)
    by (eapply Forall_impl; [exact Hchars|apply slug_char_not_space]).
  rewrite (proj1 (replace_runs_single_hyphens t Hnd)).
  apply trim_no_space.
  eapply Forall_impl; [exact Hchars|apply slug_char_not_space].
Qed.

Lemma ascii_toLowerCase_slug_chars s :
  forallb slug_char s = true → ascii_toLowerCase s = s.
Proof.
  intros H. unfold ascii_toLowerCase.
  rewrite <-(list_fmap_id s) at 2. apply list_fmap_ext. intros i c Hc.
  assert (slug_char c = true) as Hs.
  { rewrite forallb_forall in H. apply H, list_elem_of_In.
    by eapply list_elem_of_lookup_2. }
  apply slug_char_cases in Hs.
  destruct ((65 <=? c) && (c <=? 90)) eqn:E; [|done].
  apply andb_prop in E as [E1 E2]. apply N.leb_le in E1, E2. lia.
Qed.

Lemma slug_idempotent_witness :
  slug ascii_toLowerCase (slug ascii_toLowerCase (js " Hello,  World -- 2024!"))
  = slug ascii_toLowerCase (js " Hello,  World -- 2024!").
Proof.
  exact (slug_idempotent ascii_toLowerCase (js " Hello,  World -- 2024!")
           ascii_toLowerCase_slug_chars).
Defined.

End SlugProps.

(** ** Cleanup script: a second run *)
Module CleanupAgainProps.
Import Cleanup.

Lemma removeRecursive_absent itemPath (m : machine) :
  files m !! itemPath = None →
  removeRecursive itemPath m
  = (log (not_found itemPath) (called (call_existsSync itemPath) m), inr false).
Proof.
  intros Hp. unfold removeRecursive, existsSync.
  by rewrite Hp, bool_decide_eq_false_2 by (by intros []).
Qed.

Section loop.
Variable join : string → string → string.
Variable cwd : string.

(** When none of the items is there, the loop only looks each of them up. *)
Lemma remove_items_absent items o :
  (∀ item, item ∈ items → files (final o) !! join cwd item = None) →
  let o' := remove_items join cwd items o in
  files (final o') = files (final o)
  ∧ fs_calls (final o')
    = fs_calls (final o) ++ (call_existsSync <$> (join cwd <$> items))
  ∧ output (final o')
    = output (final o) ++ ((λ item, not_found (join cwd item)) <$> items)
  ∧ removedCount o' = removedCount o
  ∧ skippedCount o' = (skippedCount o + length items)%nat
  ∧ (items ≠ [] ∨ error o = None → error o' = None).
Proof.
  revert o. induction items as [|item items IH]; intros o Habs; cbn zeta.
  { cbn [remove_items]. csimpl. rewrite !app_nil_r, Nat.add_0_r.
    repeat split; try done. by intros [?|?]. }
  cbn [remove_items]. rewrite removeRecursive_absent by (apply Habs; left).
  match goal with |- context [remove_items _ _ _ ?o1] => specialize (IH o1) end.
  cbn zeta in IH.
  cbn [final removedCount skippedCount error files fs_calls output log called]
    in IH.
  destruct IH as (-> & -> & -> & -> & -> & Herr).
  { intros item' Hin. apply Habs. by right. }
  csimpl. rewrite <-!app_assoc. repeat split; try done; try lia.
  intros _. apply Herr. by right.
Qed.
End loop.

(** X20: after a confirmed run that ended without an error none of the six
    listed paths exists any more, so a second confirmed run removes nothing:
    it looks the six paths up and calls nothing else, reports all six as not
    found, counts 0 removed and 6 skipped, ends without an error and leaves
    the file system as the first run left it. *)
Theorem cleanup_second_run_finds_nothing (toLowerCase : string → string)
    (join : string → string → string) (cwd typed : string) (m : machine) :
  toLowerCase typed = "yes" →
  let o1 := main toLowerCase join cwd typed m in
  error o1 = None →
  let o2 := main toLowerCase join cwd typed (final o1) in
  (∀ item, item ∈ itemsToRemove → files (final o1) !! join cwd item = None)
  ∧ error o2 = None
  ∧ files (final o2) = files (final o1)
  ∧ calls_of_run (final o1) o2
    = call_existsSync <$> (join cwd <$> itemsToRemove)
  ∧ output (final o2)
    = output (final o1)
      ++ [starting_cleanup]
      ++ ((λ item, not_found (join cwd item)) <$> itemsToRemove)
      ++ [cleanup_complete 0 6]
  ∧ removedCount o2 = 0%nat ∧ skippedCount o2 = 6%nat.
Proof.
  intros Hyes. cbn zeta. intros Hok.
  assert (∀ item, item ∈ itemsToRemove →
            files (final (main toLowerCase join cwd typed m)) !! join cwd item
            = None) as Hgone.
  { pose proof (CleanupProps.cleanup_run_removes_all toLowerCase join cwd typed m
                  Hyes Hok) as H.
    intros item Hin. apply H. by apply list_elem_of_fmap_2. }
  split; [exact Hgone|].
  set (m1 := final (main toLowerCase join cwd typed m)) in *.
  clearbody m1. unfold calls_of_run.
  unfold main, promptUser. rewrite Hyes.
  rewrite bool_decide_eq_true_2 by done.
  pose proof (remove_items_absent join cwd itemsToRemove
    {| final := log starting_cleanup m1;
       removedCount := 0; skippedCount := 0; error := None |} Hgone) as H.
  cbn zeta in H.
  set (o := remove_items join cwd itemsToRemove _) in *.
  cbn [final removedCount skippedCount error files fs_calls output log] in H.
  destruct H as (Hfiles & Hcalls & Hout & Hrem & Hskip & Herr).
  rewrite (Herr (or_intror eq_refl)).
  cbn [final removedCount skippedCount error files fs_calls output log].
  rewrite Hfiles, Hcalls, Hout, Hrem, Hskip, drop_app_length, <-!app_assoc.
  done.
Qed.

Lemma cleanup_second_run_finds_nothing_witness :
  let m := obliging checkout in
  let o1 := main id posix_join "/repo" "yes" m in
  let o2 := main id posix_join "/repo" "yes" (final o1) in
  (∀ item, item ∈ itemsToRemove →
           files (final o1) !! posix_join "/repo" item = None)
  ∧ error o2 = None
  ∧ files (final o2) = files (final o1)
  ∧ calls_of_run (final o1) o2
    = call_existsSync <$> (posix_join "/repo" <$> itemsToRemove)
  ∧ output (final o2)
    = output (final o1)
      ++ [starting_cleanup]
      ++ ((λ item, not_found (posix_join "/repo" item)) <$> itemsToRemove)
      ++ [cleanup_complete 0 6]
  ∧ removedCount o2 = 0%nat ∧ skippedCount o2 = 6%nat.
Proof.
  exact (cleanup_second_run_finds_nothing id posix_join "/repo" "yes"
           (obliging checkout) eq_refl eq_refl).
Defined.

End CleanupAgainProps.

(** ** ProtectedRoute *)
Module ProtectedRouteProps.
Import ProtectedRoute.

(** X21: ProtectedRoute renders its children only when the auth state has
    loaded and, on a route that requires authentication, a user is signed in;
    while loading it shows the spinner and navigates nowhere; it sends an
    anonymous visitor of a protected route to /login and shows the second
    spinner instead of the children.  On the routes of the router, which set
    no [redirectTo], the only other navigation is to /dashboard, for a
    signed-in user on /login or /register, and neither target navigates
    again: the login route leaves an anonymous visitor where they are and the
    dashboard route a signed-in one. *)
Theorem protected_route_guards_children (p : props) (user : option User)
    (loading : bool) (pathname : string) :
  (render p user loading = children →
   loading = false ∧ (requireAuth p = true → is_Some user))
  ∧ (loading = true →
     effect p user loading pathname = None
     ∧ render p user loading = loading_spinner)
  ∧ (loading = false → requireAuth p = true → user = None →
     effect p user loading pathname = Some "/login"
     ∧ render p user loading = redirecting_to_login_spinner)
  ∧ (redirectTo p = None →
     match effect p user loading pathname with
     | None => True
     | Some target =>
         (target = "/login" ∧ requireAuth p = true ∧ user = None
          ∧ effect (route false) user loading target = None)
         ∨ (target = "/dashboard" ∧ requireAuth p = false ∧ is_Some user
            ∧ (pathname = "/login" ∨ pathname = "/register")
            ∧ effect (route true) user loading target = None)
     end).
Proof.
  unfold render, effect.
  destruct loading.
  { split; [done|]. split; [done|]. split; [done|]. done. }
  split; [|split; [done|split]].
  - destruct (requireAuth p), user as [u|]; simpl; try done.
    all: intros _; split; [done|]; by eauto.
  - by intros _ -> ->.
  - intros Hredirect. rewrite Hredirect. simpl.
    destruct (requireAuth p), user as [u|]; simpl; try done.
    + by left.
    + repeat case_bool_decide; simpl; try done; right; subst; simpl; eauto 10.
Qed.

End ProtectedRouteProps.

(** ** loadUserProfile run to its end *)
Module AuthLoadProps.
Import Auth AuthLoad.

Lemma single_Some {A} (l : list A) x : single l = Some x → l = [x].
Proof. destruct l as [|y [|z l]]; simpl; congruence. Qed.

Lemma deliver_last s st0 w0 pend :
  deliver (length pend) {| st := st0; w := w0; pending := pend ++ [s] |}
  = resume s {| st := st0; w := w0; pending := pend |}.
Proof.
  unfold deliver. cbn [pending st w].
  destruct (TriggerProps.delete_appended pend s) as [-> ->]. done.
Qed.

Lemma deliver_none st0 w0 pend :
  deliver (length pend) {| st := st0; w := w0; pending := pend |}
  = {| st := st0; w := w0; pending := pend |}.
Proof.
  unfold deliver. cbn [pending]. by rewrite lookup_ge_None_2 by lia.
Qed.

(** X22: a [loadUserProfile] call that runs to its end without anything in
    between leaves [user], [session], [loading], the database and the other
    pending calls alone and sends the [users] query, followed by the
    [creator_profiles] query only when the row that came back has role
    creator or admin.  Afterwards a stored user profile is the [users] row of
    the given id; a stored creator profile is a [creator_profiles] row of the
    same user and comes with a stored profile of a creator or admin, so
    [creatorProfile] is never set without [isCreator]; and when no user
    profile is stored, an error was written to the console. *)
Theorem loadUserProfile_to_completion (userId : uuid) (rt : runtime) :
  let rt' := load_to_completion userId rt in
  (pending rt' = pending rt
   ∧ st_user (st rt') = st_user (st rt)
   ∧ st_session (st rt') = st_session (st rt)
   ∧ st_loading (st rt') = st_loading (st rt)
   ∧ db (w rt') = db (w rt))
  ∧ (calls (w rt') = calls (w rt) ++ [users_select userId]
     ∨ calls (w rt')
       = calls (w rt) ++ [users_select userId; creator_profiles_select userId]
       ∧ ∃ u, u ∈ users (db (w rt)) ∧ u_id u = userId ∧ u_role u ≠ role_user)
  ∧ (∀ u, st_userProfile (st rt') = Some u →
          u ∈ users (db (w rt)) ∧ u_id u = userId)
  ∧ (∀ c, st_creatorProfile (st rt') = Some c →
          c ∈ creator_profiles (db (w rt)) ∧ cp_user_id c = userId
          ∧ isCreator (st rt') = true)
  ∧ (st_userProfile (st rt') = None →
     st_creatorProfile (st rt') = None
     ∧ ∃ label f, events (w rt') = events (w rt) ++ [console_error label f]).
Proof.
  cbn zeta. unfold load_to_completion, loadUserProfile, query.
  destruct rt as [s0 w0 pend]. cbn [pending w st].
  set (found := single (List.filter (λ u, N.eqb (u_id u) userId) (users (db w0)))).
  assert (∀ u, found = Some u → u ∈ users (db w0) ∧ u_id u = userId) as Hfound.
  { intros u Hu. apply single_Some in Hu.
    assert (u ∈ List.filter (λ u, N.eqb (u_id u) userId) (users (db w0))) as Hin
      by (rewrite Hu; left).
    apply FeedProps.elem_of_filter_bool in Hin as [Hin Hid].
    by apply N.eqb_eq in Hid. }
  assert (∀ c, single (List.filter (λ c, N.eqb (cp_user_id c) userId)
                         (creator_profiles (db w0))) = Some c →
               c ∈ creator_profiles (db w0) ∧ cp_user_id c = userId) as Hcreator.
  { intros c Hc. apply single_Some in Hc.
    assert (c ∈ List.filter (λ c, N.eqb (cp_user_id c) userId)
                  (creator_profiles (db w0))) as Hin by (rewrite Hc; left).
    apply FeedProps.elem_of_filter_bool in Hin as [Hin Hid].
    by apply N.eqb_eq in Hid. }
  destruct (failing w0 (length (calls w0))) as [[e|e]|] eqn:E1;
    cbn beta iota zeta.
  1,2: rewrite deliver_last; cbn [resume st w pending];
       rewrite deliver_none; cbn [st w pending db calls events record_call emit
         st_user st_session st_loading st_userProfile st_creatorProfile
         setUserProfile setCreatorProfile];
       (split; [done|]); (split; [by left|]); (split; [done|]); (split; [done|]);
       intros _; split; [done|]; by eauto.
  rewrite deliver_last. cbn [resume st w pending].
  destruct found as [u|] eqn:Efound.
  2:{ rewrite deliver_none.
      cbn [st w pending db calls events record_call emit
        st_user st_session st_loading st_userProfile st_creatorProfile
        setUserProfile setCreatorProfile].
      (split; [done|]); (split; [by left|]); (split; [done|]); (split; [done|]).
      intros _; split; [done|]; by eauto. }
  destruct (Hfound u eq_refl) as [Hu Hid].
  destruct (u_role u) eqn:Erole.
  - (* a plain user *)
    unfold on_state. cbn [st w pending]. rewrite deliver_none.
    unfold isCreator.
    cbn [st w pending db calls events record_call emit
      st_user st_session st_loading st_userProfile st_creatorProfile
      setUserProfile setCreatorProfile].
    (split; [done|]); (split; [by left|]).
    split; [by intros ? [= <-]|]. split; [done|done].
  - (* a creator *)
    unfold on_state, query. cbn [st w pending calls record_call failing db].
    rewrite length_app, Nat.add_1_r.
    destruct (failing w0 (S (length (calls w0)))) as [[e|e]|] eqn:E2;
      [| |destruct (single (List.filter (λ c, N.eqb (cp_user_id c) userId)
                              (creator_profiles (db w0)))) as [c|] eqn:Ecreator];
      cbn beta iota zeta;
      rewrite deliver_last; cbn [resume st w pending];
      unfold on_state, isCreator;
      cbn [st w pending db calls events record_call emit
        st_user st_session st_loading st_userProfile st_creatorProfile
        setUserProfile setCreatorProfile]; rewrite <-?app_assoc; cbn [app];
      rewrite ?Erole;
      (split; [done|]);
      (split; [right; split; [done|]; exists u; by rewrite Erole|]).
    + split; [by intros ? [= <-]|]. split; [done|done].
    + split; [done|]. split; [done|]. intros _. split; [done|]. by eauto.
    + split; [by intros ? [= <-]|].
      split; [|done]. intros c' [= <-]. destruct (Hcreator c eq_refl). done.
    + split; [by intros ? [= <-]|]. split; [done|done].
  - (* an admin *)
    unfold on_state, query. cbn [st w pending calls record_call failing db].
    rewrite length_app, Nat.add_1_r.
    destruct (failing w0 (S (length (calls w0)))) as [[e|e]|] eqn:E2;
      [| |destruct (single (List.filter (λ c, N.eqb (cp_user_id c) userId)
                              (creator_profiles (db w0)))) as [c|] eqn:Ecreator];
      cbn beta iota zeta;
      rewrite deliver_last; cbn [resume st w pending];
      unfold on_state, isCreator;
      cbn [st w pending db calls events record_call emit
        st_user st_session st_loading st_userProfile st_creatorProfile
        setUserProfile setCreatorProfile]; rewrite <-?app_assoc; cbn [app];
      rewrite ?Erole;
      (split; [done|]);
      (split; [right; split; [done|]; exists u; by rewrite Erole|]).
    + split; [by intros ? [= <-]|]. split; [done|done].
    + split; [done|]. split; [done|]. intros _. split; [done|]. by eauto.
    + split; [by intros ? [= <-]|].
      split; [|done]. intros c' [= <-]. destruct (Hcreator c eq_refl). done.
    + split; [by intros ? [= <-]|]. split; [done|done].
Qed.

End AuthLoadProps.

(** ** fetchSinglePost and fetchCreatorData *)
Module PageLoadProps.
Import Client.

Lemma query_single_spec {A} rq (read : database → list A) w :
  let '(w1, response) := query_single rq read w in
  w1 = record_call rq w
  ∧ match response with
    | inr row => failing w (length (calls w)) = None ∧ read (db w) = [row]
    | inl f =>
        failing w (length (calls w)) = Some f
        ∨ (failing w (length (calls w)) = None ∧ f = returned "PGRST116"
           ∧ ∀ row, read (db w) ≠ [row])
    end.
Proof.
  unfold query_single, query.
  destruct (failing w (length (calls w))) as [f|] eqn:E; [by split; [|left]|].
  destruct (read (db w)) as [|row [|row' rows]]; (split; [done|]);
    [right|done|right]; by repeat split.
Qed.

Lemma filter_singleton {A} (f : A → bool) (l : list A) x :
  List.filter f l = [x] → x ∈ l ∧ f x = true.
Proof.
  intros H. apply FeedProps.elem_of_filter_bool. rewrite H. left.
Qed.

(** X23: fetchSinglePost sends one query and writes nothing; the post it
    stores is the one row of [posts] with the given id, published or not,
    deleted or not; in every other case (the call fails, no row or several
    rows have the id) it stores null, never the post that was shown before,
    and writes the error to the console. *)
Theorem fetchSinglePost_stores_the_row_or_null (postId : uuid)
    (singlePost : option posts_row) (w : world) :
  let '(singlePost', w') := SinglePost.fetchSinglePost postId singlePost w in
  calls w' = calls w ++ [posts_select_by_id postId]
  ∧ db w' = db w
  ∧ match singlePost' with
    | Some p =>
        List.filter (λ p, N.eqb (p_id p) postId) (posts (db w)) = [p]
        ∧ p ∈ posts (db w) ∧ p_id p = postId
        ∧ events w' = events w
    | None =>
        (failing w (length (calls w)) ≠ None
         ∨ ∀ p, List.filter (λ p, N.eqb (p_id p) postId) (posts (db w)) ≠ [p])
        ∧ ∃ label f, events w' = events w ++ [console_error label f]
    end.
Proof.
  unfold SinglePost.fetchSinglePost.
  pose proof (query_single_spec (posts_select_by_id postId)
    (λ d, List.filter (λ p, N.eqb (p_id p) postId) (posts d)) w) as H.
  destruct (query_single _ _ w) as [w1 [[e|e]|p]]; destruct H as [-> H];
    cbn [calls db events record_call emit]; (split; [done|]); (split; [done|]).
  - split; [|by eauto]. destruct H as [H|(_ & _ & H)]; [left|by right].
    by rewrite H.
  - split; [|by eauto]. destruct H as [H|(_ & ? & _)]; [left|done].
    by rewrite H.
  - destruct H as [_ H]. split; [done|].
    apply filter_singleton in H as [Hin Hid]. by apply N.eqb_eq in Hid.
Qed.

(** *** fetchCreatorData *)

Ltac next_call w :=
  cbn [calls record_call emit with_db failing db events];
  rewrite ?length_app; cbn [length Nat.add];
  rewrite ?Nat.add_0_r, ?Nat.add_1_r, <-?Nat.add_succ_r.

Ltac sent k :=
  exists k; split; [lia|];
  unfold CreatorData.requests; cbn [take app calls record_call];
  rewrite <-?app_assoc; reflexivity.

Lemma published_posts_of_spec creatorId limit d :
  Forall (λ p, p ∈ Db.posts d ∧ p_user_id p = creatorId ∧ p_is_published p = true)
    (CreatorData.published_posts_of creatorId limit d)
  ∧ (length (CreatorData.published_posts_of creatorId limit d) ≤ limit)%nat
  ∧ StronglySorted AppData.created_at_desc
      (CreatorData.published_posts_of creatorId limit d).
Proof.
  unfold CreatorData.published_posts_of. split; [|split].
  - apply Forall_forall. intros p Hp. apply subseteq_take in Hp.
    rewrite merge_sort_Permutation in Hp.
    apply FeedProps.elem_of_filter_bool in Hp as [Hin Hp].
    apply andb_prop in Hp as [Hid Hpub]. by apply N.eqb_eq in Hid.
  - rewrite length_take. lia.
  - apply FeedProps.StronglySorted_take, StronglySorted_merge_sort;
      [apply FetchProps.created_at_desc_trans|apply FetchProps.created_at_desc_total].
Qed.

(** X24: fetchCreatorData does nothing at all without a creator id.  With
    one it never writes, ends with [isLoading] false whatever happens, and
    sends a beginning of the fixed sequence users, creator_profiles, posts,
    follows (the last only when a user is signed in).  Whatever it stores
    comes from the tables and belongs to the creator: the user row has the
    creator's id, the profile row the creator's [user_id], and the posts are
    at most 20 published posts of the creator, newest first, each carrying
    the creator's id; what it does not store stays as it was. *)
Theorem fetchCreatorData_stores_rows_of_the_creator (user : option User)
    (creatorId : uuid) (s : CreatorData.state) (w : world) :
  CreatorData.fetchCreatorData user None s w = (s, w)
  ∧ let '(s', w') := CreatorData.fetchCreatorData user (Some creatorId) s w in
    CreatorData.isLoading s' = false
    ∧ db w' = db w
    ∧ (∃ n, (1 ≤ n)%nat
            ∧ calls w' = calls w ++ take n (CreatorData.requests user creatorId))
    ∧ (∀ u, CreatorData.creatorUser s' = Some u →
            CreatorData.creatorUser s = Some u
            ∨ (u ∈ users (db w) ∧ u_id u = creatorId))
    ∧ (∀ c, CreatorData.creatorProfile s' = Some c →
            CreatorData.creatorProfile s = Some c
            ∨ (c ∈ creator_profiles (db w) ∧ cp_user_id c = creatorId))
    ∧ (CreatorData.posts s' = CreatorData.posts s
       ∨ (Forall (λ pc, pc.1 ∈ posts (db w) ∧ p_user_id pc.1 = creatorId
                        ∧ p_is_published pc.1 = true
                        ∧ CreatorData.ci_id pc.2 = creatorId)
            (CreatorData.posts s')
          ∧ (length (CreatorData.posts s') ≤ 20)%nat
          ∧ StronglySorted AppData.created_at_desc (fst <$> CreatorData.posts s'))).
Proof.
  split; [done|].
  unfold CreatorData.fetchCreatorData.
  pose proof (query_single_spec (users_select_by_id creatorId)
    (λ d, List.filter (λ u, N.eqb (u_id u) creatorId) (users d)) w) as H1.
  destruct (query_single _ _ w) as [w1 [f|u]]; destruct H1 as [-> H1].
  { cbn [calls db events record_call emit CreatorData.isLoading
         CreatorData.setIsLoading CreatorData.creatorUser
         CreatorData.creatorProfile CreatorData.posts].
    split; [done|]. split; [done|]. split; [sent 1%nat|]. by eauto 10. }
  destruct H1 as [_ Hu]. apply filter_singleton in Hu as [Hu Huid].
  apply N.eqb_eq in Huid.
  set (w1 := record_call (users_select_by_id creatorId) w).
  pose proof (query_single_spec (creator_profiles_select_by_user creatorId)
    (λ d, List.filter (λ c, N.eqb (cp_user_id c) creatorId) (creator_profiles d))
    w1) as H2.
  destruct (query_single _ _ w1) as [w2 response2]; destruct H2 as [-> H2].
  assert (∀ c, response2 = inr c →
               c ∈ creator_profiles (db w) ∧ cp_user_id c = creatorId) as Hc.
  { intros c ->. destruct H2 as [_ H2].
    apply filter_singleton in H2 as [? Hid]. by apply N.eqb_eq in Hid. }
  clear H2.
  set (w2 := record_call (creator_profiles_select_by_user creatorId) w1).
  assert (∀ (s2 : CreatorData.state) (w2' : world),
    CreatorData.creatorUser s2 = Some u →
    (∀ c, CreatorData.creatorProfile s2 = Some c →
          CreatorData.creatorProfile s = Some c
          ∨ (c ∈ creator_profiles (db w) ∧ cp_user_id c = creatorId)) →
    CreatorData.posts s2 = CreatorData.posts s →
    db w2' = db w → failing w2' = failing w →
    calls w2' = calls w ++ [ users_select_by_id creatorId;
                             creator_profiles_select_by_user creatorId ] →
    let '(s', w') :=
      (let '(w3, posts_response) :=
         query (posts_select_by_user creatorId 20)
           (CreatorData.published_posts_of creatorId 20) w2' in
       match posts_response with
       | inl f =>
           (CreatorData.setIsLoading false s2,
            emit (console_error "Error fetching creator data:" f) w3)
       | inr postsData =>
           match user with
           | Some user0 =>
               let '(w4, follow_response) :=
                 query_single (follows_select (uid user0) creatorId)
                   (λ d, List.filter
                           (λ f, N.eqb (f_follower_id f) (uid user0)
                                 && N.eqb (f_following_id f) creatorId)
                           (follows d)) w3 in
               match follow_response with
               | inl (returned _) =>
                   (CreatorData.setIsLoading false
                      (CreatorData.setIsFollowing false
                         (CreatorData.setPosts
                            ((λ post, (post,
                                {| CreatorData.ci_id := u_id u;
                                   CreatorData.ci_display_name := u_display_name u;
                                   CreatorData.ci_photo_url := u_avatar_url u |}))
                               <$> postsData) s2)), w4)
               | inl (thrown e) =>
                   (CreatorData.setIsLoading false
                      (CreatorData.setPosts
                         ((λ post, (post,
                             {| CreatorData.ci_id := u_id u;
                                CreatorData.ci_display_name := u_display_name u;
                                CreatorData.ci_photo_url := u_avatar_url u |}))
                            <$> postsData) s2),
                    emit (console_error "Error fetching creator data:" (thrown e))
                      w4)
               | inr _ =>
                   (CreatorData.setIsLoading false
                      (CreatorData.setIsFollowing true
                         (CreatorData.setPosts
                            ((λ post, (post,
                                {| CreatorData.ci_id := u_id u;
                                   CreatorData.ci_display_name := u_display_name u;
                                   CreatorData.ci_photo_url := u_avatar_url u |}))
                               <$> postsData) s2)), w4)
               end
           | None =>
               (CreatorData.setIsLoading false
                  (CreatorData.setPosts
                     ((λ post, (post,
                         {| CreatorData.ci_id := u_id u;
                            CreatorData.ci_display_name := u_display_name u;
                            CreatorData.ci_photo_url := u_avatar_url u |}))
                        <$> postsData) s2), w3)
           end
       end) in
    CreatorData.isLoading s' = false
    ∧ db w' = db w
    ∧ (∃ n, (1 ≤ n)%nat
            ∧ calls w' = calls w ++ take n (CreatorData.requests user creatorId))
    ∧ (∀ u, CreatorData.creatorUser s' = Some u →
            CreatorData.creatorUser s = Some u
            ∨ (u ∈ users (db w) ∧ u_id u = creatorId))
    ∧ (∀ c, CreatorData.creatorProfile s' = Some c →
            CreatorData.creatorProfile s = Some c
            ∨ (c ∈ creator_profiles (db w) ∧ cp_user_id c = creatorId))
    ∧ (CreatorData.posts s' = CreatorData.posts s
       ∨ (Forall (λ pc, pc.1 ∈ posts (db w) ∧ p_user_id pc.1 = creatorId
                        ∧ p_is_published pc.1 = true
                        ∧ CreatorData.ci_id pc.2 = creatorId)
            (CreatorData.posts s')
          ∧ (length (CreatorData.posts s') ≤ 20)%nat
          ∧ StronglySorted AppData.created_at_desc (fst <$> CreatorData.posts s'))))
    as Hrest.
  { intros s2 w2' Hs2u Hs2c Hs2p Hdb Hfail Hcalls.
    assert (∀ u', Some u = Some u' →
              CreatorData.creatorUser s = Some u'
              ∨ (u' ∈ users (db w) ∧ u_id u' = creatorId)) as Huser
      by (intros u' [= <-]; by right).
    unfold query.
    destruct (failing w2' (length (calls w2'))) as [f|] eqn:E3.
    { cbn [calls db events record_call emit CreatorData.isLoading
           CreatorData.setIsLoading CreatorData.creatorUser
           CreatorData.creatorProfile CreatorData.posts].
      rewrite Hs2u, Hdb, Hcalls, <-app_assoc.
      split; [done|]. split; [done|]. split; [sent 3%nat|].
      split; [done|]. split; [done|]. by left. }
    destruct (published_posts_of_spec creatorId 20 (db w)) as (Hps & Hlen & Hsorted).
    rewrite Hdb.
    assert (Forall (λ pc, pc.1 ∈ posts (db w) ∧ p_user_id pc.1 = creatorId
                          ∧ p_is_published pc.1 = true
                          ∧ CreatorData.ci_id pc.2 = creatorId)
              ((λ post, (post,
                  {| CreatorData.ci_id := u_id u;
                     CreatorData.ci_display_name := u_display_name u;
                     CreatorData.ci_photo_url := u_avatar_url u |}))
                 <$> CreatorData.published_posts_of creatorId 20 (db w))
            ∧ (length ((λ post, (post,
                  {| CreatorData.ci_id := u_id u;
                     CreatorData.ci_display_name := u_display_name u;
                     CreatorData.ci_photo_url := u_avatar_url u |}))
                 <$> CreatorData.published_posts_of creatorId 20 (db w)) ≤ 20)%nat
            ∧ StronglySorted AppData.created_at_desc
                (fst <$> ((λ post, (post,
                  {| CreatorData.ci_id := u_id u;
                     CreatorData.ci_display_name := u_display_name u;
                     CreatorData.ci_photo_url := u_avatar_url u |}))
                 <$> CreatorData.published_posts_of creatorId 20 (db w))))
      as Hposts.
    { split; [|split].
      - apply Forall_fmap. eapply Forall_impl; [exact Hps|].
        intros p (? & ? & ?); simpl. done.
      - by rewrite length_fmap.
      - rewrite <-list_fmap_compose.
        rewrite (list_fmap_ext _ id (CreatorData.published_posts_of creatorId 20 (db w)))
          by done.
        by rewrite list_fmap_id. }
    destruct user as [usr|].
    - pose proof (query_single_spec (follows_select (uid usr) creatorId)
        (λ d, List.filter (λ f, N.eqb (f_follower_id f) (uid usr)
                                && N.eqb (f_following_id f) creatorId) (follows d))
        (record_call (posts_select_by_user creatorId 20) w2')) as H4.
      destruct (query_single _ _ _) as [w4 [[e|e]|f]]; destruct H4 as [-> _];
        cbn [calls db events record_call emit CreatorData.isLoading
             CreatorData.setIsLoading CreatorData.setIsFollowing
             CreatorData.setPosts CreatorData.creatorUser
             CreatorData.creatorProfile CreatorData.posts];
        rewrite Hs2u, Hdb, Hcalls, <-!app_assoc;
        (split; [done|]); (split; [done|]); (split; [sent 4%nat|]);
        (split; [done|]); (split; [done|]); by right.
    - cbn [calls db events record_call emit CreatorData.isLoading
           CreatorData.setIsLoading CreatorData.setIsFollowing
           CreatorData.setPosts CreatorData.creatorUser
           CreatorData.creatorProfile CreatorData.posts].
      rewrite Hs2u, Hdb, Hcalls, <-!app_assoc.
      (split; [done|]); (split; [done|]); (split; [sent 3%nat|]);
      (split; [done|]); (split; [done|]); by right. }
  destruct response2 as [[code|e]|c].
  - case_bool_decide;
      (apply Hrest;
       [done|intros c' Hc'; by left|done|done|done
       |unfold w2, w1; cbn [calls record_call emit]; by rewrite <-app_assoc]).
  - cbn [calls db events record_call emit CreatorData.isLoading
         CreatorData.setIsLoading CreatorData.creatorUser
         CreatorData.setCreatorUser
         CreatorData.creatorProfile CreatorData.posts].
    split; [done|]. split; [done|]. split.
    { unfold w2, w1. sent 2%nat. }
    split; [intros u' [= <-]; by right|]. split; [by left|by left].
  - apply Hrest;
      [done|intros c' [= <-]; right; by apply Hc|done|done|done
      |unfold w2, w1; cbn [calls record_call emit]; by rewrite <-app_assoc].
Qed.

Lemma next_calls (w : world) n :
  next_calls_succeed n w →
  (0 < n → failing w (length (calls w)) = None)%nat
  ∧ (1 < n → failing w (length (calls w) + 1) = None)%nat
  ∧ (2 < n → failing w (length (calls w) + 1 + 1) = None)%nat
  ∧ (3 < n → failing w (length (calls w) + 1 + 1 + 1) = None)%nat.
Proof.
  intros H. repeat split; intros Hn.
  - rewrite <-(Nat.add_0_r (length (calls w))). by apply H.
  - by apply H.
  - rewrite <-Nat.add_assoc. by apply H.
  - rewrite <-!Nat.add_assoc. by apply H.
Qed.

(** X25: when the creator id names exactly one [users] row and all calls go
    through, fetchCreatorData stores that row, the creator's at most 20
    newest published posts with the creator's id, name and avatar attached,
    and [isLoading] false, logs nothing and has sent the whole sequence of
    requests.  [creatorProfile] becomes the creator's profile row only when
    there is exactly one; otherwise it keeps the value it had.  With a
    signed-in user [isFollowing] becomes true exactly when there is one
    follows row from the user to the creator; without one it keeps its
    value. *)
Theorem fetchCreatorData_full_load (user : option User) (creatorId : uuid)
    (s : CreatorData.state) (w : world) (u : users_row) :
  next_calls_succeed 4 w →
  List.filter (λ u, N.eqb (u_id u) creatorId) (users (db w)) = [u] →
  let '(s', w') := CreatorData.fetchCreatorData user (Some creatorId) s w in
  CreatorData.creatorUser s' = Some u
  ∧ CreatorData.creatorProfile s'
    = match List.filter (λ c, N.eqb (cp_user_id c) creatorId)
              (creator_profiles (db w)) with
      | [c] => Some c
      | _ => CreatorData.creatorProfile s
      end
  ∧ CreatorData.posts s'
    = (λ post, (post, {| CreatorData.ci_id := u_id u;
                         CreatorData.ci_display_name := u_display_name u;
                         CreatorData.ci_photo_url := u_avatar_url u |}))
        <$> CreatorData.published_posts_of creatorId 20 (db w)
  ∧ CreatorData.isFollowing s'
    = match user with
      | Some usr =>
          bool_decide
            (length (Handlers.user_follows (uid usr) creatorId (db w)) = 1%nat)
      | None => CreatorData.isFollowing s
      end
  ∧ CreatorData.isLoading s' = false
  ∧ events w' = events w
  ∧ calls w' = calls w ++ CreatorData.requests user creatorId.
Proof.
  intros Hok Hu. apply next_calls in Hok as (H0 & H1 & H2 & H3).
  specialize (H0 ltac:(lia)). specialize (H1 ltac:(lia)).
  specialize (H2 ltac:(lia)). specialize (H3 ltac:(lia)).
  unfold CreatorData.fetchCreatorData, query_single, query.
  rewrite H0, Hu. cbn [calls db events record_call emit failing].
  rewrite length_app. cbn [length]. rewrite H1.
  unfold CreatorData.requests, Handlers.user_follows.
  destruct (List.filter (λ c, N.eqb (cp_user_id c) creatorId)
              (creator_profiles (db w))) as [|c [|c' cs]];
    cbn [calls db events record_call emit failing];
    rewrite ?bool_decide_eq_false_2 by (by intros H; apply H);
    cbn [calls db events record_call emit failing];
    rewrite !length_app; cbn [length]; rewrite H2;
    (destruct user as [usr|];
     [cbn [calls db events record_call emit failing];
      rewrite !length_app; cbn [length]; rewrite H3;
      destruct (List.filter _ (follows (db w))) as [|f [|f' fs]]
     |]);
    cbn [calls db events record_call emit failing CreatorData.isLoading
         CreatorData.setIsLoading CreatorData.setIsFollowing
         CreatorData.setPosts CreatorData.setCreatorUser
         CreatorData.setCreatorProfile CreatorData.creatorUser
         CreatorData.creatorProfile CreatorData.posts CreatorData.isFollowing
         length app];
    rewrite <-?app_assoc; done.
Qed.

Lemma fetchCreatorData_full_load_witness :
  let '(s', w') :=
    CreatorData.fetchCreatorData
      (Some {| uid := 3%N; email := "fan@example.org" |}) (Some 1%N)
      CreatorData.initial (reliable Triggers.two_followers) in
  CreatorData.creatorUser s'
  = Some {| u_id := 1%N; u_display_name := "creator"; u_avatar_url := None;
            u_role := role_creator; u_is_verified := false |}
  ∧ CreatorData.creatorProfile s'
    = match List.filter (λ c, N.eqb (cp_user_id c) 1%N)
              (creator_profiles Triggers.two_followers) with
      | [c] => Some c
      | _ => None
      end
  ∧ CreatorData.posts s'
    = (λ post, (post, {| CreatorData.ci_id := 1%N;
                         CreatorData.ci_display_name := "creator";
                         CreatorData.ci_photo_url := None |}))
        <$> CreatorData.published_posts_of 1%N 20 Triggers.two_followers
  ∧ CreatorData.isFollowing s'
    = bool_decide
        (length (Handlers.user_follows 3%N 1%N Triggers.two_followers) = 1%nat)
  ∧ CreatorData.isLoading s' = false
  ∧ events w' = []
  ∧ calls w'
    = CreatorData.requests (Some {| uid := 3%N; email := "fan@example.org" |})
        1%N.
Proof.
  apply (fetchCreatorData_full_load
           (Some {| uid := 3%N; email := "fan@example.org" |}) 1%N
           CreatorData.initial (reliable Triggers.two_followers)
           {| u_id := 1%N; u_display_name := "creator"; u_avatar_url := None;
              u_role := role_creator; u_is_verified := false |}).
  - by intros i _.
  - reflexivity.
Defined.

(** The page shown for creator 1 is reused for user 9, who has no profile
    row: the page keeps the profile of creator 1. *)
Example fetchCreatorData_keeps_profile_of_previous_creator :
  let other :=
    {| u_id := 9%N; u_display_name := "reader"; u_avatar_url := None;
       u_role := role_user; u_is_verified := false |} in
  let d := {| users := users Triggers.two_followers ++ [other];
              creator_profiles := creator_profiles Triggers.two_followers;
              Db.posts := []; series := [];
              follows := follows Triggers.two_followers;
              post_likes := []; post_comments := [];
              supporter_transactions := []; subscriptions := [] |} in
  let '(s1, w1) :=
    CreatorData.fetchCreatorData None (Some 1%N) CreatorData.initial (reliable d) in
  let '(s2, w2) := CreatorData.fetchCreatorData None (Some 9%N) s1 w1 in
  (u_id <$> CreatorData.creatorUser s2) = Some 9%N
  ∧ (cp_user_id <$> CreatorData.creatorProfile s2) = Some 1%N
  ∧ events w2 = [].
Proof. vm_compute. done. Qed.

End PageLoadProps.

(** ** Post form: handleSubmit *)
Module PostSubmitProps.
Import Client PostForm PostSubmit.

Section handleSubmit.
Variable toLowerCase : js_string → js_string.
Variable to_text : js_string → string.
Variable column_defaults : database → posts_row.
Variable returned_error_is_Error : bool.

Abbreviation submit :=
  (handleSubmit toLowerCase to_text column_defaults returned_error_is_Error).

Lemma fetchPosts_frame posts w :
  let '(posts', w') := fetchPosts posts w in
  db w' = db w
  ∧ calls w' = calls w ++ [posts_select_published 20]
  ∧ ∃ new, events w' = events w ++ new ∧ ∀ to, navigate to ∉ new.
Proof.
  unfold fetchPosts, query.
  destruct (failing w (length (calls w))) as [[e|e]|];
    cbn [db calls events record_call emit]; (split; [done|]); (split; [done|]).
  - eexists. split; [done|]. intros to [=]%list_elem_of_singleton.
  - eexists. split; [done|]. intros to [=]%list_elem_of_singleton.
  - exists []. split; [by rewrite app_nil_r|]. intros to ?%not_elem_of_nil. done.
Qed.

(** X26: handleSubmit always ends with [isLoading] false and sends at most
    two requests.  With blank editor content (empty, whitespace only or an
    empty paragraph) or without a user profile it sends none and leaves the
    database and the [posts] of the app data context alone; when the write
    fails the database is unchanged; and in all these cases the form stays
    where it is.  Otherwise, that is with content, a profile and a write that
    goes through, it sends the write, then the posts query, and navigates to
    the content dashboard as the last thing it does. *)
Theorem handleSubmit_writes_only_valid_posts (isEditMode : bool)
    (existingPost : option posts_row) (userProfile : option users_row)
    (editor : option js_string) (formData : CreatePostRequest)
    (posts : option (list posts_row)) (w : world) :
  let '(isLoading, posts', w') :=
    submit isEditMode existingPost userProfile editor formData posts w in
  isLoading = false
  ∧ (length (calls w') ≤ length (calls w) + 2)%nat
  ∧ (blank (default [] editor) = true ∨ userProfile = None →
     calls w' = calls w ∧ db w' = db w ∧ posts' = posts ∧ stayed w w')
  ∧ (failing w (length (calls w)) ≠ None →
     db w' = db w ∧ posts' = posts ∧ stayed w w')
  ∧ (blank (default [] editor) = false → is_Some userProfile →
     failing w (length (calls w)) = None →
     navigated w w'
     ∧ ∃ write, calls w' = calls w ++ [write; posts_select_published 20]).
Proof.
  unfold PostSubmit.handleSubmit, stayed, navigated.
  destruct (blank (default [] editor)) eqn:Hblank.
  { cbn [calls db events emit]. split; [done|]. split; [lia|].
    split; [|split; [|done]]; intros _; repeat (split; [done|]).
    - eexists. split; [done|]. intros to [=]%list_elem_of_singleton.
    - eexists. split; [done|]. intros to [=]%list_elem_of_singleton. }
  destruct userProfile as [up|].
  2:{ cbn [calls db events emit]. split; [done|]. split; [lia|].
      split; [|split; [|by intros _ []]]; intros _; repeat (split; [done|]).
      - eexists. split; [by rewrite <-app_assoc|].
        intros to [[=]|[=]%list_elem_of_singleton]%elem_of_cons.
      - eexists. split; [by rewrite <-app_assoc|].
        intros to [[=]|[=]%list_elem_of_singleton]%elem_of_cons. }
  assert (∀ rq run,
    let '(isLoading, posts', w') :=
      (let '(w1, error) := execute rq run w in
       match error with
       | Some f =>
           (false, posts,
            emit (setError "title"
                    (message returned_error_is_Error
                       (if isEditMode then "update" else "create") f))
              (emit (console_error
                       ("Failed to " +:+ (if isEditMode then "update" else "create")
                        +:+ " post:") f) w1))
       | None =>
           let '(posts', w2) := fetchPosts posts w1 in
           (false, posts', emit (navigate "/dashboard/content") w2)
       end) in
    isLoading = false
    ∧ (length (calls w') ≤ length (calls w) + 2)%nat
    ∧ (false = true ∨ Some up = None →
       calls w' = calls w ∧ db w' = db w ∧ posts' = posts ∧ stayed w w')
    ∧ (failing w (length (calls w)) ≠ None →
       db w' = db w ∧ posts' = posts ∧ stayed w w')
    ∧ (false = false → is_Some (Some up) →
       failing w (length (calls w)) = None →
       navigated w w'
       ∧ ∃ write, calls w' = calls w ++ [write; posts_select_published 20]))
    as Hwrite.
  { intros rq run. unfold execute, stayed, navigated.
    destruct (failing w (length (calls w))) as [f|] eqn:E.
    - cbn [calls db events emit record_call]. split; [done|].
      rewrite length_app. split; [simpl; lia|].
      split; [by intros [|]|]. split; [|done]. intros _.
      do 2 (split; [done|]).
      eexists. split; [by rewrite <-app_assoc|].
      intros to [[=]|[=]%list_elem_of_singleton]%elem_of_cons.
    - pose proof (fetchPosts_frame posts
        (with_db (run (db w)) (record_call rq w))) as Hf.
      destruct (fetchPosts _ _) as [posts' w2].
      destruct Hf as (Hdb & Hcalls & new & Hev & Hnew).
      cbn [calls db events emit record_call with_db] in *.
      split; [done|]. rewrite Hcalls, !length_app. split; [simpl; lia|].
      split; [by intros [|]|]. split; [done|]. intros _ _ _.
      split.
      + exists new. by rewrite Hev, <-app_assoc.
      + exists rq. by rewrite <-app_assoc. }
  destruct isEditMode, existingPost as [existing|]; apply Hwrite.
Qed.

Lemma posts_insert_synced NEW :
  Triggers.keeps_synced cp_posts_count set_cp_posts_count
    Triggers.posts_of_creator creator_profiles (Triggers.insert_posts NEW)
  ∧ Triggers.keeps_synced s_posts_count set_s_posts_count
      Triggers.posts_of_series series (Triggers.insert_posts NEW).
Proof.
  split; unfold Triggers.keeps_synced, Triggers.insert_posts;
    TriggerProps.synced_ins.
Qed.

Lemma shown_post_has_series d post_id created_at p :
  Feed.shows_visible_post d post_id created_at p →
  p ∈ posts d ∧ post_id = p_id p ∧ p_series_id p ≠ None.
Proof.
  intros (Hp & Hid & _ & _ & _ & s & _ & Hs & _). by rewrite Hs.
Qed.

(** X27: a new post with content, submitted by a user with a profile, when
    the insert goes through: the [posts] table gains exactly the one row
    made of the form's values over the column defaults, owned by the
    submitting user; the trigger keeps [creator_profiles.posts_count] and
    [series.posts_count] in step with the rows; and, since the form names no
    series, if the default of [series_id] is NULL and the new id is not in
    use, neither get_discovery_feed nor get_user_feed ever lists the post. *)
Theorem handleSubmit_creates_post_outside_feeds
    (existingPost : option posts_row) (userProfile : users_row)
    (editorContent : js_string) (formData : CreatePostRequest)
    (posts : option (list posts_row)) (w : world) :
  blank editorContent = false →
  failing w (length (calls w)) = None →
  p_series_id (column_defaults (db w)) = None →
  p_id (column_defaults (db w)) ∉ p_id <$> Db.posts (db w) →
  let NEW :=
    new_post to_text column_defaults (u_id userProfile) formData editorContent
      (db w) in
  let w' :=
    (submit false existingPost (Some userProfile) (Some editorContent)
       formData posts w).2 in
  Db.posts (db w') = Db.posts (db w) ++ [NEW]
  ∧ p_user_id NEW = u_id userProfile
  ∧ Triggers.stays_synced cp_posts_count set_cp_posts_count
      Triggers.posts_of_creator creator_profiles (db w) (db w')
  ∧ Triggers.stays_synced s_posts_count set_s_posts_count
      Triggers.posts_of_series series (db w) (db w')
  ∧ (∀ user_uuid feed_limit,
       Forall (λ r, Feed.df_post_id r ≠ p_id NEW)
         (FeedRows.rows (Feed.get_discovery_feed (db w') user_uuid feed_limit)))
  ∧ (∀ user_uuid feed_limit feed_offset,
       Forall (λ r, Feed.uf_post_id r ≠ p_id NEW)
         (FeedRows.rows
            (Feed.get_user_feed (db w') user_uuid feed_limit feed_offset))).
Proof.
  intros Hblank Hok Hseries Hfresh. cbn zeta.
  set (NEW := new_post to_text column_defaults (u_id userProfile) formData
                editorContent (db w)).
  assert (db (submit false existingPost (Some userProfile) (Some editorContent)
                formData posts w).2
          = Triggers.insert_posts NEW (db w)) as ->.
  { unfold PostSubmit.handleSubmit.
    change (default [] (Some editorContent)) with editorContent.
    rewrite Hblank.
    unfold execute. rewrite Hok.
    pose proof (fetchPosts_frame posts
      (with_db (Triggers.insert_posts NEW (db w))
         (record_call
            (posts_insert (u_id userProfile) (title formData) editorContent
               (slug toLowerCase (title formData)) (postNumber formData)
               (default true (isPublished formData))
               (or_null (thumbnailUrl formData))) w))) as Hf.
    fold NEW.
    destruct (fetchPosts _ _) as [posts' w2]. destruct Hf as (Hdb & _).
    cbn [snd db emit]. rewrite Hdb. done. }
  assert (Db.posts (Triggers.insert_posts NEW (db w)) = Db.posts (db w) ++ [NEW])
    as Hposts by done.
  destruct (posts_insert_synced NEW) as [Hcp Hs].
  split; [done|]. split; [done|]. split; [apply Hcp|]. split; [apply Hs|].
  assert (∀ p, p ∈ Db.posts (Triggers.insert_posts NEW (db w)) →
               p_series_id p ≠ None → p_id p ≠ p_id NEW) as Hother.
  { intros p Hp Hsome Hid. rewrite Hposts in Hp.
    apply elem_of_app in Hp as [Hp|Hp%list_elem_of_singleton].
    - apply Hfresh. apply list_elem_of_fmap. exists p. split; [|done].
      by rewrite Hid.
    - subst p. by apply Hsome. }
  split.
  - intros user_uuid feed_limit.
    pose proof (FeedProps.get_discovery_feed_rows
      (Triggers.insert_posts NEW (db w)) user_uuid feed_limit) as Hrows.
    eapply Forall_impl; [exact Hrows|]. intros r (p & Hshown).
    apply shown_post_has_series in Hshown as (Hp & -> & Hsome).
    by apply Hother.
  - intros user_uuid feed_limit feed_offset.
    pose proof (FeedProps.get_user_feed_rows
      (Triggers.insert_posts NEW (db w)) user_uuid feed_limit feed_offset)
      as Hrows.
    eapply Forall_impl; [exact Hrows|]. intros r (p & Hshown).
    apply shown_post_has_series in Hshown as (Hp & -> & Hsome).
    by apply Hother.
Qed.

End handleSubmit.

Lemma handleSubmit_creates_post_outside_feeds_witness :
  let author :=
    {| u_id := 1%N; u_display_name := "creator"; u_avatar_url := None;
       u_role := role_creator; u_is_verified := false |} in
  let NEW :=
    new_post ascii_text sample_defaults 1%N sample_form (js "<p>Hello</p>")
      Triggers.two_followers in
  let w' :=
    (handleSubmit ascii_toLowerCase ascii_text sample_defaults false
       false None (Some author) (Some (js "<p>Hello</p>")) sample_form None
       (reliable Triggers.two_followers)).2 in
  Db.posts (db w') = [NEW]
  ∧ p_user_id NEW = 1%N
  ∧ Triggers.stays_synced cp_posts_count set_cp_posts_count
      Triggers.posts_of_creator creator_profiles Triggers.two_followers (db w')
  ∧ Triggers.stays_synced s_posts_count set_s_posts_count
      Triggers.posts_of_series series Triggers.two_followers (db w')
  ∧ (∀ user_uuid feed_limit,
       Forall (λ r, Feed.df_post_id r ≠ p_id NEW)
         (FeedRows.rows (Feed.get_discovery_feed (db w') user_uuid feed_limit)))
  ∧ (∀ user_uuid feed_limit feed_offset,
       Forall (λ r, Feed.uf_post_id r ≠ p_id NEW)
         (FeedRows.rows
            (Feed.get_user_feed (db w') user_uuid feed_limit feed_offset))).
Proof.
  apply (handleSubmit_creates_post_outside_feeds ascii_toLowerCase ascii_text
           sample_defaults false None
           {| u_id := 1%N; u_display_name := "creator"; u_avatar_url := None;
              u_role := role_creator; u_is_verified := false |}
           (js "<p>Hello</p>") sample_form None
           (reliable Triggers.two_followers)).
  - vm_compute. reflexivity.
  - reflexivity.
  - reflexivity.
  - intros H. by apply not_elem_of_nil in H.
Defined.

(** The form's post: stored with slug [my-first-post], published by
    default, without thumbnail, and counted for its creator. *)
Example handleSubmit_of_sample_form :
  let author :=
    {| u_id := 1%N; u_display_name := "creator"; u_avatar_url := None;
       u_role := role_creator; u_is_verified := false |} in
  let '(isLoading, posts', w') :=
    handleSubmit ascii_toLowerCase ascii_text sample_defaults false
      false None (Some author) (Some (js "<p>Hello</p>")) sample_form None
      (reliable Triggers.two_followers) in
  calls w'
  = [ posts_insert 1%N (js "My first post") (js "<p>Hello</p>")
        (js "my-first-post") 1 true None;
      posts_select_published 20 ]
  ∧ events w' = [ navigate "/dashboard/content" ]
  ∧ (p_title <$> Db.posts (db w')) = [ "My first post" ]
  ∧ (cp_posts_count <$> creator_profiles (db w')) = [ Some 1 ]
  ∧ fmap (M := option) (fmap (M := list) p_id) posts' = Some [ 100%N ].
Proof. vm_compute. done. Qed.

(** Whitespace alone is turned away before anything is sent. *)
Example handleSubmit_blank_content :
  handleSubmit ascii_toLowerCase ascii_text sample_defaults false
    false None None (Some (js "   ")) sample_form None
    (reliable Triggers.two_followers)
  = (false, None,
     emit (setError "content" "Content is required")
       (reliable Triggers.two_followers)).
Proof. reflexivity. Qed.

End PostSubmitProps.

(** ** AuthProvider: the actions *)
Module AuthActionsProps.
Import Client AuthActions.

(** X28: signOut sends one request and never touches the database or
    [loading].  When the request goes through, [user], [userProfile],
    [creatorProfile] and [session] are all null afterwards and nothing is
    logged, so from then on no route that requires authentication renders
    its children and, once loading is over, each of them navigates to /login.
    When it fails, the state is exactly as before (the visitor stays signed
    in on the page), the error is returned and written to the console. *)
Theorem signOut_clears_the_session_or_nothing (s : state) (w : world) :
  let '(s', w', error) := signOut s w in
  db w' = db w
  ∧ calls w' = calls w ++ [auth_signOut]
  ∧ Auth.st_loading s' = Auth.st_loading s
  ∧ match error with
    | None =>
        failing w (length (calls w)) = None
        ∧ isAuthenticated s' = false
        ∧ Auth.st_userProfile s' = None
        ∧ Auth.st_creatorProfile s' = None
        ∧ Auth.st_session s' = None
        ∧ events w' = events w
        ∧ ProtectedRoute.render (ProtectedRoute.route true)
            (Auth.st_user s') (Auth.st_loading s') ≠ ProtectedRoute.children
        ∧ ∀ pathname,
            Auth.st_loading s = false →
            ProtectedRoute.effect (ProtectedRoute.route true)
              (Auth.st_user s') (Auth.st_loading s') pathname = Some "/login"
    | Some e =>
        s' = s
        ∧ (failing w (length (calls w)) = Some (returned e)
           ∨ failing w (length (calls w)) = Some (thrown e))
        ∧ ∃ label f, events w' = events w ++ [console_error label f]
    end.
Proof.
  unfold signOut, execute.
  destruct (failing w (length (calls w))) as [[e|e]|] eqn:E;
    cbn [db calls events record_call emit with_db];
    (split; [done|]); (split; [done|]); (split; [done|]).
  - split; [done|]. split; [by left|]. by eauto.
  - split; [done|]. split; [by right|]. by eauto.
  - unfold isAuthenticated, ProtectedRoute.render, ProtectedRoute.effect.
    cbn [Auth.st_user Auth.st_loading Auth.setSession Auth.setCreatorProfile
         Auth.setUserProfile Auth.setUser Auth.st_userProfile
         Auth.st_creatorProfile Auth.st_session].
    do 6 (split; [done|]). split.
    + by destruct (Auth.st_loading s).
    + by intros pathname ->.
Qed.

(** *** Becoming a creator *)

Lemma succeed_head n (w : world) :
  next_calls_succeed (S n) w → failing w (length (calls w)) = None.
Proof.
  intros H. rewrite <-(Nat.add_0_r (length (calls w))). apply H. lia.
Qed.

Lemma succeed_tail n (w w' : world) rq :
  next_calls_succeed (S n) w →
  failing w' = failing w → calls w' = calls w ++ [rq] →
  next_calls_succeed n w'.
Proof.
  intros H Hf Hc i Hi. rewrite Hf, Hc, length_app. cbn [length].
  rewrite <-Nat.add_assoc. apply H. simpl. lia.
Qed.

Lemma execute_ok rq run (w : world) :
  failing w (length (calls w)) = None →
  execute rq run w = (with_db (run (db w)) (record_call rq w), None).
Proof. intros H. unfold execute. by rewrite H. Qed.

Lemma query_single_ok {A} rq (read : database → list A) (w : world) row :
  failing w (length (calls w)) = None → read (db w) = [row] →
  query_single rq read w = (record_call rq w, inr row).
Proof. intros H Hr. unfold query_single, query. by rewrite H, Hr. Qed.

Lemma query_single_no_row {A} rq (read : database → list A) (w : world) :
  failing w (length (calls w)) = None → read (db w) = [] →
  query_single rq read w = (record_call rq w, inl (returned "PGRST116")).
Proof. intros H Hr. unfold query_single, query. by rewrite H, Hr. Qed.

(** The load of a creator's profiles when both queries go through. *)
Lemma loadUserProfile_creator (userId : uuid) (s : state) (w : world) u :
  next_calls_succeed 2 w →
  List.filter (λ u, N.eqb (u_id u) userId) (users (db w)) = [u] →
  u_role u = role_creator →
  loadUserProfile userId s w
  = match List.filter (λ c, N.eqb (cp_user_id c) userId)
            (creator_profiles (db w)) with
    | [c] =>
        (Auth.setCreatorProfile (Some c) (Auth.setUserProfile (Some u) s),
         record_call (creator_profiles_select_by_user userId)
           (record_call (users_select_by_id userId) w))
    | _ =>
        (Auth.setCreatorProfile None (Auth.setUserProfile (Some u) s),
         emit (console_error "[Auth] Error loading creator profile:"
                 (returned "PGRST116"))
           (record_call (creator_profiles_select_by_user userId)
              (record_call (users_select_by_id userId) w)))
    end.
Proof.
  intros Hok Hu Hrole. unfold loadUserProfile.
  rewrite (query_single_ok _ _ _ u) by (by apply succeed_head in Hok).
  rewrite Hrole. unfold query_single, query.
  cbn [calls db record_call failing].
  assert (failing w (length (calls w ++ [users_select_by_id userId])) = None)
    as ->.
  { rewrite length_app. apply Hok. simpl. lia. }
  by destruct (List.filter _ (creator_profiles (db w))) as [|c [|c' cs]].
Qed.

Lemma filter_UPDATE_WHERE_same {A} (f : A → bool) set (t : list A) :
  (∀ x, f (set x) = f x) →
  List.filter f (UPDATE_WHERE t set f) = set <$> List.filter f t.
Proof.
  intros Hf. unfold UPDATE_WHERE.
  induction t as [|x t IH]; csimpl; [done|].
  destruct (f x) eqn:E; csimpl.
  - by rewrite Hf, E, IH.
  - by rewrite E, IH.
Qed.

(** X29: a signed-in user with exactly one [users] row and no creator profile
    row calls createCreatorProfile and all six calls go through: the action
    resolves without error; the user's row has role creator and is the stored
    user profile; the [creator_profiles] table has gained one row for the
    user, with the default counters, and it is the stored creator profile;
    [isCreator] is true.  On the way the profile is loaded twice, and the
    first load, made before the profile row exists, writes one error to the
    console. *)
Theorem createCreatorProfile_makes_a_creator
    (profile_defaults : database → creator_profiles_row) (bio category : string)
    (s : state) (w : world) (user : User) (u : users_row) :
  Auth.st_user s = Some user →
  List.filter (λ u, N.eqb (u_id u) (uid user)) (users (db w)) = [u] →
  List.filter (λ c, N.eqb (cp_user_id c) (uid user)) (creator_profiles (db w)) = [] →
  next_calls_succeed 6 w →
  let d1 := update_role (uid user) role_creator (db w) in
  let '(s', w', result) :=
    createCreatorProfile profile_defaults bio category s w in
  result = resolved None
  ∧ Auth.st_userProfile s' = Some (set_u_role role_creator u)
  ∧ Auth.st_creatorProfile s' = Some (new_profile profile_defaults (uid user) d1)
  ∧ AuthLoad.isCreator s' = true
  ∧ db w' = insert_profile profile_defaults (uid user) d1
  ∧ calls w'
    = calls w ++ [ users_update_role (uid user) role_creator;
                   users_select_by_id (uid user);
                   creator_profiles_select_by_user (uid user);
                   creator_profiles_insert (uid user) bio category;
                   users_select_by_id (uid user);
                   creator_profiles_select_by_user (uid user) ]
  ∧ events w'
    = events w ++ [ console_error "[Auth] Error loading creator profile:"
                      (returned "PGRST116") ].
Proof.
  intros Huser Hu Hnone Hok. cbn zeta.
  set (d1 := update_role (uid user) role_creator (db w)).
  assert (List.filter (λ u, N.eqb (u_id u) (uid user)) (users d1)
          = [set_u_role role_creator u]) as Hu1.
  { unfold d1, update_role. cbn [users with_users].
    rewrite filter_UPDATE_WHERE_same by done. by rewrite Hu. }
  unfold createCreatorProfile, updateUserRole. rewrite Huser.
  rewrite execute_ok by (by apply succeed_head in Hok).
  cbn [role_of]. fold d1.
  set (w1 := with_db d1 (record_call (users_update_role (uid user) role_creator) w)).
  assert (next_calls_succeed 5 w1) as Hok1 by (by eapply succeed_tail).
  rewrite (loadUserProfile_creator (uid user) s w1 (set_u_role role_creator u));
    [|intros i Hi; apply Hok1; lia|exact Hu1|done].
  assert (creator_profiles (db w1) = creator_profiles (db w)) as Hcp by done.
  rewrite Hcp, Hnone.
  set (s1 := Auth.setCreatorProfile None _).
  set (w2 := emit _ _).
  assert (next_calls_succeed 3 w2) as Hok2.
  { apply (succeed_tail 3 (record_call (users_select_by_id (uid user)) w1) w2
             (creator_profiles_select_by_user (uid user))); [|done|done].
    by apply (succeed_tail 4 w1 _ (users_select_by_id (uid user))). }
  rewrite execute_ok by (by apply succeed_head in Hok2).
  set (w3 := with_db _ _).
  assert (next_calls_succeed 2 w3) as Hok3 by (by eapply succeed_tail).
  assert (db w3 = insert_profile profile_defaults (uid user) d1) as Hdb3 by done.
  rewrite (loadUserProfile_creator (uid user) s1 w3 (set_u_role role_creator u));
    [|exact Hok3|by rewrite Hdb3|done].
  rewrite Hdb3. unfold insert_profile at 1. cbn [creator_profiles with_creator_profiles].
  rewrite List.filter_app.
  assert (creator_profiles d1 = creator_profiles (db w)) as -> by done.
  rewrite Hnone. cbn [List.filter new_profile cp_user_id app].
  rewrite N.eqb_refl.
  unfold AuthLoad.isCreator, s1, w3, w2, w1.
  cbn [db calls events record_call emit with_db Auth.st_userProfile
       Auth.st_creatorProfile Auth.setUserProfile Auth.setCreatorProfile
       u_role set_u_role].
  rewrite <-!app_assoc. done.
Qed.

Lemma createCreatorProfile_makes_a_creator_witness :
  let d1 := update_role 7%N role_creator with_reader in
  let '(s', w', result) :=
    createCreatorProfile zero_counters "bio" "music" signed_in_reader
      (reliable with_reader) in
  result = resolved None
  ∧ Auth.st_userProfile s' = Some (set_u_role role_creator reader)
  ∧ Auth.st_creatorProfile s' = Some (new_profile zero_counters 7%N d1)
  ∧ AuthLoad.isCreator s' = true
  ∧ db w' = insert_profile zero_counters 7%N d1
  ∧ calls w'
    = [ users_update_role 7%N role_creator;
        users_select_by_id 7%N;
        creator_profiles_select_by_user 7%N;
        creator_profiles_insert 7%N "bio" "music";
        users_select_by_id 7%N;
        creator_profiles_select_by_user 7%N ]
  ∧ events w'
    = [ console_error "[Auth] Error loading creator profile:"
          (returned "PGRST116") ].
Proof.
  apply (createCreatorProfile_makes_a_creator zero_counters "bio" "music"
           signed_in_reader (reliable with_reader)
           {| uid := 7%N; email := "reader@example.org" |} reader).
  - reflexivity.
  - reflexivity.
  - reflexivity.
  - by intros i _.
Defined.

End AuthActionsProps.

(** ** Home *)
Module HomeProps.
Import AppData Home.

Lemma filter_length_Permutation {A} (f : A → bool) (l k : list A) :
  l ≡ₚ k → length (List.filter f l) = length (List.filter f k).
Proof.
  induction 1 as [|x l k _ IH|x y l|l k m _ IH1 _ IH2]; simpl; try done.
  - destruct (f x); simpl; by rewrite IH.
  - by destruct (f x), (f y).
  - by rewrite IH1.
Qed.

Lemma filter_length_le {A} (f : A → bool) (l : list A) :
  (length (List.filter f l) ≤ length l)%nat.
Proof. induction l as [|x l IH]; simpl; [done|]. destruct (f x); simpl; lia. Qed.

Lemma filter_nothing {A} (f : A → bool) (l : list A) :
  Forall (λ x, f x = false) l → List.filter f l = [].
Proof. induction 1 as [|x l Hx _ IH]; simpl; [done|]. by rewrite Hx. Qed.

(** In a list sorted newest first, the posts newer than the one at
    position [i] all stand before it. *)
Lemma newer_stand_before (all : list posts_row) (i : nat) (p : posts_row) :
  StronglySorted created_at_desc all → all !! i = Some p →
  (length (List.filter (λ q, p_is_published q
                             && Z.ltb (p_created_at p) (p_created_at q)) all)
   ≤ i)%nat.
Proof.
  intros Hsorted Hi.
  rewrite <-(take_drop_middle all i p Hi) in Hsorted |- *.
  apply StronglySorted_app in Hsorted as (_ & _ & Hrest).
  apply StronglySorted_inv in Hrest as [_ Hafter].
  rewrite List.filter_app. simpl.
  rewrite Z.ltb_irrefl, andb_false_r.
  rewrite (filter_nothing _ (drop (S i) all)).
  - rewrite app_nil_r. etransitivity; [apply filter_length_le|].
    rewrite length_take. lia.
  - eapply Forall_impl; [exact Hafter|]. intros q Hq. simpl.
    unfold created_at_desc in Hq. apply andb_false_intro2. by apply Z.ltb_ge.
Qed.

(** X30: after fetchPosts has gone through, the posts Home lists for the
    signed-in creator are published posts of the [posts] table written by
    that creator, and only such as are among the 20 newest published posts
    of all users: a post with 20 or more newer published posts is not
    listed, so a creator whose posts are all that old sees the welcome text
    of a page without posts. *)
Theorem home_lists_newest_posts_only (posts0 : option (list posts_row))
    (w : world) (profile : users_row) :
  call_succeeds w = true →
  let posts' := (fetchPosts posts0 w).1 in
  Forall (λ p, p ∈ Db.posts (db w) ∧ p_is_published p = true
               ∧ p_user_id p = u_id profile)
    (userPosts posts' (Some profile))
  ∧ (∀ p, (20 ≤ length (newer_published p (db w)))%nat →
          p ∉ userPosts posts' (Some profile))
  ∧ ((∀ p, p ∈ Db.posts (db w) → p_user_id p = u_id profile →
           (20 ≤ length (newer_published p (db w)))%nat) →
     shows_welcome posts' (Some profile) = true).
Proof.
  intros Hok. cbn zeta. unfold call_succeeds in Hok.
  unfold fetchPosts, query.
  destruct (failing w (length (calls w))); [done|]. cbn [fst].
  unfold userPosts, published_posts.
  set (found := List.filter p_is_published (Db.posts (db w))).
  pose proof (merge_sort_Permutation created_at_desc found) as Hperm.
  pose proof (StronglySorted_merge_sort created_at_desc found
                (Transitive0 := FetchProps.created_at_desc_trans)
                (Total0 := FetchProps.created_at_desc_total)) as Hsorted.
  assert (∀ p, p ∈ List.filter (λ post, N.eqb (p_user_id post) (u_id profile))
                     (take 20 (merge_sort created_at_desc found)) →
               (p ∈ Db.posts (db w) ∧ p_is_published p = true
                ∧ p_user_id p = u_id profile)
               ∧ (length (newer_published p (db w)) < 20)%nat) as Hlisted.
  { intros p Hp. apply FeedProps.elem_of_filter_bool in Hp as [Hp Hid].
    apply N.eqb_eq in Hid.
    apply list_elem_of_lookup in Hp as [i Hi].
    apply lookup_take_Some in Hi as [Hi Hlt].
    assert (p ∈ found) as Hin.
    { rewrite <-Hperm. by eapply list_elem_of_lookup_2. }
    apply FeedProps.elem_of_filter_bool in Hin as [Hin Hpub].
    split; [done|].
    pose proof (newer_stand_before _ i p Hsorted Hi) as Hnewer.
    rewrite (filter_length_Permutation _ _ _ Hperm) in Hnewer.
    unfold newer_published.
    assert (length (List.filter (λ q, p_is_published q
                                      && Z.ltb (p_created_at p) (p_created_at q))
                      (Db.posts (db w)))
            = length (List.filter (λ q, p_is_published q
                                        && Z.ltb (p_created_at p) (p_created_at q))
                        found)) as ->; [|lia].
    unfold found. clear. induction (Db.posts (db w)) as [|q l IH]; simpl; [done|].
    destruct (p_is_published q) eqn:E; simpl; rewrite ?E; simpl;
      [destruct (_ <? _); simpl|]; by rewrite IH. }
  split; [|split].
  - apply Forall_forall. intros p Hp. by apply Hlisted in Hp as [? _].
  - intros p Hmany Hp. apply Hlisted in Hp as [_ Hfew]. lia.
  - intros Hold. unfold shows_welcome, userPosts.
    apply bool_decide_eq_true.
    destruct (List.filter _ (take 20 _)) as [|p l]; [done|].
    destruct (Hlisted p) as [(Hin & _ & Hid) Hfew]; [left|].
    specialize (Hold p Hin Hid). lia.
Qed.

Lemma home_lists_newest_posts_only_witness :
  let profile := Feed.sample_user 1%N "asha" in
  let posts' := (fetchPosts None (reliable crowded)).1 in
  Forall (λ p, p ∈ Db.posts crowded ∧ p_is_published p = true
               ∧ p_user_id p = u_id profile)
    (userPosts posts' (Some profile))
  ∧ (∀ p, (20 ≤ length (newer_published p crowded))%nat →
          p ∉ userPosts posts' (Some profile))
  ∧ ((∀ p, p ∈ Db.posts crowded → p_user_id p = u_id profile →
           (20 ≤ length (newer_published p crowded))%nat) →
     shows_welcome posts' (Some profile) = true).
Proof.
  exact (home_lists_newest_posts_only None (reliable crowded)
           (Feed.sample_user 1%N "asha") eq_refl).
Defined.

(** Creator 1 has a published post and is told to create a first one. *)
Example home_welcomes_creator_with_a_post :
  let profile := Feed.sample_user 1%N "asha" in
  (p_id <$> List.filter (λ p, N.eqb (p_user_id p) 1%N && p_is_published p)
              (Db.posts crowded)) = [ 11%N ]
  ∧ shows_welcome (fetchPosts None (reliable crowded)).1 (Some profile) = true.
Proof. vm_compute. done. Qed.

End HomeProps.
